(* ===== verification/_CoqProject ===== *)
-Q . S2P
Prelude.v
TextNorm.v
PdfText.v
Config.v
Startup.v
Qualifications.v
SkillNorm.v
Experience.v
WorkPeriods.v
Scorer.v
Ranker.v
Pipeline.v
Service.v
