(* ===== verification/Prelude.v ===== *)
(** * A verification development of the resume-ranking service

    The repository is a Flask service ([src/app.py], configured by
    [src/config.py]) that ranks the resumes stored for a job against the
    job description, with the text heuristics of
    [src/utils/resume_utils.py].  This development models those files in
    Rocq as executable definitions and proves what they do.

    ** The program and its parts

    - PDF text ([extract_text_from_pdf]): the text of every page, each
      followed by a space; an exception keeps what was read.
    - Text normaliser ([preprocess_text]): the abbreviation [re.sub],
      lower-case, drop every character outside [a-z0-9_] and whitespace,
      collapse whitespace runs, strip.  Its output goes to the embedding
      model and nowhere else.
    - Skill and qualification normalisers ([normalize_skill],
      [normalize_qualification]): they give the canonical keys that the
      scorer compares.
    - Signal extractors: [extract_skills_dynamic] (a spaCy pass plus a
      filter), [extract_qualifications] (a word-bounded regex),
      [extract_experience] (three regexes).
    - Experience-window parser ([parse_required_experience]): turns job-side
      duration phrases into a (min, max) window in months.
    - Work-period extractor ([extract_work_experience_section],
      [extract_work_periods], [total_experience_in_months]) and
      [format_months]: candidate-side experience in months.
    - Scorer (the loop body of [rank_resumes], app.py 189-234): experience
      verdict, F1 of the skill overlap, and the 0.3 penalty.
    - Ranker (app.py 236-248): square-root display scaling to a random
      ceiling in [91, 99], stable descending sort, 1-based ranks.
    - Cache gate and handler ([rank_resumes], app.py 88-258): validates the
      request, reads the pool and the stored ranking from Firestore, reuses
      the ranking when the email sets agree, and otherwise fetches each PDF,
      extracts its text, recomputes and stores the ranking.
    - The other endpoints ([home], [health_check]) and the 404/500 handlers
      (app.py 60-86, 260-267).
    - Configuration: the classes of [config.py] as evaluated at import time,
      and the environment variables [app.py] reads (CORS origins, the
      Firebase key path, the port and the debug flag).
    - Start-up: [load_models] (with its download fallback), the module body
      of [app.py] (CORS, Firebase, the models, each failure logged and
      re-raised) and its [__main__] block ([int(PORT)], [app.run]).

    ** Files, in dependency order

    - [Prelude] (this file).  Python text is [list N], a list of Unicode
      code points.  It defines:
      - the character classes of Python's [re] and [str] ([\s], [\d],
        [A-Za-z], word characters, [lower()]);
      - a small parser monad with its own notation, used to write one
        matcher per regular expression;
      - the leftmost-first, non-overlapping [findall], [search] and [sub]
        of [re], with fuel equal to the length of the text;
      - decimal printing and parsing of integers;
      - the hint database [textdb].
      None of these is a definition of the repository: they are the
      library the models are written in.
    - [TextNorm]: [preprocess_text] as four stages, one per line of the
      source; the first is [re_sub] over its pattern.
    - [PdfText]: [extract_text_from_pdf].  PyPDF2 is a typeclass [PdfLib]
      whose pages may raise.
    - [Config]: [config.py] (the configuration classes and the [config]
      mapping, which fails when [SECRET_KEY] is unset) and the settings of
      [app.py]; Python's [str.split], [str.join] and [int()].
    - [Startup]: start-up as a state and exception monad [M] (stdpp's
      [MRet]/[MBind] instances) over the machine: the spaCy packages, what
      [python] names, the download, the Firebase key, the embedding model,
      and the ordered log of observable events.  A flat table of traces
      ([startup_spec]) is its specification.
    - [SkillNorm]: [normalize_skill] and the filtering part of
      [extract_skills_dynamic].  The spaCy collaborator is a typeclass
      [NlpModel].
    - [Qualifications]: the [\b(...)\b] scan of [extract_qualifications]
      with the backtracking order of the alternation, and
      [normalize_qualification].
    - [Experience]: the three matchers of [extract_experience], the
      classifier of [parse_required_experience], and the window.
    - [WorkPeriods]: the section regex, the two date-range matchers, the
      dateutil month table, month arithmetic, [total_experience_in_months]
      and [format_months].
    - [Scorer]: scores as exact rationals [Q] (QArith).
    - [Ranker]: display scores in integer cents, the stable descending
      insertion sort, and rank assignment.
    - [Pipeline]: the [/rank] handler, split into the cache gate
      ([cache_lookup]) and the recompute ([recompute]).  The store is a
      record with the [resumes] collection and a [gmap] of snapshots.  The
      collaborators are a record [services]: HTTP fetch, the PDF library,
      the spaCy model, the embedding similarity and the current month.  The
      random ceiling is an argument.  The file ends with a concrete pool of
      three resumes that the examples run end to end.
    - [Service]: the other endpoints as JSON values, and the store as a
      state machine: an Inductive [step] (a ranking request, or the front
      end appending a resume) and its closure [reachable].

    Each file is one [Module]; a file requires the files it calls.  The
    spaCy model and PyPDF2 are classes; the extractors are proved for every
    instance of them.

    ** What the theorems show (the manifest lists them as claims C1-C34)

    - Handler and cache gate (C1-C3, C6-C8):
      - The store changes only on a recompute, and then holds exactly the
        returned list.
      - When every e-mailed resume can be processed, the next call is served
        from the cache.
      - A skipped resume with its own e-mail defeats the cache on every call
        (spec 4.8 and 8 say an unchanged pool reuses the snapshot).
      - A recompute ranks exactly the processable resumes, sorted, 1..n.
      - A job text with no extractable skill always ends in a 500 (or a
        404), given one similarity score per resume.
      - The similarity scores never influence the response.
    - Service (C4, C5): by rule induction on [reachable], every stored
      ranking stays well formed (ranks 1..n, sorted, scores in [0, 99.00],
      only e-mails of its job); and progress: a pool with a processable
      resume of positive score is always answered with a ranking.
    - Scorer (C9, C10, C29, C30):
      - The F1 expression equals 2|M| / (|R| + |J|).
      - The score lies in [0, 1].
      - Without a matched skill the score is 0, so the penalty's
        skill trigger never matters.
      - Repeating a resume key keeps the matched skills and strictly lowers
        any non-zero score (spec 4.6 speaks of sets).
    - Ranker (C11-C13):
      - A successful ranking is the stable descending sort of the
        candidates with their display scores, ranked 1..n.
      - Scores lie in [0, top], and the top candidate shows [top] exactly.
      - A non-empty pool fails exactly when every raw score is 0.
    - PDF text (C14, C15): the loop equals a reference definition (so a
      failing page silently truncates the resume); the empty-text check
      and the length of the text.
    - Start-up (C16-C18): [load_models] succeeds exactly when the model is
      installed or downloadable into the running interpreter, downloads at
      most once, and returns the models [config.py] names; start-up
      refines the trace table, so CORS comes first, the download only after
      Firebase, [app.run] only last, every failure but [PORT]'s is logged;
      and the server runs exactly when the key, the models and [PORT] are
      good, with [Config]'s port and debug flag.
    - Window (C19, C20, C31): the min-of-mins / max-of-maxes envelope,
      invariance under reordering and repetition, and, for every number N,
      "N+ years" losing its bound while "N years" is extracted.
    - Work periods (C21, C22, C32, C33):
      - Every kept period lies in [0, 600].
      - [format_months] round-trips.
      - "present" follows the clock.
      - The fallback section regex is dead code.
    - Normalisers (C23, C25, C26):
      - [normalize_skill] is idempotent exactly on keys that do not end in
        "js" (not in general, contrary to spec 8).
      - [preprocess_text] produces normalised text and fixes it.
    - Extractors (C24, C34):
      - "bachelor's" and "master's" are never extracted.
      - Extracted skills are disjoint from the qualifications.
    - Configuration (C27, C28): importing [config.py] fails exactly
      without [SECRET_KEY]; the CORS origins of [app.py] and [config.py]
      agree exactly when [ALLOWED_ORIGINS] is set.
    - Theorems that are not claims: the stable sort's correctness, [split]
      and [join], [int(str(n)) = n], the scans' fuel, and examples showing
      the pronoun "it" extracted as a qualification, a PDF truncated at a
      failing page, a ranking order that changes with the ceiling, and a
      work section cut short by a "Word word:" line or opened by the word
      "experience" in prose.

    ** Bounds and fuel

    - Every scan over a text of length [n] uses fuel [n].  Each productive
      step consumes at least one character, and the theorems
      [findall_go_fuel] and [search_go_fuel] show that more fuel changes
      nothing; [extract_qualifications_fuel] states it for the
      qualification scan.
    - The insertion sort and the other list functions are structural.
    - Integers of [config.py] and [app.py] are Python integers, so [Z]
      without a width.

    ** What is exact, and what is approximated

    - Characters: the model follows Python on ASCII text and on the en dash
      that the patterns name.  Python's [\d], [\b], [lower()] and [int()]
      also act on other Unicode letters and digits; the model treats those
      code points as non-letters and non-digits.  [\s] is Python's full
      whitespace set.
    - Floats: Python computes scores in binary64.  The model computes the
      same expressions exactly in [Q], and rounds the square root to the
      nearest cent, with ties rounded up.
    - dateutil: the model accepts dateutil's month names and numeric months
      1-12.  Every other word is a parse failure.  (dateutil also accepts a
      few weekday and filler words.)
    - Collaborators: Firestore, HTTP, PyPDF2, spaCy, the sentence-transformer
      model, [random.randint] and [datetime.today()] are parameters, not
      models.  Exceptions of Firestore itself, of the embedding model and
      of spaCy during a request are not modelled.  The request body is
      modelled as [get_json()] sees it: invalid or non-object JSON raises
      inside the handler's [try] and is answered 500.
    - Start-up: spaCy, pip, Firebase and sentence-transformers are
      outcomes the world fixes; log lines stop before the formatted
      exception; [logging.basicConfig] and [Flask(__name__)] have no
      observable effect and are left out.
    - Not modelled: [test_api.py], an HTTP client script that posts one
      request and prints the response: it has no logic of its own to
      verify (its job text appears in an Experience example). *)

From stdpp Require Import base list gmap sets strings.
From Stdlib Require Import NArith ZArith Lia.
From Stdlib Require String Ascii.
Export String.StringSyntax.

(** ** Text as a list of code points *)

Abbreviation text := (list N).

(** [str "abc"] is the code-point list of an ASCII literal. *)
Definition str (s : string) : text :=
  map Ascii.N_of_ascii (String.list_ascii_of_string s).

Declare Scope text_scope.
Delimit Scope text_scope with text.
Notation "‹ s ›" := (str s%string) (at level 0, format "‹ s ›") : text_scope.
Open Scope text_scope.

(** Code points named by the source's patterns. *)
Definition ch_space : N := 32.
Definition ch_newline : N := 10.
Definition ch_dot : N := 46.
Definition ch_dash : N := 45.
Definition ch_endash : N := 8211.
Definition ch_colon : N := 58.
Definition ch_slash : N := 47.
Definition ch_underscore : N := 95.

(** ** Character classes *)

(** Python's [\s] on [str] patterns, which is also [str.isspace]. *)
Definition is_space (c : N) : bool :=
  (((9 <=? c) && (c <=? 13)) || ((28 <=? c) && (c <=? 32)) ||
  (c =? 133) || (c =? 160) || (c =? 5760) ||
  ((8192 <=? c) && (c <=? 8202)) || (c =? 8232) || (c =? 8233) ||
  (c =? 8239) || (c =? 8287) || (c =? 12288))%N.

Definition is_digit (c : N) : bool := ((48 <=? c) && (c <=? 57))%N.
Definition is_upper (c : N) : bool := ((65 <=? c) && (c <=? 90))%N.
Definition is_lower (c : N) : bool := ((97 <=? c) && (c <=? 122))%N.
Definition is_alpha (c : N) : bool := is_upper c || is_lower c.

(** [\w]: letters, digits and underscore. *)
Definition is_word (c : N) : bool := is_alpha c || is_digit c || (c =? ch_underscore)%N.

(** [str.lower] on one code point. *)
Definition lower_char (c : N) : N := if is_upper c then (c + 32)%N else c.

Definition lower (t : text) : text := map lower_char t.

(** ** Python string helpers *)

Fixpoint drop_while (p : N -> bool) (t : text) : text :=
  match t with [] => [] | c :: r => if p c then drop_while p r else t end.

Fixpoint take_while (p : N -> bool) (t : text) : text :=
  match t with [] => [] | c :: r => if p c then c :: take_while p r else [] end.

(** [s.strip()] *)
Definition strip (t : text) : text :=
  rev (drop_while is_space (rev (drop_while is_space t))).

(** [s.endswith(u)] and [u in s]. *)
Definition ends_with (u t : text) : bool := bool_decide (u `suffix_of` t).

Definition starts_with (u t : text) : bool := bool_decide (u `prefix_of` t).

Fixpoint contains (u t : text) : bool :=
  starts_with u t || match t with [] => false | _ :: r => contains u r end.

(** ** A parser monad for the regular expressions

    A matcher reads a suffix of the text and returns what it captured and
    the rest.  Every pattern of the source is written with these
    combinators, and greedy repetition is [p_many].  For each pattern, the
    file that defines it argues why the first success of the combinators is
    the match of Python's backtracking engine. *)

Definition parser (A : Type) : Type := text -> option (A * text).

Definition p_ret {A} (a : A) : parser A := fun t => Some (a, t).
Definition p_fail {A} : parser A := fun _ => None.
Definition p_bind {A B} (p : parser A) (f : A -> parser B) : parser B :=
  fun t => match p t with Some (a, r) => f a r | None => None end.

Declare Scope parser_scope.
Delimit Scope parser_scope with parser.
Notation "x <- p ;; q" := (p_bind p (fun x => q))
  (at level 100, p at next level, right associativity) : parser_scope.
Notation "p ;;; q" := (p_bind p (fun _ => q))
  (at level 100, right associativity) : parser_scope.

(** One character of a class. *)
Definition p_sat (f : N -> bool) : parser N :=
  fun t => match t with c :: r => if f c then Some (c, r) else None | [] => None end.

(** A literal, compared exactly or under [re.IGNORECASE]. *)
Fixpoint p_lit (u : text) : parser text :=
  fun t => match u, t with
           | [], _ => Some ([], t)
           | a :: u', c :: r => if N.eqb a c then
                                  match p_lit u' r with
                                  | Some (m, r') => Some (c :: m, r')
                                  | None => None end
                                else None
           | _ :: _, [] => None
           end.

Fixpoint p_lit_ci (u : text) : parser text :=
  fun t => match u, t with
           | [], _ => Some ([], t)
           | a :: u', c :: r => if N.eqb (lower_char a) (lower_char c) then
                                  match p_lit_ci u' r with
                                  | Some (m, r') => Some (c :: m, r')
                                  | None => None end
                                else None
           | _ :: _, [] => None
           end.

(** [x*] (greedy), [x+], [x{n}] and [x|y] (first alternative that matches). *)
Definition p_many (f : N -> bool) : parser text :=
  fun t => Some (take_while f t, drop_while f t).

Definition p_many1 (f : N -> bool) : parser text :=
  fun t => match take_while f t with [] => None | m => Some (m, drop_while f t) end.

Fixpoint p_count (n : nat) (f : N -> bool) : parser text :=
  match n with
  | O => p_ret []
  | S n' => p_bind (p_sat f) (fun c => p_bind (p_count n' f) (fun m => p_ret (c :: m)))
  end.

Definition p_alt {A} (p q : parser A) : parser A :=
  fun t => match p t with Some x => Some x | None => q t end.

(** ** [re.findall] and [re.search]

    The scan tries the matcher at each position from left to right.  After a
    match it resumes where the match ended; otherwise it advances by one
    character.  The matcher also sees the character before the position,
    which is what [\b] needs.  None of the patterns of the source matches
    the empty string, so a match that consumes nothing counts as a failure
    here. *)

Fixpoint findall_go {A} (m : option N -> parser A) (fuel : nat)
    (prev : option N) (t : text) : list A :=
  match fuel, t with
  | O, _ | _, [] => []
  | S f, c :: r =>
      match m prev t with
      | Some (a, rest) =>
          if length rest <? length t
          then a :: findall_go m f (last (take (length t - length rest) t)) rest
          else findall_go m f (Some c) r
      | None => findall_go m f (Some c) r
      end
  end.

Definition findall {A} (m : option N -> parser A) (t : text) : list A :=
  findall_go m (length t) None t.

Fixpoint search_go {A} (m : option N -> parser A) (fuel : nat)
    (prev : option N) (t : text) : option (A * text) :=
  match fuel, t with
  | O, _ | _, [] => None
  | S f, c :: r =>
      match m prev t with
      | Some x => Some x
      | None => search_go m f (Some c) r
      end
  end.

(** [re.search]: the first match, with the text after it. *)
Definition search {A} (m : option N -> parser A) (t : text) : option (A * text) :=
  search_go m (length t) None t.

(** [re.sub]: the same scan, with each match replaced by [repl] of its
    groups and every other character copied. *)
Fixpoint sub_go {A} (m : option N -> parser A) (repl : A -> text) (fuel : nat)
    (prev : option N) (t : text) : text :=
  match fuel, t with
  | O, _ => t
  | _, [] => []
  | S f, c :: r =>
      match m prev t with
      | Some (a, rest) =>
          if length rest <? length t
          then repl a ++ sub_go m repl f (last (take (length t - length rest) t)) rest
          else c :: sub_go m repl f (Some c) r
      | None => c :: sub_go m repl f (Some c) r
      end
  end.

Definition re_sub {A} (m : option N -> parser A) (repl : A -> text) (t : text) : text :=
  sub_go m repl (length t) None t.

(** [re.findall] with one group returns the text of the group; here the
    group is the whole match. *)
Definition p_capture {A} (p : parser A) : parser text :=
  fun t => match p t with
           | Some (_, r) => Some (take (length t - length r) t, r)
           | None => None
           end.

(** [x?] for one character (greedy). *)
Definition p_opt_char (c : N) : parser text :=
  fun t => match t with
           | d :: r => if N.eqb c d then Some ([d], r) else Some ([], t)
           | [] => Some ([], [])
           end.

(** ** Decimal integers: [int(s)] on a digit string and [str(n)] *)

Definition digits_value (t : text) : Z :=
  fold_left (fun acc c => 10 * acc + (Z.of_N c - 48))%Z t 0%Z.

Fixpoint show_digits (fuel : nat) (n : Z) (acc : text) : text :=
  match fuel with
  | O => acc
  | S f =>
      let acc' := (48 + Z.to_N (n mod 10))%N :: acc in
      if (n <? 10)%Z then acc' else show_digits f (n / 10)%Z acc'
  end.

(** [str(n)]; the fuel bounds the number of decimal digits. *)
Definition show_nonneg (n : Z) : text :=
  show_digits (S (Z.to_nat (Z.log2 n))) n [].

Definition show_Z (n : Z) : text :=
  if (n <? 0)%Z then ch_dash :: show_nonneg (- n) else show_nonneg n.

(** [\d+] read with [int(...)] *)
Definition p_int : parser Z :=
  p_bind (p_many1 is_digit) (fun d => p_ret (digits_value d)).

(** ** [min] and [max] of a Python list of ints, [None] for the empty list *)

Definition py_min (l : list Z) : option Z :=
  match l with [] => None | x :: r => Some (fold_left Z.min r x) end.

Definition py_max (l : list Z) : option Z :=
  match l with [] => None | x :: r => Some (fold_left Z.max r x) end.

(** ** Shared automation *)

Create HintDb textdb discriminated.
Create Rewrite HintDb textdb.

(** Turn the boolean character tests into arithmetic and finish with [lia].
    [is_space] is kept folded: use [is_space_range] for it. *)
Ltac char_class :=
  unfold lower_char, is_word, is_alpha, is_upper, is_lower, is_digit,
    ch_space, ch_underscore, ch_dot, ch_dash, ch_colon, ch_newline, ch_slash in *;
  rewrite ?orb_true_iff, ?andb_true_iff, ?orb_false_iff, ?andb_false_iff,
    ?N.leb_le, ?N.leb_gt, ?N.eqb_eq, ?N.eqb_neq in *;
  lia.

Lemma is_space_range (c : N) : is_space c = true -> (c <= 32 \/ 133 <= c)%N.
Proof.
  unfold is_space. rewrite !orb_true_iff, !andb_true_iff, !N.leb_le, !N.eqb_eq. lia.
Qed.

Lemma is_space_word (c : N) : is_word c = true -> is_space c = false.
Proof.
  intros Hw. destruct (is_space c) eqn:E; [|done].
  apply is_space_range in E. exfalso. revert Hw E. char_class.
Qed.

Lemma is_space_32 : is_space ch_space = true.
Proof. reflexivity. Qed.

Lemma lower_char_not_upper (c : N) : is_upper c = false -> lower_char c = c.
Proof. unfold lower_char. by intros ->. Qed.

Lemma lower_char_idem (c : N) : lower_char (lower_char c) = lower_char c.
Proof.
  unfold lower_char. destruct (is_upper c) eqn:E; [|by rewrite E].
  replace (is_upper (c + 32)%N) with false; [done|].
  symmetry. revert E. char_class.
Qed.

Lemma lower_app (a b : text) : lower (a ++ b) = lower a ++ lower b.
Proof. apply map_app. Qed.

Lemma lower_idem (t : text) : lower (lower t) = lower t.
Proof. unfold lower. rewrite map_map. apply map_ext. apply lower_char_idem. Qed.

(** [lia] with [Z.div] and [Z.modulo] turned into their defining equations. *)
Ltac zlia := Z.to_euclidean_division_equations; lia.

(** Close a decidable goal on closed data by evaluation. *)
Ltac decide_closed :=
  lazymatch goal with |- ?P => apply (bool_decide_unpack P); vm_compute; exact I end.

(** ** Generic lemmas on the scans and on the helpers *)
Lemma take_drop_while (p : N -> bool) (t : text) :
  take_while p t ++ drop_while p t = t.
Proof. induction t as [|c r IH]; simpl; [done|]. destruct (p c); simpl; by f_equal. Qed.

Lemma length_drop_while (p : N -> bool) (t : text) :
  length (drop_while p t) <= length t.
Proof. induction t as [|c r IH]; simpl; [lia|]. destruct (p c); simpl; lia. Qed.

Lemma drop_while_head (p : N -> bool) (t : text) c r :
  drop_while p t = c :: r -> p c = false.
Proof.
  induction t as [|d t IH]; simpl; [done|].
  destruct (p d) eqn:E; [exact IH|]. by intros [= -> _].
Qed.

Lemma Forall_take_while (p : N -> bool) (t : text) :
  Forall (fun c => p c = true) (take_while p t).
Proof.
  induction t as [|c r IH]; simpl; [constructor|].
  destruct (p c) eqn:E; constructor; auto.
Qed.

Lemma drop_while_suffix (p : N -> bool) (t : text) : drop_while p t `suffix_of` t.
Proof.
  induction t as [|c r IH]; simpl; [done|].
  destruct (p c); [by apply suffix_cons_r | done].
Qed.

Lemma drop_while_id (p : N -> bool) (t : text) :
  default false (p <$> head t) = false -> drop_while p t = t.
Proof. destruct t as [|c r]; simpl; [done|]. by intros ->. Qed.

Lemma head_drop_while (p : N -> bool) (t : text) :
  default false (p <$> head (drop_while p t)) = false.
Proof.
  destruct (drop_while p t) as [|c r] eqn:E; simpl; [done|].
  by apply drop_while_head in E.
Qed.

(** The last element of a non-empty suffix is the last element. *)
Lemma last_suffix (l s : text) (c : N) : s `suffix_of` l -> last s = Some c -> last l = Some c.
Proof. intros [k ->] Hs. by rewrite last_app, Hs. Qed.

Lemma last_rev_head (l : text) : last (rev l) = head l.
Proof. destruct l as [|c l]; simpl; [done|]. by rewrite last_snoc. Qed.

Lemma head_rev_last (l : text) : head (rev l) = last l.
Proof. rewrite <- (rev_involutive l) at 2. by rewrite last_rev_head. Qed.

(** [strip()] leaves alone a text that neither starts nor ends with
    whitespace, and its result never does. *)
Lemma strip_id (t : text) :
  default false (is_space <$> head t) = false -> default false (is_space <$> last t) = false ->
  strip t = t.
Proof.
  intros Hh Hl. unfold strip. rewrite (drop_while_id _ t Hh).
  rewrite drop_while_id; [apply rev_involutive|]. by rewrite head_rev_last.
Qed.

Lemma strip_last (t : text) : default false (is_space <$> last (strip t)) = false.
Proof. unfold strip. rewrite last_rev_head. apply head_drop_while. Qed.

Lemma strip_head (t : text) : default false (is_space <$> head (strip t)) = false.
Proof.
  unfold strip. rewrite head_rev_last.
  destruct (last (drop_while is_space (rev (drop_while is_space t)))) as [c|] eqn:E; [|done].
  apply last_suffix with (l := rev (drop_while is_space t)) in E; [|apply drop_while_suffix].
  rewrite last_rev_head in E. pose proof (head_drop_while is_space t) as H.
  rewrite E in H. exact H.
Qed.

Lemma elem_of_drop_while (p : N -> bool) (t : text) (c : N) : c ∈ drop_while p t -> c ∈ t.
Proof.
  induction t as [|d r IH]; simpl; [done|].
  destruct (p d); [intros H; right; by apply IH | done].
Qed.

Lemma elem_of_rev (t : text) (c : N) : c ∈ rev t <-> c ∈ t.
Proof. rewrite !list_elem_of_In. split; [apply in_rev | apply in_rev]. Qed.

Lemma elem_of_strip (t : text) (c : N) : c ∈ strip t -> c ∈ t.
Proof.
  unfold strip. rewrite elem_of_rev. intros H.
  apply elem_of_drop_while, elem_of_rev, elem_of_drop_while in H. exact H.
Qed.

Lemma drop_while_nil_iff (p : N -> bool) (t : text) :
  drop_while p t = [] <-> Forall (fun c => p c = true) t.
Proof.
  induction t as [|c r IH]; simpl; [split; [constructor | done]|].
  rewrite Forall_cons. destruct (p c) eqn:E; [rewrite IH; tauto|]. split; [done | by intros [? _]].
Qed.

(** [s.strip()] is empty exactly when [s] is all whitespace. *)
Lemma strip_nil_iff (t : text) : strip t = [] <-> Forall (fun c => is_space c = true) t.
Proof.
  unfold strip. split.
  - intros H. apply (f_equal (@rev N)) in H. rewrite rev_involutive in H.
    apply drop_while_nil_iff, Forall_rev in H. rewrite rev_involutive in H.
    rewrite <- (take_drop_while is_space t), Forall_app. split; [apply Forall_take_while | done].
  - intros H. apply drop_while_nil_iff in H as ->. done.
Qed.

#[export] Hint Rewrite take_drop_while : textdb.
#[export] Hint Resolve length_drop_while Forall_take_while : textdb.

Section Scans.
Context {A : Type} (m : option N -> parser A).

(** Any fuel at least the length of the text gives the same matches:
    [findall] runs to completion within [length t] steps. *)
Lemma findall_go_fuel (f1 f2 : nat) (prev : option N) (t : text) :
  length t <= f1 -> length t <= f2 ->
  findall_go m f1 prev t = findall_go m f2 prev t.
Proof.
  revert f2 prev t. induction f1 as [|f1 IH]; intros f2 prev t H1 H2.
  - destruct t; simpl in *; [by destruct f2 | lia].
  - destruct t as [|c r]; [by destruct f2|]. destruct f2 as [|f2]; [simpl in *; lia|].
    simpl in *. destruct (m prev (c :: r)) as [[a rest]|]; [|apply IH; lia].
    destruct (Nat.ltb_spec (length rest) (S (length r))); [|apply IH; lia].
    f_equal. apply IH; lia.
Qed.

Lemma search_go_fuel (f1 f2 : nat) (prev : option N) (t : text) :
  length t <= f1 -> length t <= f2 ->
  search_go m f1 prev t = search_go m f2 prev t.
Proof.
  revert f2 prev t. induction f1 as [|f1 IH]; intros f2 prev t H1 H2.
  - destruct t; simpl in *; [by destruct f2 | lia].
  - destruct t as [|c r]; [by destruct f2|]. destruct f2 as [|f2]; [simpl in *; lia|].
    simpl in *. destruct (m prev (c :: r)); [done|]. apply IH; lia.
Qed.

(** Every element [findall] returns was returned by the matcher. *)
Lemma findall_go_sound (P : A -> Prop) fuel prev (t : text) :
  (forall p u a rest, m p u = Some (a, rest) -> P a) ->
  Forall P (findall_go m fuel prev t).
Proof.
  intros Hm. revert prev t. induction fuel as [|f IH]; intros prev t; [constructor|].
  destruct t as [|c r]; simpl; [constructor|].
  destruct (m prev (c :: r)) as [[a rest]|] eqn:E; [|apply IH].
  destruct (length rest <? S (length r)); [|apply IH].
  constructor; [eapply Hm; eauto | apply IH].
Qed.
(** A prefix at none of whose positions the matcher succeeds is skipped. *)
Lemma findall_go_skip (ds u : text) (fuel : nat) (prev : option N) :
  (forall p ds', ds' `suffix_of` ds -> ds' <> [] -> m p (ds' ++ u) = None) ->
  exists prev', findall_go m (length ds + fuel) prev (ds ++ u) = findall_go m fuel prev' u.
Proof.
  revert prev. induction ds as [|d ds IH]; intros prev Hm; [by exists prev|].
  pose proof (Hm prev (d :: ds) ltac:(done) ltac:(done)) as H0. cbn [app] in H0.
  cbn [length app plus findall_go]. rewrite H0.
  apply IH. intros p ds' Hs Hne. apply Hm; [by apply suffix_cons_r | done].
Qed.

(** A substitution that writes back what each match consumed is the
    identity. *)
Lemma sub_go_id (repl : A -> text) fuel prev (t : text) :
  (forall p u a rest, m p u = Some (a, rest) -> u = repl a ++ rest) ->
  sub_go m repl fuel prev t = t.
Proof.
  intros Hm. revert prev t. induction fuel as [|f IH]; intros prev t; [done|].
  destruct t as [|c r]; simpl; [done|].
  destruct (m prev (c :: r)) as [[a rest]|] eqn:E; [|by rewrite IH].
  destruct (length rest <? S (length r)); [|by rewrite IH].
  rewrite IH. symmetry. by eapply Hm.
Qed.
End Scans.

(** ** [min] and [max] *)
Lemma elem_of_concat_map {A B} (f : A -> list B) (l : list A) (x : B) :
  x ∈ concat (map f l) <-> exists a, a ∈ l /\ x ∈ f a.
Proof.
  rewrite list_elem_of_In, in_concat. split.
  - intros [xs [Hxs Hx]]. apply in_map_iff in Hxs as [a [<- Ha]].
    exists a. split; by apply list_elem_of_In.
  - intros [a [Ha Hx]]. exists (f a).
    split; [apply in_map; by apply list_elem_of_In | by apply list_elem_of_In].
Qed.

Lemma fold_left_min_spec (r : list Z) (x : Z) :
  (fold_left Z.min r x ∈ x :: r) /\ Forall (fun y => fold_left Z.min r x <= y)%Z (x :: r).
Proof.
  revert x. induction r as [|y r IH]; intros x; simpl.
  - split; [by left | repeat constructor; lia].
  - destruct (IH (Z.min x y)) as [Hin Hall]. split.
    + apply elem_of_cons in Hin as [->|Hin].
      * destruct (Z.min_spec x y) as [[_ ->]|[_ ->]]; [left | right; left].
      * by right; right.
    + inversion Hall as [|? ? Hxy Hr]; subst.
      constructor; [lia|]. constructor; [lia|]. exact Hr.
Qed.

Lemma fold_left_max_spec (r : list Z) (x : Z) :
  (fold_left Z.max r x ∈ x :: r) /\ Forall (fun y => y <= fold_left Z.max r x)%Z (x :: r).
Proof.
  revert x. induction r as [|y r IH]; intros x; simpl.
  - split; [by left | repeat constructor; lia].
  - destruct (IH (Z.max x y)) as [Hin Hall]. split.
    + apply elem_of_cons in Hin as [->|Hin].
      * destruct (Z.max_spec x y) as [[_ ->]|[_ ->]]; [right; left | left].
      * by right; right.
    + inversion Hall as [|? ? Hxy Hr]; subst.
      constructor; [lia|]. constructor; [lia|]. exact Hr.
Qed.

(** [min(l)] is the element of [l] below all others. *)
Lemma py_min_spec (l : list Z) (m : Z) :
  py_min l = Some m <-> m ∈ l /\ Forall (fun y => m <= y)%Z l.
Proof.
  destruct l as [|x r]; simpl.
  - split; [done|]. intros [H _]. by apply elem_of_nil in H.
  - destruct (fold_left_min_spec r x) as [Hin Hall]. split.
    + by intros [= <-].
    + intros [Hm Hmall]. f_equal. rewrite Forall_forall in Hall, Hmall.
      apply Z.le_antisymm; [by apply Hall | by apply Hmall].
Qed.

Lemma py_max_spec (l : list Z) (m : Z) :
  py_max l = Some m <-> m ∈ l /\ Forall (fun y => y <= m)%Z l.
Proof.
  destruct l as [|x r]; simpl.
  - split; [done|]. intros [H _]. by apply elem_of_nil in H.
  - destruct (fold_left_max_spec r x) as [Hin Hall]. split.
    + by intros [= <-].
    + intros [Hm Hmall]. f_equal. rewrite Forall_forall in Hall, Hmall.
      apply Z.le_antisymm; [by apply Hmall | by apply Hall].
Qed.

Lemma py_min_None_iff (l : list Z) : py_min l = None <-> l = [].
Proof. by destruct l. Qed.

Lemma py_max_None_iff (l : list Z) : py_max l = None <-> l = [].
Proof. by destruct l. Qed.

(** [min] and [max] see a list only through its elements. *)
Lemma py_min_elements (l1 l2 : list Z) :
  (forall x, x ∈ l1 <-> x ∈ l2) -> py_min l1 = py_min l2.
Proof.
  intros Hel. destruct (py_min l1) as [m|] eqn:E1.
  - apply py_min_spec in E1 as [Hm Hall]. symmetry. apply py_min_spec.
    rewrite Forall_forall in Hall |- *. split; [by apply Hel|].
    intros y Hy. apply Hall, Hel, Hy.
  - apply py_min_None_iff in E1 as ->. symmetry. apply py_min_None_iff.
    destruct l2 as [|y l2]; [done|]. exfalso. apply (elem_of_nil y), Hel. by left.
Qed.

Lemma py_max_elements (l1 l2 : list Z) :
  (forall x, x ∈ l1 <-> x ∈ l2) -> py_max l1 = py_max l2.
Proof.
  intros Hel. destruct (py_max l1) as [m|] eqn:E1.
  - apply py_max_spec in E1 as [Hm Hall]. symmetry. apply py_max_spec.
    rewrite Forall_forall in Hall |- *. split; [by apply Hel|].
    intros y Hy. apply Hall, Hel, Hy.
  - apply py_max_None_iff in E1 as ->. symmetry. apply py_max_None_iff.
    destruct l2 as [|y l2]; [done|]. exfalso. apply (elem_of_nil y), Hel. by left.
Qed.

(** ** Sets built from Python lists *)

(** [len(set(l)) <= len(l)] *)
Lemma size_list_to_set_le `{Countable A} (l : list A) :
  size (list_to_set l : gset A) <= length l.
Proof.
  induction l as [|x l IH].
  - change (list_to_set [] : gset A) with (∅ : gset A). rewrite size_empty. simpl. lia.
  - change (list_to_set (x :: l) : gset A) with ({[x]} ∪ list_to_set l : gset A).
    rewrite size_union_alt, size_singleton. simpl length.
    pose proof (subseteq_size (list_to_set l ∖ {[x]} : gset A) (list_to_set l)
                  ltac:(set_solver)). lia.
Qed.

(** ** Lemmas on the matchers *)
Lemma p_sat_spec (f : N -> bool) (t : text) (c : N) (r : text) :
  p_sat f t = Some (c, r) -> t = c :: r /\ f c = true.
Proof. destruct t as [|d t]; simpl; [done|]. destruct (f d) eqn:E; [|done]. by intros [= <- <-]. Qed.

Lemma p_lit_spec (u t m r : text) : p_lit u t = Some (m, r) -> m = u /\ t = u ++ r.
Proof.
  revert t m r. induction u as [|a u IH]; intros t m r; simpl.
  - by intros [= <- <-].
  - destruct t as [|c t]; [done|]. destruct (N.eqb_spec a c) as [->|]; [|done].
    destruct (p_lit u t) as [[m' r']|] eqn:E; [|done]. intros [= <- <-].
    destruct (IH _ _ _ E) as [-> ->]. done.
Qed.

Lemma p_lit_app (u r : text) : p_lit u (u ++ r) = Some (u, r).
Proof.
  induction u as [|a u IH]; simpl; [done|]. rewrite N.eqb_refl, IH. done.
Qed.

Lemma take_while_app (p : N -> bool) (l r : text) :
  Forall (fun c => p c = true) l -> default false (p <$> head r) = false ->
  take_while p (l ++ r) = l /\ drop_while p (l ++ r) = r.
Proof.
  intros Hl Hr. induction Hl as [|c l Hc _ IH]; simpl.
  - destruct r as [|c r]; simpl in *; [done|]. by rewrite Hr.
  - rewrite Hc. destruct IH as [-> ->]. done.
Qed.

Lemma p_many1_app (p : N -> bool) (l r : text) :
  l <> [] -> Forall (fun c => p c = true) l -> default false (p <$> head r) = false ->
  p_many1 p (l ++ r) = Some (l, r).
Proof.
  intros Hne Hl Hr. unfold p_many1. destruct (take_while_app p l r Hl Hr) as [-> ->].
  by destruct l.
Qed.

(** ** Decimal round trip *)
Lemma digits_value_acc (l : text) (acc : Z) :
  fold_left (fun acc c => 10 * acc + (Z.of_N c - 48))%Z l acc
  = (acc * 10 ^ Z.of_nat (length l) + digits_value l)%Z.
Proof.
  unfold digits_value. revert acc. induction l as [|c l IH]; intros acc; simpl; [lia|].
  rewrite IH, (IH (10 * 0 + (Z.of_N c - 48))%Z).
  rewrite Nat2Z.inj_succ, Z.pow_succ_r by lia. lia.
Qed.

Lemma digits_value_cons (c : N) (l : text) :
  digits_value (c :: l) = ((Z.of_N c - 48) * 10 ^ Z.of_nat (length l) + digits_value l)%Z.
Proof. unfold digits_value at 1. simpl. rewrite digits_value_acc. lia. Qed.

Lemma show_digits_S (f : nat) (n : Z) (acc : text) :
  show_digits (S f) n acc =
  if (n <? 10)%Z then (48 + Z.to_N (n mod 10))%N :: acc
  else show_digits f (n / 10)%Z ((48 + Z.to_N (n mod 10))%N :: acc).
Proof. reflexivity. Qed.

Lemma show_digits_value (f : nat) (n : Z) (acc : text) :
  (0 <= n < 10 ^ Z.of_nat (S f))%Z ->
  digits_value (show_digits (S f) n acc)
  = (n * 10 ^ Z.of_nat (length acc) + digits_value acc)%Z.
Proof.
  revert n acc. induction f as [|f IH]; intros n acc Hn; rewrite show_digits_S;
    pose proof (Z.mod_pos_bound n 10 ltac:(lia));
    destruct (Z.ltb_spec n 10);
    try (rewrite digits_value_cons, N2Z.inj_add, Z2N.id by lia;
         rewrite Z.mod_small by lia; lia).
  - simpl in Hn. lia.
  - rewrite (IH (n / 10)%Z).
    + rewrite digits_value_cons, N2Z.inj_add, Z2N.id by lia.
      simpl length. rewrite Nat2Z.inj_succ, Z.pow_succ_r by lia.
      pose proof (Z.div_mod n 10). lia.
    + split; [apply Z.div_pos; lia|].
      apply Z.div_lt_upper_bound; [lia|].
      rewrite <- Z.pow_succ_r by lia. rewrite <- Nat2Z.inj_succ. lia.
Qed.

Lemma log2_decimal_bound (n : Z) :
  (0 <= n)%Z -> (n < 10 ^ Z.of_nat (S (Z.to_nat (Z.log2 n))))%Z.
Proof.
  intros Hn. rewrite Nat2Z.inj_succ, Z2Nat.id by apply Z.log2_nonneg.
  destruct (Z.eq_dec n 0) as [->|Hn0]; [simpl; lia|].
  destruct (Z.log2_spec n) as [_ Hlt]; [lia|].
  eapply Z.lt_le_trans; [exact Hlt|]. apply Z.pow_le_mono_l.
  pose proof (Z.log2_nonneg n). lia.
Qed.

Lemma show_Z_nonneg (n : Z) : (0 <= n)%Z -> show_Z n = show_nonneg n.
Proof. intros Hn. unfold show_Z. by destruct (Z.ltb_spec n 0); [lia|]. Qed.

(** [int(str(n)) = n] for every [n >= 0]. *)
Lemma digits_value_show (n : Z) : (0 <= n)%Z -> digits_value (show_Z n) = n.
Proof.
  intros Hn. rewrite show_Z_nonneg by done. unfold show_nonneg. rewrite show_digits_value.
  - change (digits_value []) with 0%Z. simpl length. rewrite Z.pow_0_r. lia.
  - split; [done|]. by apply log2_decimal_bound.
Qed.

Lemma show_digits_digits (f : nat) (n : Z) (acc : text) :
  (0 <= n)%Z -> Forall (fun c => is_digit c = true) acc ->
  Forall (fun c => is_digit c = true) (show_digits f n acc).
Proof.
  revert n acc. induction f as [|f IH]; intros n acc Hn Hacc; simpl; [done|].
  assert (Hd : is_digit (48 + Z.to_N (n mod 10))%N = true).
  { pose proof (Z.mod_pos_bound n 10 ltac:(lia)). unfold is_digit.
    apply andb_true_intro; split; apply N.leb_le; lia. }
  destruct (n <? 10)%Z; [by constructor|].
  apply IH; [apply Z.div_pos; lia | by constructor].
Qed.

Lemma show_Z_digits (n : Z) : (0 <= n)%Z -> Forall (fun c => is_digit c = true) (show_Z n).
Proof. intros Hn. rewrite show_Z_nonneg by done. by apply show_digits_digits. Qed.

Lemma show_digits_nonempty (f : nat) (n : Z) (acc : text) :
  acc <> [] -> show_digits f n acc <> [].
Proof.
  revert n acc. induction f as [|f IH]; intros n acc H; [done|].
  rewrite show_digits_S. destruct (n <? 10)%Z; [discriminate|]. by apply IH.
Qed.

Lemma show_Z_nonempty (n : Z) : show_Z n <> [].
Proof.
  unfold show_Z. destruct (n <? 0)%Z; [discriminate|]. unfold show_nonneg. rewrite show_digits_S.
  destruct (n <? 10)%Z; [discriminate|]. by apply show_digits_nonempty.
Qed.

#[export] Hint Resolve show_Z_digits show_Z_nonempty : textdb.

(** [int(...)] reads back what [str(...)] printed. *)
Lemma p_int_show (n : Z) (r : text) :
  (0 <= n)%Z -> default false (is_digit <$> head r) = false -> p_int (show_Z n ++ r) = Some (n, r).
Proof.
  intros Hn Hr. unfold p_int, p_bind. rewrite p_many1_app; auto with textdb.
  unfold p_ret. by rewrite digits_value_show.
Qed.

Lemma search_go_None_iff {A B} (m1 : option N -> parser A) (m2 : option N -> parser B)
    (fuel : nat) (prev : option N) (t : text) :
  (forall p u, m1 p u = None <-> m2 p u = None) ->
  search_go m1 fuel prev t = None <-> search_go m2 fuel prev t = None.
Proof.
  intros Hm. revert prev t. induction fuel as [|f IH]; intros prev t; [done|].
  destruct t as [|c r]; simpl; [done|].
  destruct (m1 prev (c :: r)) eqn:E1, (m2 prev (c :: r)) eqn:E2; try apply IH.
  - split; discriminate.
  - apply Hm in E2. congruence.
  - apply Hm in E1. congruence.
Qed.
