(* ===== verification/TextNorm.v ===== *)
(** * The text normaliser: [preprocess_text]

    [src/utils/resume_utils.py] lines 35-40.  Four passes:
    - a substitution meant to keep a period between two letters;
    - [lower()];
    - removal of every character outside [a-zA-Z0-9_] and whitespace;
    - collapsing of whitespace runs to one space, then [strip()].

    The service sends the result only to the embedding model.

    The theorems:
    - the first substitution is the identity;
    - the output has a fixed shape: only lower-case ASCII letters, digits,
      [_] and single inner spaces;
    - text of that shape is left unchanged, so the normaliser is
      idempotent. *)

From S2P Require Import Prelude.
From stdpp Require Import base list.
From Stdlib Require Import NArith ZArith Lia Btauto.

Module TextNorm.

Local Open Scope parser_scope.

(** [([a-zA-Z])\.([a-zA-Z])]: the two groups. *)
Definition abbrev_pat : parser (N * N) :=
  a <- p_sat is_alpha ;; p_lit [ch_dot] ;;; b <- p_sat is_alpha ;; p_ret (a, b).

(** [re.sub(r'([a-zA-Z])\.([a-zA-Z])', r'\1.\2', text)] *)
Definition sub_abbrev (t : text) : text :=
  re_sub (fun _ => abbrev_pat) (fun '(a, b) => [a; ch_dot; b]) t.

(** [re.sub(r'[^a-zA-Z0-9_\s]', '', text)] *)
Definition keep_word_space (t : text) : text :=
  List.filter (fun c => is_alpha c || is_digit c || (c =? ch_underscore)%N || is_space c) t.

(** [re.sub(r'\s+', ' ', text)]: [prev_space] says whether the previous
    character was part of a whitespace run. *)
Fixpoint collapse_ws (prev_space : bool) (t : text) : text :=
  match t with
  | [] => []
  | c :: r =>
      if is_space c then
        if prev_space then collapse_ws true r else ch_space :: collapse_ws true r
      else c :: collapse_ws false r
  end.

Definition preprocess_text (text0 : text) : text :=
  let t1 := sub_abbrev text0 in
  let t2 := lower t1 in
  let t3 := keep_word_space t2 in
  strip (collapse_ws false t3).

(** ** The shape of the output *)

Definition out_char (c : N) : bool :=
  is_lower c || is_digit c || (c =? ch_underscore)%N || (c =? ch_space)%N.

Fixpoint no_double_space (t : text) : bool :=
  match t with
  | a :: ((b :: _) as r) => negb (is_space a && is_space b) && no_double_space r
  | _ => true
  end.

Definition edge_space (o : option N) : bool := default false (is_space <$> o).

(** Normalised text: allowed characters, no whitespace run longer than
    one, nothing to strip. *)
Definition normalized (t : text) : bool :=
  forallb out_char t && no_double_space t && negb (edge_space (head t)) &&
  negb (edge_space (last t)).

(** ** Lemmas *)

(** A match of the pattern is the letter, the period and the letter it
    returns as groups. *)
Lemma abbrev_pat_spec (u : text) (a b : N) (rest : text) :
  abbrev_pat u = Some ((a, b), rest) -> u = [a; ch_dot; b] ++ rest.
Proof.
  unfold abbrev_pat, p_bind, p_ret.
  destruct (p_sat is_alpha u) as [[x r1]|] eqn:E1; [|done].
  destruct (p_lit [ch_dot] r1) as [[m r2]|] eqn:E2; [|done].
  destruct (p_sat is_alpha r2) as [[y r3]|] eqn:E3; [|done]. intros [= <- <- <-].
  apply p_sat_spec in E1 as [-> _], E3 as [-> _]. apply p_lit_spec in E2 as [_ ->]. done.
Qed.

Lemma no_double_space_cons (a : N) (l : text) :
  no_double_space (a :: l) = negb (is_space a && edge_space (head l)) && no_double_space l.
Proof. destruct l; simpl; [by rewrite andb_false_r | reflexivity]. Qed.

Lemma no_double_space_app (l1 l2 : text) :
  no_double_space (l1 ++ l2) =
  no_double_space l1 && no_double_space l2 && negb (edge_space (last l1) && edge_space (head l2)).
Proof.
  induction l1 as [|a l1 IH]; [simpl; by rewrite andb_true_r|].
  rewrite <- app_comm_cons, !no_double_space_cons, IH.
  destruct l1 as [|b l1]; simpl; unfold edge_space; simpl; [btauto|].
  destruct (last l1); simpl; btauto.
Qed.

Lemma no_double_space_rev (l : text) : no_double_space (rev l) = no_double_space l.
Proof.
  induction l as [|a l IH]; [done|]. simpl rev.
  rewrite no_double_space_app, IH, last_rev_head, (no_double_space_cons a l).
  unfold edge_space. simpl. btauto.
Qed.

Lemma no_double_space_suffix (s l : text) :
  s `suffix_of` l -> no_double_space l = true -> no_double_space s = true.
Proof.
  intros [k ->]. rewrite no_double_space_app. intros H.
  apply andb_prop in H as [H _]. apply andb_prop in H as [_ H]. exact H.
Qed.

Lemma no_double_space_strip (t : text) :
  no_double_space t = true -> no_double_space (strip t) = true.
Proof.
  intros H. unfold strip. rewrite no_double_space_rev.
  eapply no_double_space_suffix; [apply drop_while_suffix|].
  rewrite no_double_space_rev. eapply no_double_space_suffix; [apply drop_while_suffix|done].
Qed.

(** Collapsing leaves no two adjacent whitespace characters; after a run
    it does not start with one. *)
Lemma collapse_ws_shape (b : bool) (t : text) :
  no_double_space (collapse_ws b t) = true /\
  (b = true -> edge_space (head (collapse_ws b t)) = false).
Proof.
  revert b. induction t as [|c r IH]; intros b; simpl; [done|].
  destruct (is_space c) eqn:Ec.
  - destruct (IH true) as [Hn Hh]. destruct b; [done|].
    split; [|done]. rewrite no_double_space_cons, Hn, Hh by done. by rewrite andb_false_r.
  - destruct (IH false) as [Hn _]. split; [|intros _; unfold edge_space; simpl; by rewrite Ec].
    rewrite no_double_space_cons, Hn, Ec. done.
Qed.

Lemma elem_of_collapse_ws (b : bool) (t : text) (x : N) :
  x ∈ collapse_ws b t -> x = ch_space \/ (x ∈ t /\ is_space x = false).
Proof.
  revert b. induction t as [|c r IH]; intros b; simpl; [by intros ?%elem_of_nil|].
  destruct (is_space c) eqn:Ec; [destruct b|].
  - intros H. destruct (IH true H) as [?|[? ?]]; [by left | right; split; [by right | done]].
  - intros [->|H]%elem_of_cons; [by left|].
    destruct (IH true H) as [?|[? ?]]; [by left | right; split; [by right | done]].
  - intros [->|H]%elem_of_cons; [right; split; [left | done]|].
    destruct (IH false H) as [?|[? ?]]; [by left | right; split; [by right | done]].
Qed.

Lemma elem_of_keep_lower (t : text) (x : N) :
  x ∈ keep_word_space (lower t) -> is_space x = false -> out_char x = true.
Proof.
  unfold keep_word_space, lower. rewrite list_elem_of_In, filter_In, in_map_iff.
  intros [[c [<- _]] Hk] Hs. rewrite Hs, orb_false_r in Hk. revert Hk.
  unfold out_char, lower_char. destruct (is_upper c) eqn:Eu; char_class.
Qed.

Lemma out_char_not_upper (c : N) : out_char c = true -> is_upper c = false.
Proof. unfold out_char, ch_space. intros H. apply not_true_iff_false. revert H. char_class. Qed.

Lemma out_char_space (c : N) : out_char c = true -> is_space c = true -> c = ch_space.
Proof.
  intros Ho Hs. apply is_space_range in Hs. revert Ho Hs. unfold out_char. char_class.
Qed.

Lemma out_char_kept (c : N) :
  out_char c = true -> is_alpha c || is_digit c || (c =? ch_underscore)%N || is_space c = true.
Proof.
  intros Ho. destruct (is_space c) eqn:Es; [by rewrite orb_true_r|].
  destruct (N.eqb_spec c ch_space) as [->|Hne]; [by compute in Es|].
  revert Ho Hne. unfold out_char. char_class.
Qed.

(** Normalised text is a fixed point of each pass. *)
Lemma collapse_ws_id (b : bool) (t : text) :
  forallb out_char t = true -> no_double_space t = true ->
  (b = true -> edge_space (head t) = false) -> collapse_ws b t = t.
Proof.
  revert b. induction t as [|c r IH]; intros b Hc Hn Hb; simpl; [done|].
  simpl in Hc. apply andb_prop in Hc as [Hc Hr].
  rewrite no_double_space_cons in Hn. apply andb_prop in Hn as [Hcr Hn].
  destruct (is_space c) eqn:Es.
  - destruct b; [specialize (Hb eq_refl); unfold edge_space in Hb; simpl in Hb; congruence|].
    rewrite (out_char_space c) by done. f_equal. apply IH; [done|done|].
    intros _. simpl in Hcr. by destruct (edge_space (head r)).
  - f_equal. by apply IH.
Qed.

(** ** Properties *)

(** The substitution [re.sub(r'([a-zA-Z])\.([a-zA-Z])', r'\1.\2', ...)]
    rewrites every match with its own text: it is the identity.  The
    periods it means to keep are deleted by the next pass anyway. *)
Theorem sub_abbrev_identity (t : text) : sub_abbrev t = t.
Proof.
  unfold sub_abbrev, re_sub. apply sub_go_id. intros _ u [a b] rest. apply abbrev_pat_spec.
Qed.

(** C25. The output of [preprocess_text] is normalised.  It contains only
    lower-case ASCII letters, digits, [_] and the space.  No two spaces are
    adjacent, and it neither starts nor ends with a space. *)
Theorem preprocess_text_normalized (t : text) : normalized (preprocess_text t) = true.
Proof.
  unfold normalized, preprocess_text.
  set (u := keep_word_space (lower (sub_abbrev t))).
  destruct (collapse_ws_shape false u) as [Hn _].
  unfold edge_space. rewrite no_double_space_strip, strip_head, strip_last by done.
  rewrite !andb_true_r.
  apply forallb_forall. intros x Hx. apply list_elem_of_In, elem_of_strip in Hx.
  destruct (elem_of_collapse_ws _ _ _ Hx) as [->|[Hu Hs]]; [done|].
  by apply (elem_of_keep_lower (sub_abbrev t)).
Qed.

(** C26. Normalised text is left unchanged by [preprocess_text]; with C27,
    normalising twice is the same as normalising once. *)
Theorem preprocess_text_fixed (t : text) : normalized t = true -> preprocess_text t = t.
Proof.
  unfold normalized. intros H.
  apply andb_prop in H as [H Hl]. apply andb_prop in H as [H Hh].
  apply andb_prop in H as [Hc Hn]. apply negb_true_iff in Hl, Hh.
  unfold preprocess_text.
  assert (Hsub : sub_abbrev t = t).
  { apply sub_go_id. intros _ u [a b] rest. apply abbrev_pat_spec. }
  rewrite Hsub.
  assert (Hlow : lower t = t).
  { unfold lower. rewrite <- (map_id t) at 2. apply map_ext_in. intros c Hin.
    apply lower_char_not_upper, out_char_not_upper. rewrite forallb_forall in Hc. auto. }
  assert (Hkeep : keep_word_space t = t).
  { unfold keep_word_space. apply forallb_filter_id. rewrite forallb_forall in Hc |- *.
    intros c Hin. apply out_char_kept. auto. }
  rewrite Hlow, Hkeep, collapse_ws_id by done. by apply strip_id.
Qed.

Example preprocess_text_fixed_witness :
  normalized ‹"python developer 3"› = true /\
  preprocess_text ‹"python developer 3"› = ‹"python developer 3"›.
Proof. split; [vm_compute; reflexivity | apply preprocess_text_fixed; vm_compute; reflexivity]. Defined.

End TextNorm.
