(* ===== verification/PdfText.v ===== *)
(** * PDF text: [extract_text_from_pdf]

    [src/utils/resume_utils.py] lines 22-32.  The function opens the bytes
    with PyPDF2 and appends the text of every page that has any, each
    followed by one space.  An exception (while opening or on any page)
    is caught: the function then returns the text gathered so far.  So the
    function never raises.

    PyPDF2 is a collaborator: [pdf_open] gives the pages, or [None] when
    [PdfReader] raises; a page is [None] when [extract_text()] raises,
    [Some None] when it returns [None], and [Some (Some s)] otherwise.

    The theorems:
    - the loop equals a reference definition: the text of the pages up to
      the first failing one;
    - its length is the sum of the page texts plus one per page;
    - the handler's empty-text check fails exactly when every page read
      before the first failure is blank;
    - a failure mid-document keeps the earlier pages. *)

From S2P Require Import Prelude.
From stdpp Require Import base list.
From Stdlib Require Import NArith Lia.

Module PdfText.

(** ** The collaborator *)

(** One page: [extract_text()] raised, returned [None], or returned text. *)
Abbreviation page := (option (option text)).

Class PdfLib := {
  pdf_open : list Byte.byte -> option (list page)   (* PdfReader(...).pages *)
}.

(** ** The loop *)

(** [if content:]: [None] and [""] are falsy. *)
Definition page_content (c : option text) : text :=
  match c with Some s => s | None => [] end.

(** [for page in reader.pages: ... text += content + " "]; an exception
    leaves the loop with [text] as it is. *)
Fixpoint pages_text (text0 : text) (pages : list page) : text :=
  match pages with
  | [] => text0
  | None :: _ => text0
  | Some c :: rest =>
      let content := page_content c in
      match content with
      | [] => pages_text text0 rest
      | _ :: _ => pages_text (text0 ++ content ++ [ch_space]) rest
      end
  end.

Definition extract_text_from_pdf `{PdfLib} (uploaded_file : list Byte.byte) : text :=
  match pdf_open uploaded_file with
  | None => []
  | Some pages => pages_text [] pages
  end.

(** ** A reference definition *)

(** The pages read before the first exception. *)
Fixpoint pages_read (pages : list page) : list (option text) :=
  match pages with
  | [] => []
  | None :: _ => []
  | Some c :: rest => c :: pages_read rest
  end.

(** Each non-empty page text followed by a space, in order. *)
Definition page_texts (pages : list page) : list text :=
  filter (fun s => s <> []) (map page_content (pages_read pages)).

Definition reference_text (pages : list page) : text :=
  concat (map (fun s => s ++ [ch_space]) (page_texts pages)).

(** ** Lemmas *)
Lemma pages_text_acc (acc : text) (pages : list page) :
  pages_text acc pages = acc ++ pages_text [] pages.
Proof.
  revert acc. induction pages as [|[c|] rest IH]; intros acc; simpl; [by rewrite app_nil_r| |by rewrite app_nil_r].
  destruct (page_content c) as [|x s]; [apply IH|].
  rewrite (IH (acc ++ _)), (IH ((x :: s) ++ [ch_space])). by rewrite <- !app_assoc.
Qed.

Lemma pages_text_reference (pages : list page) : pages_text [] pages = reference_text pages.
Proof.
  unfold reference_text, page_texts.
  induction pages as [|[c|] rest IH]; [done| |done]. cbn [pages_text pages_read map].
  destruct (page_content c) as [|x s] eqn:E.
  - rewrite filter_cons_False by auto. exact IH.
  - rewrite filter_cons_True by done. cbn [map concat]. rewrite pages_text_acc, IH. done.
Qed.

Lemma length_concat_space (l : list text) :
  length (concat (map (fun s => s ++ [ch_space]) l)) = sum_list (map (fun s => S (length s)) l).
Proof.
  induction l as [|s l IH]; simpl; [done|]. rewrite length_app, IH, length_app. simpl. lia.
Qed.

(** Stripping the output leaves nothing exactly when every page text is
    whitespace. *)
Lemma strip_concat_space_nil (l : list text) :
  strip (concat (map (fun s => s ++ [ch_space]) l)) = [] <->
  Forall (fun s => Forall (fun c => is_space c = true) s) l.
Proof.
  rewrite strip_nil_iff. rewrite Forall_concat, Forall_map.
  apply Forall_iff. intros s. rewrite Forall_app, Forall_singleton.
  split; [by intros [? _] | intros; split; [done | reflexivity]].
Qed.

(** ** Properties *)

Section Properties.
Context `{PdfLib}.

(** C14. The accumulating loop equals the reference definition: the output
    is the text of every non-empty page read before the first exception,
    each followed by a space, and "" when the reader cannot be built. *)
Theorem extract_text_from_pdf_reference (b : list Byte.byte) :
  extract_text_from_pdf b =
  match pdf_open b with None => [] | Some pages => reference_text pages end.
Proof.
  unfold extract_text_from_pdf. destruct (pdf_open b) as [pages|]; [|done].
  apply pages_text_reference.
Qed.

(** C15. The handler's check [if not text.strip()] skips a resume exactly
    when the reader cannot be built or every page read before the first
    exception is blank; and the text is one character longer per
    non-empty page than the page texts together. *)
Theorem extract_text_from_pdf_blank (b : list Byte.byte) :
  (strip (extract_text_from_pdf b) = [] <->
   match pdf_open b with
   | None => True
   | Some pages => Forall (fun s => Forall (fun c => is_space c = true) s) (page_texts pages)
   end) /\
  length (extract_text_from_pdf b) =
  match pdf_open b with
  | None => 0
  | Some pages => sum_list (map (fun s => S (length s)) (page_texts pages))
  end.
Proof.
  unfold extract_text_from_pdf. destruct (pdf_open b) as [pages|]; [|done].
  rewrite pages_text_reference. unfold reference_text.
  split; [apply strip_concat_space_nil | apply length_concat_space].
Qed.

End Properties.

(** A reader for the example: the first byte chooses the document. *)
Definition demo_pdf : PdfLib := {|
  pdf_open := fun b =>
    match b with
    | [Byte.x00] => Some [Some (Some ‹"Python developer"›); None; Some (Some ‹"SQL"›)]
    | [Byte.x01] => Some [Some None; Some (Some ‹" "›)]
    | _ => None
    end |}.

(** An exception on one page ends the loop without an error: the
    resume is then ranked on the pages before it, and the pages after it
    are lost.  A document whose only text is blank is skipped. *)
Theorem extract_text_from_pdf_partial :
  @extract_text_from_pdf demo_pdf [Byte.x00] = ‹"Python developer "› /\
  strip (@extract_text_from_pdf demo_pdf [Byte.x01]) = [] /\
  @extract_text_from_pdf demo_pdf [] = [].
Proof. repeat split; vm_compute; reflexivity. Qed.

End PdfText.
