(* ===== verification/Config.v ===== *)
(** * Configuration: [src/config.py] and the settings [src/app.py] reads
      from the environment

    [config.py] defines a base class [Config] and three subclasses, plus
    the mapping [config].  Their attributes are read from the environment
    when the class bodies run, that is, when the module is imported.  The
    body of [ProductionConfig] raises [ValueError] when [SECRET_KEY] is
    unset or empty.  No module of the service imports [config.py]; the
    model states what an import would give.

    [app.py] reads the environment directly:
    - the CORS origins (line 38);
    - the Firebase key path (line 43);
    - the port and the debug flag of the development server (lines
      270-271).

    The environment is a function from names to optional values
    ([os.getenv]).  [str.split(',')] and [int(...)] are modelled as Python
    defines them on ASCII text.  [int] also accepts the decimal digits of
    other scripts; the model rejects them.

    The theorems:
    - [split] and [join] are inverse to each other;
    - [int(str(n)) = n];
    - importing [config.py] fails exactly when [SECRET_KEY] is falsy, for
      every configuration;
    - the origins and defaults of the two sources. *)

From S2P Require Import Prelude.
From stdpp Require Import base list strings.
From Stdlib Require Import NArith ZArith Lia.

Module Config.

(** ** The environment and [str] helpers *)

(** [os.environ]: the value of each variable, if set. *)
Abbreviation environ := (text -> option text).

(** [os.getenv(key, default)] with a string default. *)
Definition getenv (env : environ) (key default : text) : text :=
  match env key with Some v => v | None => default end.

Definition ch_comma : N := 44.
Definition ch_plus : N := 43.

(** [s.split(sep)] for a one-character separator: every occurrence splits,
    and [""] gives [[""]]. *)
Fixpoint split_on (sep : N) (t : text) : list text :=
  match t with
  | [] => [[]]
  | c :: r =>
      if (c =? sep)%N then [] :: split_on sep r
      else match split_on sep r with
           | seg :: segs => (c :: seg) :: segs
           | [] => [[c]]
           end
  end.

(** [sep.join(parts)] *)
Fixpoint join_with (sep : N) (parts : list text) : text :=
  match parts with
  | [] => []
  | [s] => s
  | s :: rest => s ++ sep :: join_with sep rest
  end.

(** ** [int(s)] on a string *)

Fixpoint no_double_underscore (t : text) : bool :=
  match t with
  | a :: ((b :: _) as r) =>
      negb ((a =? ch_underscore)%N && (b =? ch_underscore)%N) && no_double_underscore r
  | _ => true
  end.

(** A base-10 literal: digits, single underscores between them. *)
Definition valid_decimal (t : text) : bool :=
  default false (is_digit <$> head t) && default false (is_digit <$> last t) &&
  forallb (fun c => is_digit c || (c =? ch_underscore)%N) t && no_double_underscore t.

(** [int(s)]: surrounding whitespace, an optional sign, a literal.  [None]
    is the [ValueError]. *)
Definition py_int (s : text) : option Z :=
  let u := strip s in
  let '(neg, body) :=
    match u with
    | c :: r => if (c =? ch_dash)%N then (true, r)
                else if (c =? ch_plus)%N then (false, r) else (false, u)
    | [] => (false, [])
    end in
  if valid_decimal body then
    let v := digits_value (List.filter is_digit body) in
    Some (if neg then (- v)%Z else v)
  else None.

(** ** [config.py] *)

(** The attributes of a configuration class; [None] is an attribute the
    class does not have (its access raises [AttributeError]). *)
Record flask_config := {
  SECRET_KEY : option text;
  FIREBASE_KEY_PATH : text;
  ALLOWED_ORIGINS : list text;
  LOG_LEVEL : text;
  MAX_CONTENT_LENGTH : Z;
  REQUEST_TIMEOUT : Z;
  SPACY_MODEL : text;
  SENTENCE_TRANSFORMER_MODEL : text;
  DEBUG : option bool;
  FLASK_ENV : option text;
  TESTING : option bool
}.

(** [class Config] (lines 4-25). *)
Definition base_config (env : environ) : flask_config := {|
  SECRET_KEY := Some (getenv env ‹"SECRET_KEY"› ‹"dev-secret-key-change-in-production"›);
  FIREBASE_KEY_PATH := getenv env ‹"FIREBASE_KEY_PATH"› ‹"firebase_key.json"›;
  ALLOWED_ORIGINS := split_on ch_comma (getenv env ‹"ALLOWED_ORIGINS"› ‹"http://localhost:4000"›);
  LOG_LEVEL := getenv env ‹"LOG_LEVEL"› ‹"INFO"›;
  MAX_CONTENT_LENGTH := 16 * 1024 * 1024;
  REQUEST_TIMEOUT := 30;
  SPACY_MODEL := ‹"en_core_web_lg"›;
  SENTENCE_TRANSFORMER_MODEL := ‹"all-mpnet-base-v2"›;
  DEBUG := None;
  FLASK_ENV := None;
  TESTING := None |}.

(** [class DevelopmentConfig(Config)] (lines 27-30). *)
Definition development_config (env : environ) : flask_config :=
  let b := base_config env in
  {| SECRET_KEY := SECRET_KEY b; FIREBASE_KEY_PATH := FIREBASE_KEY_PATH b;
     ALLOWED_ORIGINS := ALLOWED_ORIGINS b; LOG_LEVEL := LOG_LEVEL b;
     MAX_CONTENT_LENGTH := MAX_CONTENT_LENGTH b; REQUEST_TIMEOUT := REQUEST_TIMEOUT b;
     SPACY_MODEL := SPACY_MODEL b; SENTENCE_TRANSFORMER_MODEL := SENTENCE_TRANSFORMER_MODEL b;
     DEBUG := Some true; FLASK_ENV := Some ‹"development"›; TESTING := TESTING b |}.

(** [class ProductionConfig(Config)] (lines 32-40): its body reads
    [SECRET_KEY] without a default and raises when it is falsy. *)
Definition production_config (env : environ) : option flask_config :=
  let b := base_config env in
  match env ‹"SECRET_KEY"› with
  | Some ((_ :: _) as key) =>
      Some {| SECRET_KEY := Some key; FIREBASE_KEY_PATH := FIREBASE_KEY_PATH b;
              ALLOWED_ORIGINS := ALLOWED_ORIGINS b; LOG_LEVEL := LOG_LEVEL b;
              MAX_CONTENT_LENGTH := MAX_CONTENT_LENGTH b; REQUEST_TIMEOUT := REQUEST_TIMEOUT b;
              SPACY_MODEL := SPACY_MODEL b;
              SENTENCE_TRANSFORMER_MODEL := SENTENCE_TRANSFORMER_MODEL b;
              DEBUG := Some false; FLASK_ENV := Some ‹"production"›; TESTING := TESTING b |}
  | _ => None
  end.

(** [class TestingConfig(Config)] (lines 42-45). *)
Definition testing_config (env : environ) : flask_config :=
  let b := base_config env in
  {| SECRET_KEY := SECRET_KEY b; FIREBASE_KEY_PATH := FIREBASE_KEY_PATH b;
     ALLOWED_ORIGINS := ALLOWED_ORIGINS b; LOG_LEVEL := LOG_LEVEL b;
     MAX_CONTENT_LENGTH := MAX_CONTENT_LENGTH b; REQUEST_TIMEOUT := REQUEST_TIMEOUT b;
     SPACY_MODEL := SPACY_MODEL b; SENTENCE_TRANSFORMER_MODEL := SENTENCE_TRANSFORMER_MODEL b;
     DEBUG := Some true; FLASK_ENV := FLASK_ENV b; TESTING := Some true |}.

(** Importing the module: the class bodies run in order, then the mapping
    [config] (lines 47-53) is built.  [None] is the [ValueError] of the
    production class, which aborts the import. *)
Definition import_config (env : environ) : option (list (text * flask_config)) :=
  prod ← production_config env;
  Some [(‹"development"›, development_config env); (‹"production"›, prod);
        (‹"testing"›, testing_config env); (‹"default"›, development_config env)].

(** ** The settings [app.py] reads *)

(** Line 38: the CORS origins. *)
Definition cors_origins (env : environ) : list text :=
  split_on ch_comma
    (getenv env ‹"ALLOWED_ORIGINS"› ‹"http://localhost:4000,https://jobscout2025.netlify.app"›).

(** Line 43: the Firebase key path. *)
Definition firebase_key_path (env : environ) : text :=
  getenv env ‹"FIREBASE_KEY_PATH"› ‹"firebase_key.json"›.

(** Line 270: [int(os.getenv('PORT', 5001))]; the default is the integer
    5001, not a string.  [None] is the [ValueError] that stops the
    start-up. *)
Definition server_port (env : environ) : option Z :=
  match env ‹"PORT"› with
  | None => Some 5001%Z
  | Some s => py_int s
  end.

(** Line 271: [os.getenv('FLASK_ENV') == 'development'] *)
Definition server_debug (env : environ) : bool :=
  bool_decide (env ‹"FLASK_ENV"› = Some ‹"development"›).

(** ** Lemmas *)
Lemma split_on_nonempty (sep : N) (t : text) : split_on sep t <> [].
Proof.
  induction t as [|c r IH]; simpl; [done|].
  destruct (c =? sep)%N; [done|]. by destruct (split_on sep r).
Qed.

Lemma join_with_cons_hd (sep c : N) (s : text) (l : list text) :
  join_with sep ((c :: s) :: l) = c :: join_with sep (s :: l).
Proof. by destruct l. Qed.

(** Text without the separator is one part. *)
Lemma split_on_no_sep (sep : N) (s : text) : sep ∉ s -> split_on sep s = [s].
Proof.
  induction s as [|c s IH]; intros Hs; simpl; [done|].
  rewrite not_elem_of_cons in Hs. destruct Hs as [Hc Hs].
  destruct (N.eqb_spec c sep); [congruence|]. by rewrite IH.
Qed.

Lemma split_on_app (sep : N) (s u : text) :
  sep ∉ s -> split_on sep (s ++ sep :: u) = s :: split_on sep u.
Proof.
  induction s as [|c s IH]; intros Hs; simpl; [by rewrite N.eqb_refl|].
  rewrite not_elem_of_cons in Hs. destruct Hs as [Hc Hs].
  destruct (N.eqb_spec c sep); [congruence|]. by rewrite IH.
Qed.

(** A non-empty list of digits is a base-10 literal that reads back as
    itself. *)
Lemma digits_valid (l : text) :
  l <> [] -> Forall (fun c => is_digit c = true) l ->
  valid_decimal l = true /\ List.filter is_digit l = l /\ strip l = l.
Proof.
  intros Hne Hd.
  assert (Hhd : default false (is_digit <$> head l) = true).
  { destruct l as [|c l]; [done|]. by inversion Hd. }
  assert (Hlast : default false (is_digit <$> last l) = true).
  { destruct (last l) as [c|] eqn:E; [|by apply last_None in E].
    apply last_Some_elem_of in E. rewrite Forall_forall in Hd. simpl. by apply Hd. }
  assert (Hsp : forall o, default false (is_digit <$> o) = true -> default false (is_space <$> o) = false).
  { intros [c|] H; [simpl in *|done]. apply is_space_word. unfold is_word. by rewrite H, orb_true_r. }
  split; [|split].
  - unfold valid_decimal. rewrite Hhd, Hlast. simpl.
    apply andb_true_intro. split.
    + apply forallb_forall. intros c Hc. apply list_elem_of_In in Hc.
      rewrite Forall_forall in Hd. by rewrite Hd.
    + clear Hhd Hlast Hne. induction Hd as [|c l Hc Hd IH]; [done|].
      destruct l as [|c' l]; [done|]. simpl in *. rewrite IH.
      unfold is_digit, ch_underscore in Hc. apply andb_prop in Hc as [_ Hc].
      apply N.leb_le in Hc. unfold ch_underscore. destruct (N.eqb_spec c 95); [lia|]. done.
  - apply forallb_filter_id. apply forallb_forall. intros c Hc. apply list_elem_of_In in Hc.
    rewrite Forall_forall in Hd. by apply Hd.
  - apply strip_id; by apply Hsp.
Qed.

Lemma show_nonneg_digits (n : Z) :
  (0 <= n)%Z -> show_nonneg n <> [] /\ Forall (fun c => is_digit c = true) (show_nonneg n).
Proof.
  intros Hn. rewrite <- show_Z_nonneg by done.
  split; [apply show_Z_nonempty | by apply show_Z_digits].
Qed.

(** No field of a split contains the separator. *)
Lemma split_on_no_sep_fields (sep : N) (t : text) : Forall (fun s => sep ∉ s) (split_on sep t).
Proof.
  induction t as [|c r IH]; simpl.
  - constructor; [apply not_elem_of_nil | constructor].
  - destruct (N.eqb_spec c sep) as [->|Hne].
    + constructor; [apply not_elem_of_nil | done].
    + destruct (split_on sep r) as [|seg segs].
      * constructor; [|constructor]. apply not_elem_of_cons. split; [congruence | apply not_elem_of_nil].
      * apply Forall_cons in IH as [Hseg Hsegs]. constructor; [|done].
        apply not_elem_of_cons. split; [congruence | done].
Qed.

(** Every configuration names the same two models. *)
Lemma import_config_models (env : environ) (cfgs : list (text * flask_config)) (name : text)
    (cfg : flask_config) :
  import_config env = Some cfgs -> (name, cfg) ∈ cfgs ->
  SPACY_MODEL cfg = ‹"en_core_web_lg"› /\ SENTENCE_TRANSFORMER_MODEL cfg = ‹"all-mpnet-base-v2"›.
Proof.
  unfold import_config, production_config. case_match; try done; case_match; try done.
  intros [= <-]. rewrite !elem_of_cons, elem_of_nil.
  intros Hin; repeat destruct Hin as [Hin|Hin]; simplify_eq; done.
Qed.

(** [','.join(s.split(','))] gives [s] back for every string, and
    [','.join(parts).split(',')] gives the parts back when there is at
    least one and none contains a comma.  So the origin lists of both
    sources are exactly the comma-separated fields of the variable, empty
    fields included. *)
Lemma split_join_roundtrip (t : text) (parts : list text) :
  join_with ch_comma (split_on ch_comma t) = t /\
  (parts <> [] -> Forall (fun s => ch_comma ∉ s) parts ->
   split_on ch_comma (join_with ch_comma parts) = parts).
Proof.
  split.
  - induction t as [|c r IH]; [done|]. cbn [split_on].
    destruct (split_on ch_comma r) as [|seg segs] eqn:Es; [by apply split_on_nonempty in Es|].
    destruct (c =? ch_comma)%N eqn:E.
    + apply N.eqb_eq in E as ->. change (ch_comma :: join_with ch_comma (seg :: segs) = ch_comma :: r).
      by rewrite IH.
    + by rewrite join_with_cons_hd, IH.
  - intros Hne Hall. induction Hall as [|s l Hs Hl IH]; [done|].
    destruct l as [|s' l]; [by apply split_on_no_sep|].
    change (join_with ch_comma (s :: s' :: l)) with (s ++ ch_comma :: join_with ch_comma (s' :: l)).
    rewrite split_on_app by done. by rewrite IH.
Qed.

(** ** Properties *)

(** C28. The two sources of the CORS origins agree exactly when
    [ALLOWED_ORIGINS] is set: unset, [app.py] also allows the Netlify
    front end while [Config] allows only localhost.  In every case the
    origins [app.py] registers are the comma-free fields of the variable,
    empty fields included, that join back to its value. *)
Theorem cors_origins_sources (env : environ) :
  (cors_origins env = ALLOWED_ORIGINS (base_config env) <-> is_Some (env ‹"ALLOWED_ORIGINS"›)) /\
  join_with ch_comma (cors_origins env) =
    getenv env ‹"ALLOWED_ORIGINS"› ‹"http://localhost:4000,https://jobscout2025.netlify.app"› /\
  Forall (fun o => ch_comma ∉ o) (cors_origins env).
Proof.
  split; [|split; [apply (proj1 (split_join_roundtrip _ [])) | apply split_on_no_sep_fields]].
  unfold cors_origins, base_config, getenv. simpl.
  destruct (env ‹"ALLOWED_ORIGINS"›) as [v|].
  - split; [intros _; by eexists | intros _; reflexivity].
  - split; [intros H; vm_compute in H; discriminate H | by intros [? ?]].
Qed.

(** Without the variable, the two sources disagree. *)
Example cors_origins_sources_witness :
  cors_origins (fun _ => None) <> ALLOWED_ORIGINS (base_config (fun _ => None)).
Proof.
  intros H. apply (proj1 (proj1 (cors_origins_sources (fun _ => None)))) in H. by destruct H.
Defined.




(** [int(str(n)) == n] for every integer, negative ones included:
    the port the server prints reads back as the same number. *)
Theorem py_int_show (n : Z) : py_int (show_Z n) = Some n.
Proof.
  unfold py_int. destruct (Z.ltb_spec n 0) as [Hneg|Hpos].
  - destruct (show_nonneg_digits (- n)) as [Hne Hd]; [lia|].
    assert (Hs : show_Z n = ch_dash :: show_nonneg (- n)).
    { unfold show_Z. by rewrite (proj2 (Z.ltb_lt n 0) Hneg). }
    destruct (digits_valid _ Hne Hd) as (Hv & Hf & _).
    assert (Hstrip : strip (show_Z n) = show_Z n).
    { rewrite Hs. apply strip_id; [done|]. rewrite last_cons.
      destruct (last (show_nonneg (- n))) as [c|] eqn:E; [|by apply last_None in E].
      apply last_Some_elem_of in E. rewrite Forall_forall in Hd. simpl.
      apply is_space_word. unfold is_word. by rewrite (Hd c E), orb_true_r. }
    rewrite Hstrip, Hs. simpl. rewrite Hv, Hf.
    rewrite <- show_Z_nonneg, digits_value_show by lia. f_equal. lia.
  - rewrite show_Z_nonneg by done. destruct (show_nonneg_digits n) as [Hne Hd]; [done|].
    destruct (digits_valid _ Hne Hd) as (Hv & Hf & Hstrip). rewrite Hstrip.
    destruct (show_nonneg n) as [|c r] eqn:E; [done|]. inversion Hd as [|? ? Hc _]; subst.
    assert (Hc' : (c =? ch_dash)%N = false /\ (c =? ch_plus)%N = false).
    { unfold is_digit in Hc. apply andb_prop in Hc as [H1 H2]. apply N.leb_le in H1, H2.
      unfold ch_dash, ch_plus. split; apply N.eqb_neq; lia. }
    destruct Hc' as [-> ->]. rewrite Hv, Hf, <- E, <- show_Z_nonneg, digits_value_show; done.
Qed.

(** C27. Importing [config.py] raises exactly when [SECRET_KEY] is unset
    or empty, whichever configuration is wanted: the check in the body of
    [ProductionConfig] runs at import time.  When the import succeeds,
    "default" is the development configuration, which has DEBUG set and
    the development secret default. *)
Theorem import_config_secret_key (env : environ) :
  (import_config env = None <-> match env ‹"SECRET_KEY"› with Some (_ :: _) => False | _ => True end) /\
  (forall cfg, import_config env = Some cfg ->
     cfg !! 3 = Some (‹"default"›, development_config env) /\
     DEBUG (development_config env) = Some true /\
     (exists prod, cfg !! 1 = Some (‹"production"›, prod) /\ DEBUG prod = Some false /\
                   SECRET_KEY prod = env ‹"SECRET_KEY"›)).
Proof.
  unfold import_config, production_config.
  destruct (env ‹"SECRET_KEY"›) as [[|c k]|]; simpl; split; try done.
  intros cfg [= <-]. repeat split. eexists. repeat split.
Qed.

(** The settings of [app.py] on concrete environments: the CORS
    default lists the Netlify front end, which the default of [Config]
    does not; the port accepts surrounding spaces and underscores and
    rejects anything else, so an empty [PORT] stops the start-up; and
    [FLASK_ENV] turns debugging on only for the exact lower-case
    "development". *)
Theorem app_settings_examples :
  cors_origins (fun _ => None) = [‹"http://localhost:4000"›; ‹"https://jobscout2025.netlify.app"›] /\
  ALLOWED_ORIGINS (base_config (fun _ => None)) = [‹"http://localhost:4000"›] /\
  server_port (fun _ => None) = Some 5001%Z /\
  server_port (fun k => if bool_decide (k = ‹"PORT"›) then Some ‹" 8_080 "› else None) = Some 8080%Z /\
  server_port (fun k => if bool_decide (k = ‹"PORT"›) then Some ‹""› else None) = None /\
  server_port (fun k => if bool_decide (k = ‹"PORT"›) then Some ‹"80_"› else None) = None /\
  server_debug (fun k => if bool_decide (k = ‹"FLASK_ENV"›) then Some ‹"Development"› else None) = false.
Proof. repeat split; vm_compute; reflexivity. Qed.

End Config.
