(* ===== verification/Startup.v ===== *)
(** * Start-up: [load_models], the import of [src/app.py] and its
      [__main__] block

    [src/utils/resume_utils.py] lines 11-19 ([load_models]) and
    [src/app.py] lines 28-58 (the module body) and 269-274 ([__main__]).
    Running [python app.py] executes, in order:
    - the CORS registration with the origins of line 38;
    - the Firebase initialisation (lines 42-50), which logs and re-raises
      any exception;
    - [load_models] (lines 53-58), which logs and re-raises any exception.
      It loads the spaCy model; if that raises [OSError], it runs
      [python -m spacy download en_core_web_lg] with [check=True] and loads
      again; then it loads the sentence-transformer model;
    - [int(os.getenv('PORT', 5001))], the start-up log line, and
      [app.run].

    The model is a state and exception monad [M] over a [world]: the
    environment, the spaCy packages the running interpreter can load, what
    the command [python] names, whether the download succeeds, whether the
    Firebase key and the embedding model load, and the log of observable
    events in order.  Log messages are kept up to the formatted exception,
    which the model does not represent.  [logging.basicConfig] and
    [Flask(__name__)] have no effect that the service observes and are
    left out.

    The theorems:
    - [load_models] succeeds exactly when the spaCy model is installed or
      can be downloaded into the running interpreter, and the embedding
      model loads; it downloads at most once, only when the first load
      fails; it returns the two models [config.py] names; and a download
      through a [python] that is another interpreter ends in [OSError];
    - the whole start-up refines a flat table of traces, from which follow
      the order of its effects and the condition under which the server
      runs, on the port and with the debug flag [Config] computes. *)

From S2P Require Import Prelude Config.
From stdpp Require Import base list strings.
From Stdlib Require Import ZArith Lia.

Module Startup.

Import Config.

(** ** Effects *)

(** The exceptions start-up can raise. *)
Inductive exn :=
| OSError              (* spacy.load without the package; FileNotFoundError of subprocess.run *)
| CalledProcessError   (* subprocess.run(..., check=True) on a non-zero exit *)
| FirebaseError        (* credentials.Certificate, initialize_app or firestore.client *)
| ModelError           (* SentenceTransformer(...) *)
| ValueError.          (* int(...) of the PORT variable *)

#[export] Instance exn_eq_dec : EqDecision exn.
Proof. solve_decision. Defined.

Inductive level := INFO | ERROR.

(** What start-up does that can be observed from outside, in order. *)
Inductive event :=
| ECors (origins : list text)                   (* CORS(app, resources=...) *)
| ELog (lv : level) (msg : text)                (* logger.info / logger.error *)
| ESubprocess (argv : list text)                (* subprocess.run(argv) *)
| ERun (host : text) (port : Z) (debug : bool).  (* app.run(...) *)

(** What the command [python] on the [PATH] is. *)
Inductive python_cmd := PyMissing | PySelf | PyOther.

#[export] Instance python_cmd_eq_dec : EqDecision python_cmd.
Proof. solve_decision. Defined.

(** The machine the process runs on. *)
Record world := {
  w_env : environ;                   (* os.environ *)
  w_spacy_models : list text;        (* spaCy packages the running interpreter can load *)
  w_python : python_cmd;
  w_download_ok : bool;              (* spacy download exits with status 0 *)
  w_credentials_ok : text -> bool;   (* Firebase initialises with the key file at this path *)
  w_st_ok : text -> bool;            (* SentenceTransformer(name) loads *)
  w_log : list event
}.

Definition add_event (e : event) (w : world) : world :=
  {| w_env := w_env w; w_spacy_models := w_spacy_models w; w_python := w_python w;
     w_download_ok := w_download_ok w; w_credentials_ok := w_credentials_ok w;
     w_st_ok := w_st_ok w; w_log := w_log w ++ [e] |}.

Definition install (name : text) (w : world) : world :=
  {| w_env := w_env w; w_spacy_models := name :: w_spacy_models w; w_python := w_python w;
     w_download_ok := w_download_ok w; w_credentials_ok := w_credentials_ok w;
     w_st_ok := w_st_ok w; w_log := w_log w |}.

(** ** The monad *)

Definition M (A : Type) : Type := world -> (exn + A) * world.

#[export] Instance M_ret : MRet M := fun A a w => (inr a, w).
#[export] Instance M_bind : MBind M := fun A B f m w =>
  match m w with
  | (inl e, w') => (inl e, w')
  | (inr a, w') => f a w'
  end.

Definition raise {A} (e : exn) : M A := fun w => (inl e, w).

Definition emit (e : event) : M unit := fun w => (inr (), add_event e w).

Definition get_env : M environ := fun w => (inr (w_env w), w).

(** [try: m except ... as e: h(e)], for the exceptions [catches] selects;
    the others propagate. *)
Definition try_except {A} (catches : exn -> bool) (m : M A) (h : exn -> M A) : M A := fun w =>
  match m w with
  | (inl e, w') => if catches e then h e w' else (inl e, w')
  | r => r
  end.

(** [except OSError:] and [except Exception:] *)
Definition is_OSError (e : exn) : bool := bool_decide (e = OSError).
Definition any_exception (e : exn) : bool := true.

(** ** The collaborators *)

(** [spacy.load(name)]: the loaded pipeline, named by its package. *)
Definition spacy_load (name : text) : M text := fun w =>
  if bool_decide (name ∈ w_spacy_models w) then (inr name, w) else (inl OSError, w).

Definition spacy_download_cmd (name : text) : list text :=
  [‹"python"›; ‹"-m"›; ‹"spacy"›; ‹"download"›; name].

(** [subprocess.run(spacy_download_cmd name, check=True)]: without a
    [python] the call raises [FileNotFoundError]; otherwise the download
    runs, and on success installs the package into the interpreter
    [python] names. *)
Definition spacy_download (name : text) : M unit := fun w =>
  match w_python w with
  | PyMissing => (inl OSError, w)
  | py =>
      let w1 := add_event (ESubprocess (spacy_download_cmd name)) w in
      if w_download_ok w
      then (inr (), match py with PySelf => install name w1 | _ => w1 end)
      else (inl CalledProcessError, w1)
  end.

(** [SentenceTransformer(name)] *)
Definition sentence_transformer (name : text) : M text := fun w =>
  if w_st_ok w name then (inr name, w) else (inl ModelError, w).

(** [firebase_admin.initialize_app(credentials.Certificate(path))] and
    [firestore.client()] *)
Definition firebase_init (path : text) : M unit := fun w =>
  if w_credentials_ok w path then (inr (), w) else (inl FirebaseError, w).

(** ** The code *)

(** [load_models] (resume_utils.py lines 11-19) *)
Definition load_models : M (text * text) :=
  let spacy_model := ‹"en_core_web_lg"› in
  nlp ← try_except is_OSError (spacy_load spacy_model)
          (fun _ => spacy_download spacy_model;; spacy_load spacy_model);
  model ← sentence_transformer ‹"all-mpnet-base-v2"›;
  mret (nlp, model).

Definition msg_firebase_ok : text := ‹"Firebase initialized successfully"›.
Definition msg_firebase_failed : text := ‹"Failed to initialize Firebase: "›.
Definition msg_models_ok : text := ‹"ML models loaded successfully"›.
Definition msg_models_failed : text := ‹"Failed to load ML models: "›.

(** The body of [app.py] (lines 28-58): CORS, Firebase, the models.  It
    returns the models the request handlers use. *)
Definition import_app : M (text * text) :=
  env ← get_env;
  emit (ECors (cors_origins env));;
  try_except any_exception
    (firebase_init (firebase_key_path env);; emit (ELog INFO msg_firebase_ok))
    (fun e => emit (ELog ERROR msg_firebase_failed);; raise e);;
  try_except any_exception
    (models ← load_models; emit (ELog INFO msg_models_ok);; mret models)
    (fun e => emit (ELog ERROR msg_models_failed);; raise e).

(** The [__main__] block (lines 269-274). *)
Definition main : M unit :=
  env ← get_env;
  match server_port env with
  | None => raise ValueError
  | Some port =>
      let debug := server_debug env in
      emit (ELog INFO (‹"Starting Flask ML API on port "› ++ show_Z port));;
      emit (ERun ‹"0.0.0.0"› port debug)
  end.

(** [python app.py]: the module body, then [__main__]. *)
Definition run_server : M (text * text) :=
  models ← import_app; main;; mret models.

(** ** A flat specification of start-up *)

Definition spacy_installed (w : world) : bool := bool_decide (‹"en_core_web_lg"› ∈ w_spacy_models w).

(** The download [load_models] runs. *)
Definition models_events (w : world) : list event :=
  if spacy_installed w then []
  else match w_python w with
       | PyMissing => []
       | _ => [ESubprocess (spacy_download_cmd ‹"en_core_web_lg"›)]
       end.

(** The exception [load_models] raises, if any. *)
Definition models_error (w : world) : option exn :=
  if spacy_installed w || bool_decide (w_python w = PySelf) && w_download_ok w then
    if w_st_ok w ‹"all-mpnet-base-v2"› then None else Some ModelError
  else if bool_decide (w_python w = PyMissing) || w_download_ok w then Some OSError
  else Some CalledProcessError.

(** The events of [python app.py] and how it ends, as one table. *)
Definition startup_spec (w : world) : list event * (exn + unit) :=
  let env := w_env w in
  let cors := ECors (cors_origins env) in
  if negb (w_credentials_ok w (firebase_key_path env)) then
    ([cors; ELog ERROR msg_firebase_failed], inl FirebaseError)
  else
    let pre := [cors; ELog INFO msg_firebase_ok] ++ models_events w in
    match models_error w with
    | Some e => (pre ++ [ELog ERROR msg_models_failed], inl e)
    | None =>
        match server_port env with
        | None => (pre ++ [ELog INFO msg_models_ok], inl ValueError)
        | Some port =>
            (pre ++ [ELog INFO msg_models_ok;
                     ELog INFO (‹"Starting Flask ML API on port "› ++ show_Z port);
                     ERun ‹"0.0.0.0"› port (server_debug env)], inr ())
        end
    end.

(** ** Lemmas *)

(** [load_models] in closed form, over every world. *)
Lemma load_models_run (w : world) :
  load_models w =
  if bool_decide (‹"en_core_web_lg"› ∈ w_spacy_models w) then
    (if w_st_ok w ‹"all-mpnet-base-v2"› then (inr (‹"en_core_web_lg"›, ‹"all-mpnet-base-v2"›), w)
     else (inl ModelError, w))
  else match w_python w with
  | PyMissing => (inl OSError, w)
  | PySelf =>
      let w1 := install ‹"en_core_web_lg"›
                  (add_event (ESubprocess (spacy_download_cmd ‹"en_core_web_lg"›)) w) in
      if w_download_ok w then
        (if w_st_ok w ‹"all-mpnet-base-v2"›
         then (inr (‹"en_core_web_lg"›, ‹"all-mpnet-base-v2"›), w1) else (inl ModelError, w1))
      else (inl CalledProcessError, add_event (ESubprocess (spacy_download_cmd ‹"en_core_web_lg"›)) w)
  | PyOther =>
      let w1 := add_event (ESubprocess (spacy_download_cmd ‹"en_core_web_lg"›)) w in
      if w_download_ok w then (inl OSError, w1) else (inl CalledProcessError, w1)
  end.
Proof.
  unfold load_models, mbind, M_bind, mret, M_ret, try_except, spacy_load, spacy_download,
    sentence_transformer.
  destruct (bool_decide _) eqn:Hi; cbn -[str].
  - by destruct (w_st_ok w _).
  - assert (Hos : is_OSError OSError = true) by reflexivity. rewrite Hos.
    destruct (w_python w); [done| |]; destruct (w_download_ok w); cbn -[str]; try done.
    + rewrite bool_decide_eq_true_2 by apply list_elem_of_here. cbn [w_st_ok install add_event].
      by destruct (w_st_ok w _).
    + by rewrite Hi.
Qed.

Lemma load_models_spec (w : world) :
  (load_models w).1 = match models_error w with
                      | Some e => inl e | None => inr (‹"en_core_web_lg"›, ‹"all-mpnet-base-v2"›) end /\
  w_log (load_models w).2 = w_log w ++ models_events w.
Proof.
  rewrite load_models_run. unfold models_error, models_events, spacy_installed.
  destruct (bool_decide _), (w_python w), (w_download_ok w), (w_st_ok w _); cbn -[str];
    by rewrite ?app_nil_r.
Qed.

Lemma models_error_None (w : world) :
  models_error w = None <->
  (spacy_installed w = true \/ (w_python w = PySelf /\ w_download_ok w = true)) /\
  w_st_ok w ‹"all-mpnet-base-v2"› = true.
Proof.
  unfold models_error. destruct (spacy_installed w), (w_python w), (w_download_ok w), (w_st_ok w _);
    vm_compute; intuition congruence.
Qed.

Lemma models_error_not_value (w : world) : models_error w <> Some ValueError.
Proof. unfold models_error. repeat case_match; done. Qed.

(** Refinement: [run_server] produces exactly the events of the table, in
    order, after those already logged, and ends as the table says. *)
Lemma run_server_trace (w : world) :
  (run_server w).1 = match (startup_spec w).2 with
                     | inl e => inl e | inr _ => inr (‹"en_core_web_lg"›, ‹"all-mpnet-base-v2"›) end /\
  w_log (run_server w).2 = w_log w ++ (startup_spec w).1.
Proof.
  unfold run_server, import_app, main, startup_spec, mbind, M_bind, mret, M_ret, try_except,
    get_env, emit, firebase_init, raise.
  cbn -[load_models str].
  destruct (w_credentials_ok w _) eqn:Hc; cbn -[load_models str]; [|by rewrite <- app_assoc].
  rewrite load_models_run. unfold models_error, models_events, spacy_installed.
  destruct (bool_decide _) eqn:Hi; cbn -[str];
    [|destruct (w_python w); destruct (w_download_ok w); cbn -[str]; rewrite ?Hi];
    repeat (case_match; cbn -[str]); simplify_eq/=; rewrite <- ?app_assoc; auto.
Qed.

(** An event at a given position of a concrete trace. *)
Ltac event_at :=
  let i := fresh "i" in let a := fresh "a" in let H := fresh "H" in
  intros i a H; repeat (destruct i as [|i]; simpl in H; simplify_eq; try done).

(** ** Properties *)

(** C16. [load_models] succeeds exactly when the spaCy model is installed,
    or [python] is the running interpreter and the download succeeds, and
    the embedding model loads.  It returns the two models every
    configuration of [config.py] names.  It runs the download at most
    once, and only when the first load fails.  When [python] is another
    interpreter, a successful download still ends in [OSError]: the
    package went to the other interpreter. *)
Theorem load_models_outcome (w : world) :
  ((load_models w).1 = inr (‹"en_core_web_lg"›, ‹"all-mpnet-base-v2"›) <->
     (spacy_installed w = true \/ (w_python w = PySelf /\ w_download_ok w = true)) /\
     w_st_ok w ‹"all-mpnet-base-v2"› = true) /\
  (forall p env cfgs name cfg, (load_models w).1 = inr p ->
     import_config env = Some cfgs -> (name, cfg) ∈ cfgs ->
     p = (SPACY_MODEL cfg, SENTENCE_TRANSFORMER_MODEL cfg)) /\
  w_log (load_models w).2 = w_log w ++ models_events w /\
  length (models_events w) <= 1 /\
  (spacy_installed w = false -> w_python w = PyOther -> w_download_ok w = true ->
     (load_models w).1 = inl OSError).
Proof.
  destruct (load_models_spec w) as [Hr Hl]. rewrite Hr, <- models_error_None.
  split; [|split; [|split; [done|split]]].
  - by destruct (models_error w).
  - intros p env cfgs name cfg Hp Hc Hin. destruct (models_error w); simplify_eq.
    by destruct (import_config_models env cfgs name cfg Hc Hin) as [-> ->].
  - unfold models_events. destruct (spacy_installed w), (w_python w); simpl; lia.
  - intros Hi Hp Hd. unfold models_error. by rewrite Hi, Hp, Hd.
Qed.

(** C17. The order of start-up.  It only appends to the log; it registers
    CORS first; the download, if any, is the third event, after Firebase
    was initialised; the server runs only as the last event of a run that
    returns normally; every failure but the port's is logged at ERROR as
    the last event, while an invalid [PORT] stops the process without a
    log line. *)
Theorem run_server_order (w : world) :
  let evs := drop (length (w_log w)) (w_log (run_server w).2) in
  w_log w `prefix_of` w_log (run_server w).2 /\
  head evs = Some (ECors (cors_origins (w_env w))) /\
  (forall i argv, evs !! i = Some (ESubprocess argv) ->
     i = 2 /\ argv = spacy_download_cmd ‹"en_core_web_lg"› /\
     evs !! 1 = Some (ELog INFO msg_firebase_ok)) /\
  (forall i h p d, evs !! i = Some (ERun h p d) ->
     S i = length evs /\ (run_server w).1 = inr (‹"en_core_web_lg"›, ‹"all-mpnet-base-v2"›)) /\
  (forall e, (run_server w).1 = inl e -> e <> ValueError ->
     exists msg, last evs = Some (ELog ERROR msg)) /\
  ((run_server w).1 = inl ValueError -> last evs = Some (ELog INFO msg_models_ok)).
Proof.
  intros evs. destruct (run_server_trace w) as [Hr Hl]. unfold evs. rewrite Hr, Hl, drop_app_length.
  split; [by eexists|].
  unfold startup_spec, models_events.
  pose proof (models_error_not_value w) as Hnv.
  destruct (w_credentials_ok w _); cbn -[str].
  2: { split; [done|]. split; [event_at|]. split; [event_at|]. split; [|done].
       intros e [= <-] _. by eexists. }
  destruct (models_error w) as [e|]; [|destruct (server_port (w_env w))];
    (destruct (spacy_installed w); [|destruct (w_python w)]); cbn -[str];
    (split; [done|]); (split; [event_at|]); (split; [event_at|]);
    (split; [intros e' He' Hne; simplify_eq/=; try done; by eexists
            |intros He'; simplify_eq/=; done]).
Qed.

(** C18. The server starts, on 0.0.0.0 with the port and the debug flag
    [Config] computes, and with both models loaded, exactly when the
    Firebase key loads, the models can be loaded, and [PORT] is unset or
    an integer. *)
Theorem run_server_serves (w : world) (port : Z) :
  ((run_server w).1 = inr (‹"en_core_web_lg"›, ‹"all-mpnet-base-v2"›) /\
   last (w_log (run_server w).2) = Some (ERun ‹"0.0.0.0"› port (server_debug (w_env w)))) <->
  (w_credentials_ok w (firebase_key_path (w_env w)) = true /\
   ((spacy_installed w = true \/ (w_python w = PySelf /\ w_download_ok w = true)) /\
    w_st_ok w ‹"all-mpnet-base-v2"› = true) /\
   server_port (w_env w) = Some port).
Proof.
  destruct (run_server_trace w) as [Hr Hl]. rewrite Hr, Hl, <- models_error_None, last_app.
  unfold startup_spec. destruct (w_credentials_ok w _); cbn -[str]; [|intuition congruence].
  destruct (models_error w); cbn -[str];
    [rewrite !app_comm_cons, last_app; cbn -[str]; intuition congruence|].
  destruct (server_port (w_env w)); cbn -[str]; rewrite !app_comm_cons, last_app; cbn -[str];
    intuition congruence.
Qed.

(** ** Witnesses *)

(** A machine without the spaCy package, where [python] is another
    interpreter, and one where it is the running one. *)
Definition demo_world (py : python_cmd) : world := {|
  w_env := fun _ => None; w_spacy_models := []; w_python := py; w_download_ok := true;
  w_credentials_ok := fun _ => true; w_st_ok := fun _ => true; w_log := [] |}.

Example load_models_outcome_witness :
  spacy_installed (demo_world PyOther) = false /\ (load_models (demo_world PyOther)).1 = inl OSError.
Proof.
  assert (Hi : spacy_installed (demo_world PyOther) = false) by reflexivity.
  split; [exact Hi|].
  apply (load_models_outcome (demo_world PyOther)); [exact Hi | reflexivity | reflexivity].
Defined.

Example run_server_order_witness :
  drop 0 (w_log (run_server (demo_world PySelf)).2) !! 2 =
    Some (ESubprocess (spacy_download_cmd ‹"en_core_web_lg"›)) /\
  drop 0 (w_log (run_server (demo_world PySelf)).2) !! 1 = Some (ELog INFO msg_firebase_ok).
Proof.
  assert (H2 : drop 0 (w_log (run_server (demo_world PySelf)).2) !! 2 =
                 Some (ESubprocess (spacy_download_cmd ‹"en_core_web_lg"›))) by (vm_compute; reflexivity).
  split; [exact H2|].
  apply (proj1 (proj2 (proj2 (run_server_order (demo_world PySelf)))) 2 _ H2).
Defined.

Example run_server_serves_witness :
  (run_server (demo_world PySelf)).1 = inr (‹"en_core_web_lg"›, ‹"all-mpnet-base-v2"›) /\
  last (w_log (run_server (demo_world PySelf)).2) = Some (ERun ‹"0.0.0.0"› 5001 false).
Proof.
  apply (run_server_serves (demo_world PySelf) 5001).
  split; [reflexivity|]. split; [split; [right; split; reflexivity | reflexivity]|]. reflexivity.
Defined.

End Startup.
