(* ===== verification/Qualifications.v ===== *)
(** * Qualifications: [extract_qualifications] and [normalize_qualification]

    [src/utils/resume_utils.py] lines 52-69 and 87-89.  Extraction is one
    [re.findall] of a word-bounded alternation over the lower-cased text.  A
    Python alternation tries its branches in order and backtracks into the
    next branch when the closing [\b] fails.  [try_alts] does the same, and
    the theorems show what follows from that order: "bachelor's" and
    "master's" can never be returned.  Normalisation collapses the synonym
    sets to one canonical token. *)

From S2P Require Import Prelude.
From stdpp Require Import base list gmap sets.
From Stdlib Require Import NArith ZArith Lia.

Module Qualifications.

(** ** [normalize_qualification] *)

Definition bachelor_terms : list text :=
  [‹"bachelor"›; ‹"bs"›; ‹"b.sc"›; ‹"bsc"›; ‹"bachelors"›].
Definition master_terms : list text :=
  [‹"master"›; ‹"ms"›; ‹"msc"›; ‹"m.sc"›; ‹"m.tech"›; ‹"mtech"›; ‹"masters"›].
Definition phd_terms : list text := [‹"phd"›; ‹"ph.d"›; ‹"m.phil"›].
Definition mba_terms : list text := [‹"mba"›].
Definition bba_terms : list text := [‹"bba"›].

Definition normalize_qualification (q0 : text) : text :=
  let q := lower q0 in
  if decide (q ∈ bachelor_terms) then ‹"bachelor"›
  else if decide (q ∈ master_terms) then ‹"master"›
  else if decide (q ∈ phd_terms) then ‹"phd"›
  else if decide (q ∈ mba_terms) then ‹"mba"›
  else if decide (q ∈ bba_terms) then ‹"bba"›
  else q.

(** ** [extract_qualifications] *)

(** The branches of the pattern, in the order the engine tries them. *)
Definition qual_alternatives : list text :=
  [‹"bachelor"›; ‹"bachelors"›; ‹"bachelor's"›; ‹"bs"›; ‹"b.tech"›; ‹"bsc"›;
   ‹"master"›; ‹"masters"›; ‹"master's"›; ‹"ms"›; ‹"m.tech"›; ‹"msc"›;
   ‹"phd"›; ‹"ph.d"›; ‹"m.phil"›; ‹"mba"›; ‹"bba"›;
   ‹"computer science"›; ‹"engineering"›; ‹"it"›; ‹"software"›; ‹"cs"›].

(** [\b] between two positions: exactly one side is a word character. *)
Definition word_boundary (before after : option N) : bool :=
  xorb (default false (is_word <$> before)) (default false (is_word <$> after)).

(** The alternation followed by [\b]: a branch whose closing boundary fails
    gives way to the next branch. *)
Fixpoint try_alts (alts : list text) : parser text :=
  fun t =>
    match alts with
    | [] => None
    | a :: rest =>
        match p_lit a t with
        | Some (m, r) =>
            if word_boundary (last a) (head r) then Some (m, r) else try_alts rest t
        | None => try_alts rest t
        end
    end.

(** [\b(...)\b] at one position. *)
Definition qual_matcher (prev : option N) : parser text :=
  fun t => if word_boundary prev (head t) then try_alts qual_alternatives t else None.

(** [list(set(re.findall(pattern, text.lower())))]; the callers use the
    result as a set. *)
Definition extract_qualifications (t : text) : gset text :=
  list_to_set (findall qual_matcher (lower t)).

(** ** Lemmas *)
Lemma try_alts_app (l1 l2 : list text) (t : text) :
  try_alts (l1 ++ l2) t = match try_alts l1 t with Some x => Some x | None => try_alts l2 t end.
Proof.
  induction l1 as [|a l1 IH]; simpl; [done|].
  destruct (p_lit a t) as [[m r]|]; [|done]. by destruct (word_boundary _ _).
Qed.

Lemma try_alts_in (alts : list text) (t m r : text) :
  try_alts alts t = Some (m, r) -> m ∈ alts.
Proof.
  induction alts as [|a alts IH]; simpl; [done|].
  destruct (p_lit a t) as [[m' r']|] eqn:E.
  - destruct (word_boundary _ _).
    + intros [= <- <-]. apply p_lit_spec in E as [-> _]. left.
    + intros H. right. by apply IH.
  - intros H. right. by apply IH.
Qed.

Lemma try_alts_some (alts : list text) (u t m r : text) :
  u ∈ alts -> p_lit u t = Some (m, r) -> word_boundary (last u) (head r) = true ->
  is_Some (try_alts alts t).
Proof.
  intros Hu Hp Hb. induction alts as [|a alts IH]; [by apply elem_of_nil in Hu|].
  simpl. apply elem_of_cons in Hu as [->|Hu].
  - rewrite Hp, Hb. by eexists.
  - destruct (p_lit a t) as [[m' r']|]; [|auto].
    destruct (word_boundary (last a) (head r')); [by eexists|auto].
Qed.

(** A branch [u ++ w] listed after [u] never fires when [u] ends in a word
    character and [w] starts with a non-word character: at any text where
    [u ++ w] matches, the branch [u] already matches with its closing
    boundary. *)
Lemma try_alts_shadowed (l1 l2 : list text) (u : text) (c : N) (w t m r : text) :
  u ∈ l1 -> default false (is_word <$> last u) = true -> is_word c = false ->
  try_alts (l1 ++ (u ++ c :: w) :: l2) t = Some (m, r) -> m ∈ l1 \/ m ∈ l2.
Proof.
  intros Hu Hlast Hc. rewrite try_alts_app.
  destruct (try_alts l1 t) as [[m' r']|] eqn:E1.
  - intros [= <- <-]. left. by eapply try_alts_in.
  - simpl. destruct (p_lit (u ++ c :: w) t) as [[m' r']|] eqn:E2.
    + apply p_lit_spec in E2 as [-> ->].
      destruct (word_boundary _ _).
      * exfalso. rewrite <- app_assoc in E1. change ((c :: w) ++ r') with (c :: w ++ r') in E1.
        destruct (try_alts_some l1 u _ u (c :: w ++ r') Hu (p_lit_app _ _)) as [x Hx].
        { unfold word_boundary. simpl. rewrite Hlast, Hc. done. }
        congruence.
      * intros H. right. by eapply try_alts_in.
    + intros H. right. by eapply try_alts_in.
Qed.

(** ** Properties *)

(** Every qualification [extract_qualifications] returns is one of the
    pattern's vocabulary words. *)
Theorem extract_qualifications_vocabulary (t q : text) :
  q ∈ extract_qualifications t -> q ∈ qual_alternatives.
Proof.
  unfold extract_qualifications, findall. rewrite elem_of_list_to_set.
  assert (Forall (fun m => m ∈ qual_alternatives)
            (findall_go qual_matcher (length (lower t)) None (lower t))) as HF.
  { apply findall_go_sound. intros p u a rest. unfold qual_matcher.
    destruct (word_boundary _ _); [apply try_alts_in | done]. }
  rewrite Forall_forall in HF. apply HF.
Qed.

Lemma qual_matcher_not_possessive (prev : option N) (t m r : text) :
  qual_matcher prev t = Some (m, r) -> m <> ‹"bachelor's"› /\ m <> ‹"master's"›.
Proof.
  unfold qual_matcher. destruct (word_boundary _ _); [|done]. intros H. split.
  - apply (try_alts_shadowed [‹"bachelor"›; ‹"bachelors"›] (drop 3 qual_alternatives)
             ‹"bachelor"› 39%N ‹"s"›) in H; [|by left|done|done].
    intros ->. revert H. decide_closed.
  - apply (try_alts_shadowed (take 8 qual_alternatives) (drop 9 qual_alternatives)
             ‹"master"› 39%N ‹"s"›) in H; [|decide_closed|done|done].
    intros ->. revert H. decide_closed.
Qed.

(** C24. The pattern lists "bachelor's" and "master's", but the engine
    tries "bachelor" and "master" first and their closing [\b] holds before
    the apostrophe, so these two spellings are never extracted. *)
Theorem extract_qualifications_no_possessive (t : text) :
  (‹"bachelor's"› ∉ extract_qualifications t) /\ (‹"master's"› ∉ extract_qualifications t).
Proof.
  unfold extract_qualifications, findall. rewrite !elem_of_list_to_set.
  assert (Forall (fun m => m <> ‹"bachelor's"› /\ m <> ‹"master's"›)
            (findall_go qual_matcher (length (lower t)) None (lower t))) as HF.
  { apply findall_go_sound. intros p u a rest. apply qual_matcher_not_possessive. }
  rewrite Forall_forall in HF. split; intros Hin; apply HF in Hin; tauto.
Qed.

(** [normalize_qualification] is idempotent: a canonical token, or a
    lower-cased token outside the synonym sets, is its own normal form. *)
Theorem normalize_qualification_idempotent (q : text) :
  normalize_qualification (normalize_qualification q) = normalize_qualification q.
Proof.
  remember (normalize_qualification q) as k eqn:Hk.
  unfold normalize_qualification in Hk. simpl in Hk.
  repeat case_decide; subst k; try reflexivity.
  unfold normalize_qualification. rewrite lower_idem. repeat case_decide; done.
Qed.

(** The synonym sets of spec 4.3: "B.Sc" and "bachelors" both become
    "bachelor", "M.Tech" becomes "master"; but "b.tech", which extraction
    does return, is not in the bachelor set and passes through unchanged. *)
Theorem normalize_qualification_synonyms :
  normalize_qualification ‹"B.Sc"› = ‹"bachelor"› /\
  normalize_qualification ‹"bachelors"› = ‹"bachelor"› /\
  normalize_qualification ‹"M.Tech"› = ‹"master"› /\
  normalize_qualification ‹"Ph.D"› = ‹"phd"› /\
  normalize_qualification ‹"b.tech"› = ‹"b.tech"›.
Proof. repeat split; vm_compute; reflexivity. Qed.

(** The field token "it" matches the English pronoun, so a plain
    sentence yields the qualification "it"; and "B.Sc." is never extracted
    (the pattern has "bsc" but not "b.sc"), although the normaliser knows
    it. *)
Theorem extract_qualifications_examples :
  extract_qualifications ‹"I built it myself"› = {[ ‹"it"› ]} /\
  extract_qualifications ‹"B.Sc. in Computer Science"› = {[ ‹"computer science"› ]}.
Proof. split; vm_compute; reflexivity. Qed.

Example extract_qualifications_vocabulary_witness :
  ‹"it"› ∈ extract_qualifications ‹"I built it myself"› /\ ‹"it"› ∈ qual_alternatives.
Proof.
  assert (H : ‹"it"› ∈ extract_qualifications ‹"I built it myself"›) by decide_closed.
  split; [exact H | exact (extract_qualifications_vocabulary _ _ H)].
Defined.

(** The scan of [extract_qualifications] ends within its fuel: any
    fuel at least the length of the lower-cased text gives the same set,
    so the fuel [length t] never cuts the scan short. *)
Theorem extract_qualifications_fuel (t : text) (fuel : nat) :
  length t <= fuel ->
  list_to_set (findall_go qual_matcher fuel None (lower t)) = extract_qualifications t.
Proof.
  intros Hf. unfold extract_qualifications, findall. f_equal.
  apply findall_go_fuel; unfold lower; rewrite length_map; lia.
Qed.

Example extract_qualifications_fuel_witness :
  length ‹"MSc in IT"› <= 20 /\
  list_to_set (findall_go qual_matcher 20 None (lower ‹"MSc in IT"›)) =
  extract_qualifications ‹"MSc in IT"›.
Proof. split; [simpl; lia | apply extract_qualifications_fuel; simpl; lia]. Defined.

End Qualifications.
