(* ===== verification/SkillNorm.v ===== *)
(** * Skill keys: [normalize_skill] and [extract_skills_dynamic]

    [src/utils/resume_utils.py] lines 43-49 and 72-84.  A skill's canonical
    key is lower-cased, loses whitespace, dots and dashes, loses one
    trailing "js", and then loses every character outside [a-z0-9].  The
    theorems say what a key looks like, that "ReactJS" and "react" share a
    key, and exactly when normalising twice changes the key (spec 8 claims
    never). *)

From S2P Require Import Prelude Qualifications.
From stdpp Require Import base list gmap sets.
From Stdlib Require Import NArith ZArith Lia.

Module SkillNorm.

(** [re.sub(r'[\s\.\-]', '', skill)] *)
Definition strip_separators (t : text) : text :=
  List.filter (fun c => negb (is_space c || (c =? ch_dot)%N || (c =? ch_dash)%N)) t.

Definition js_suffix : text := ‹"js"›.

(** [if skill.endswith('js'): skill = skill[:-2]] *)
Definition drop_js (t : text) : text :=
  if ends_with js_suffix t then take (length t - 2) t else t.

(** [re.sub(r'[^a-z0-9]', '', skill)] *)
Definition keep_alnum (t : text) : text :=
  List.filter (fun c => is_lower c || is_digit c) t.

Definition normalize_skill (skill : text) : text :=
  let s1 := lower skill in
  let s2 := strip_separators s1 in
  let s3 := drop_js s2 in
  keep_alnum s3.

(** ** [extract_skills_dynamic]

    The spaCy pipeline is a collaborator.  The model sees, for a text, its
    noun-chunk texts, its entities with their labels, and the stop-word
    test of the vocabulary.  The filtering around them is the code's. *)

Class NlpModel := {
  noun_chunks : text -> list text;
  entities : text -> list (text * text);
  is_stop : text -> bool
}.

Definition skill_labels : list text := [‹"SKILL"›; ‹"LANGUAGE"›].

Section Extract.
Context `{NlpModel}.

(** [if 1 < len(chunk.text) < 40: skills.add(chunk.text.strip().lower())] *)
Definition chunk_skills (t : text) : list text :=
  List.map (fun c => lower (strip c))
    (List.filter (fun c => (1 <? length c) && (length c <? 40)) (noun_chunks t)).

(** [if ent.label_ in ["SKILL", "LANGUAGE"]: skills.add(ent.text.strip().lower())] *)
Definition entity_skills (t : text) : list text :=
  List.map (fun e => lower (strip e.1))
    (List.filter (fun e => bool_decide (e.2 ∈ skill_labels)) (entities t)).

Definition extract_skills_dynamic (t : text) : gset text :=
  let skills : gset text := list_to_set (chunk_skills t ++ entity_skills t) in
  let skills := filter (fun s => is_stop s = false /\ 2 < length s) skills in
  skills ∖ Qualifications.extract_qualifications t.

End Extract.

(** A keyword-spotting stand-in for the spaCy model, for the examples. *)
Definition demo_nlp : NlpModel := {|
  noun_chunks := fun t =>
    List.filter (fun k => contains k (lower t)) [‹"python"›; ‹"flask"›; ‹"sql"›; ‹"it"›];
  entities := fun _ => [];
  is_stop := fun _ => false |}.

(** A canonical key: only [a-z0-9]. *)
Definition is_key (t : text) : Prop := Forall (fun c => is_lower c || is_digit c = true) t.

(** ** Lemmas on the stages *)
Lemma keep_alnum_key (t : text) : is_key (keep_alnum t).
Proof.
  unfold is_key, keep_alnum. apply Forall_forall. intros c Hc.
  apply list_elem_of_In, filter_In in Hc as [_ Hc]. exact Hc.
Qed.

Lemma key_lower (t : text) : is_key t -> lower t = t.
Proof.
  unfold is_key, lower. induction 1 as [|c t Hc _ IH]; simpl; [done|].
  rewrite IH. f_equal. unfold lower_char.
  destruct (is_upper c) eqn:E; [|done]. exfalso. char_class.
Qed.

Lemma key_strip_separators (t : text) : is_key t -> strip_separators t = t.
Proof.
  unfold is_key, strip_separators. induction 1 as [|c t Hc _ IH]; simpl; [done|].
  rewrite IH, is_space_word by (revert Hc; char_class).
  replace (c =? ch_dot)%N with false by (symmetry; revert Hc; char_class).
  replace (c =? ch_dash)%N with false by (symmetry; revert Hc; char_class).
  done.
Qed.

Lemma key_keep_alnum (t : text) : is_key t -> keep_alnum t = t.
Proof.
  unfold is_key, keep_alnum. induction 1 as [|c t Hc _ IH]; simpl; [done|].
  by rewrite Hc, IH.
Qed.

Lemma key_take (t : text) n : is_key t -> is_key (take n t).
Proof. unfold is_key. intros H. by apply Forall_take. Qed.

Lemma ends_with_js_length (t : text) :
  ends_with js_suffix t = true -> 2 <= length t.
Proof.
  unfold ends_with. rewrite bool_decide_eq_true. intros [u ->].
  rewrite length_app. simpl. lia.
Qed.

Lemma strip_separators_app (a b : text) :
  strip_separators (a ++ b) = strip_separators a ++ strip_separators b.
Proof. apply List.filter_app. Qed.

Lemma strip_separators_js : strip_separators js_suffix = js_suffix.
Proof. reflexivity. Qed.

#[export] Hint Resolve keep_alnum_key key_take : textdb.
#[export] Hint Rewrite key_lower key_strip_separators key_keep_alnum using auto with textdb : textdb.

(** ** Properties *)

(** Every skill key consists of lower-case ASCII letters and digits
    only, whatever the raw phrase. *)
Theorem normalize_skill_is_key (skill : text) : is_key (normalize_skill skill).
Proof. apply keep_alnum_key. Qed.

(** Appending "js" (in any case) to a phrase does not change its key,
    provided the phrase's own separator-free form does not already end in
    "js"; in particular "ReactJS" and "react" get the same key (spec 4.2). *)
Theorem normalize_skill_js_suffix (s u : text) :
  lower u = js_suffix ->
  ends_with js_suffix (strip_separators (lower s)) = false ->
  normalize_skill (s ++ u) = normalize_skill s.
Proof.
  intros Hu Hs. unfold normalize_skill, drop_js.
  rewrite lower_app, Hu, strip_separators_app, strip_separators_js, Hs.
  set (k := strip_separators (lower s)) in *.
  assert (Hsuf : ends_with js_suffix (k ++ js_suffix) = true).
  { unfold ends_with. apply bool_decide_eq_true. by exists k. }
  rewrite Hsuf, length_app. change (length js_suffix) with 2.
  by rewrite Nat.add_sub, take_app_length.
Qed.

Example normalize_skill_ReactJS_witness :
  lower ‹"JS"› = js_suffix /\
  ends_with js_suffix (strip_separators (lower ‹"React"›)) = false /\
  normalize_skill (‹"React"› ++ ‹"JS"›) = normalize_skill ‹"React"›.
Proof.
  split; [reflexivity|]. split; [vm_compute; reflexivity|].
  apply normalize_skill_js_suffix; vm_compute; reflexivity.
Defined.

(** C23. Normalising a key again leaves it unchanged exactly when the key
    does not end in "js": [normalize_skill] is idempotent on those keys and
    on no others. *)
Theorem normalize_skill_idempotent_iff (skill : text) :
  normalize_skill (normalize_skill skill) = normalize_skill skill <->
  ends_with js_suffix (normalize_skill skill) = false.
Proof.
  assert (Hk : is_key (normalize_skill skill)) by apply keep_alnum_key.
  set (k := normalize_skill skill) in *.
  unfold normalize_skill at 1. rewrite key_lower, key_strip_separators by done.
  unfold drop_js. destruct (ends_with js_suffix k) eqn:E.
  - split; [|done]. intros Heq. apply ends_with_js_length in E.
    rewrite key_keep_alnum in Heq by (by apply key_take).
    apply (f_equal length) in Heq. rewrite length_take in Heq. lia.
  - split; [done|]. intros _. by apply key_keep_alnum.
Qed.

(** Spec 8 says normalising a skill twice gives the same key.  The
    code does not: "reactjsjs" normalises to "reactjs", which normalises to
    "react". *)
Theorem normalize_skill_not_idempotent :
  normalize_skill ‹"reactjsjs"› = ‹"reactjs"› /\
  normalize_skill (normalize_skill ‹"reactjsjs"›) = ‹"react"›.
Proof. split; vm_compute; reflexivity. Qed.

(** C34. Every phrase [extract_skills_dynamic] returns has more than two
    characters, is not a stop word, and is not a qualification extracted
    from the same text: skills and qualifications are disjoint (spec
    4.2). *)
Theorem extract_skills_dynamic_filtered `{NlpModel} (t s : text) :
  s ∈ extract_skills_dynamic t ->
  2 < length s /\ is_stop s = false /\ s ∉ Qualifications.extract_qualifications t.
Proof.
  unfold extract_skills_dynamic. rewrite elem_of_difference, elem_of_filter.
  intros [[[Hstop Hlen] _] Hq]. done.
Qed.

Example extract_skills_dynamic_filtered_witness :
  ‹"python"› ∈ @extract_skills_dynamic demo_nlp ‹"Python and IT skills"› /\
  (2 < length ‹"python"› /\ @is_stop demo_nlp ‹"python"› = false /\
   ‹"python"› ∉ Qualifications.extract_qualifications ‹"Python and IT skills"›).
Proof.
  assert (H : ‹"python"› ∈ @extract_skills_dynamic demo_nlp ‹"Python and IT skills"›)
    by decide_closed.
  split; [exact H | exact (extract_skills_dynamic_filtered _ _ H)].
Defined.

End SkillNorm.
