(* ===== verification/Experience.v ===== *)
(** * The job's experience window: [extract_experience] and
      [parse_required_experience]

    [src/utils/resume_utils.py] lines 92-141.  Extraction runs three
    [re.findall] scans over the lower-cased job text and keeps the distinct
    matches.  Parsing classifies each phrase with [re.search] (a "fresh"
    phrase, a month range, a year range, a year count, or a month count),
    collects the minima and the maxima it contributes, and returns the
    smallest minimum and the largest maximum.

    Matching the patterns with combinators is exact here.  Each [\s*] and
    [\d+] is followed by a token that cannot start with the characters it
    consumes, so the engine never backtracks into them.  The branches of
    [(?:to|-|–)] and of [(?:years?|months?)] start with distinct
    characters. *)

From S2P Require Import Prelude.
From stdpp Require Import base list gmap sets.
From Stdlib Require Import NArith ZArith Lia.

Module Experience.

Local Open Scope parser_scope.

(** [\s*] *)
Definition p_ws : parser text := p_many is_space.

(** [(?:to|-|–)] in [extract_experience], [(?:-|to|–)] in the parser. *)
Definition p_sep_to : parser text :=
  p_alt (p_lit ‹"to"›) (p_alt (p_lit [ch_dash]) (p_lit [ch_endash])).
Definition p_sep_dash : parser text :=
  p_alt (p_lit [ch_dash]) (p_alt (p_lit ‹"to"›) (p_lit [ch_endash])).

Definition p_years : parser text := p_lit ‹"year"› ;;; p_opt_char 115%N.
Definition p_months : parser text := p_lit ‹"month"› ;;; p_opt_char 115%N.

(** [(?:years?|months?)] *)
Definition p_unit : parser text := p_alt p_years p_months.

(** ** [extract_experience] *)

(** [(fresh\s*(?:to|-|–)\s*\d+\s*(?:years?|months?))] *)
Definition exp_fresh : parser text :=
  p_capture (p_lit ‹"fresh"› ;;; p_ws ;;; p_sep_to ;;; p_ws ;;; p_many1 is_digit ;;;
             p_ws ;;; p_unit).

(** [(\d+\s*(?:to|-|–)\s*\d+\s*(?:years?|months?))] *)
Definition exp_range : parser text :=
  p_capture (p_many1 is_digit ;;; p_ws ;;; p_sep_to ;;; p_ws ;;; p_many1 is_digit ;;;
             p_ws ;;; p_unit).

(** [(\d+\s*(?:years?|months?))] *)
Definition exp_single : parser text :=
  p_capture (p_many1 is_digit ;;; p_ws ;;; p_unit).

(** The three scans in order, then [list(set(matches))].  Python's set
    order is arbitrary; [remove_dups] keeps first occurrences, and the
    window is shown below not to depend on the order or on duplicates. *)
Definition extract_experience (t : text) : list text :=
  let lt := lower t in
  remove_dups (findall (fun _ => exp_fresh) lt ++ findall (fun _ => exp_range) lt ++
               findall (fun _ => exp_single) lt).

(** ** [parse_required_experience] *)

(** [fresh\s*(?:to|-|–)\s*(\d+)\s*months?] *)
Definition srch_fresh_months : parser Z :=
  p_lit ‹"fresh"› ;;; p_ws ;;; p_sep_to ;;; p_ws ;;; n <- p_int ;; p_ws ;;; p_months ;;; p_ret n.

(** [(\d+)\s*(?:-|to|–)\s*(\d+)\s*months?] and the same with [years?] *)
Definition srch_range (unit : parser text) : parser (Z * Z) :=
  a <- p_int ;; p_ws ;;; p_sep_dash ;;; p_ws ;;; b <- p_int ;; p_ws ;;; unit ;;; p_ret (a, b).

(** [(\d+)\s*years?] and [(\d+)\s*months?] *)
Definition srch_count (unit : parser text) : parser Z :=
  n <- p_int ;; p_ws ;;; unit ;;; p_ret n.

(** The minima and maxima one phrase appends to [all_mins] and
    [all_maxs]: the body of the loop, with its [continue]s. *)
Definition classify (exp0 : text) : list Z * list Z :=
  let exp := lower exp0 in
  if contains ‹"fresh"› exp then
    ([0%Z], match search (fun _ => srch_fresh_months) exp with
            | Some (n, _) => [n] | None => [] end)
  else match search (fun _ => srch_range p_months) exp with
  | Some ((a, b), _) => ([a], [b])
  | None =>
  match search (fun _ => srch_range p_years) exp with
  | Some ((a, b), _) => ([a * 12]%Z, [b * 12]%Z)
  | None =>
  match search (fun _ => srch_count p_years) exp with
  | Some (n, _) => ([n * 12]%Z, [n * 12]%Z)
  | None =>
  match search (fun _ => srch_count p_months) exp with
  | Some (n, _) => ([n], [n])
  | None => ([], [])
  end end end end.

Definition all_mins (job_exps : list text) : list Z := concat (map (fun e => (classify e).1) job_exps).
Definition all_maxs (job_exps : list text) : list Z := concat (map (fun e => (classify e).2) job_exps).

(** [(min_months, max_months)]; [None] is Python's [None]. *)
Definition parse_required_experience (job_exps : list text) : option Z * option Z :=
  (py_min (all_mins job_exps), py_max (all_maxs job_exps)).

(** ** Lemmas *)
Lemma elem_of_all_mins (l : list text) (x : Z) :
  x ∈ all_mins l <-> exists e, e ∈ l /\ x ∈ (classify e).1.
Proof.
  unfold all_mins. apply elem_of_concat_map.
Qed.

Lemma elem_of_all_maxs (l : list text) (x : Z) :
  x ∈ all_maxs l <-> exists e, e ∈ l /\ x ∈ (classify e).2.
Proof.
  unfold all_maxs. apply elem_of_concat_map.
Qed.

(** A phrase that contributes a maximum also contributes a minimum. *)
Lemma classify_max_min (e : text) : (classify e).2 <> [] -> (classify e).1 <> [].
Proof.
  unfold classify. repeat case_match; simpl; congruence.
Qed.

(** Digits are not letters: [lower] keeps them. *)
Lemma lower_digits (ds : text) : Forall (fun c => is_digit c = true) ds -> lower ds = ds.
Proof.
  induction 1 as [|c ds Hc _ IH]; [done|]. simpl. rewrite IH, lower_char_not_upper; [done|].
  apply not_true_iff_false. intros Hu. revert Hc Hu. char_class.
Qed.

(** A run of digits followed by a non-digit is consumed by [\d+] whole. *)
Lemma digits_then {B} (q : parser B) (ds u : text) :
  ds <> [] -> Forall (fun c => is_digit c = true) ds -> default false (is_digit <$> head u) = false ->
  (p_many1 is_digit ;;; q) (ds ++ u) = q u.
Proof. intros Hne Hd Hu. unfold p_bind. by rewrite p_many1_app. Qed.

(** No phrase starting with a digit is a "fresh" phrase. *)
Lemma exp_fresh_digits (ds u : text) :
  ds <> [] -> Forall (fun c => is_digit c = true) ds -> exp_fresh (ds ++ u) = None.
Proof.
  intros Hne Hd. destruct ds as [|d ds]; [done|]. apply Forall_cons in Hd as [Hd _].
  unfold exp_fresh, p_capture, p_bind, str. cbn [p_lit map String.list_ascii_of_string Ascii.N_of_ascii app].
  change (Ascii.N_of_digits [false; true; true; false; false; true; true; false]) with 102%N.
  replace (102 =? d)%N with false; [done|]. symmetry. apply N.eqb_neq. revert Hd. char_class.
Qed.

(** The three scans skip a digit run followed by [u] when no scan matches
    at a digit position. *)
Lemma findall_digits_skip (p : parser text) (ds u : text) :
  (forall ds', ds' <> [] -> Forall (fun c => is_digit c = true) ds' -> p (ds' ++ u) = None) ->
  Forall (fun c => is_digit c = true) ds ->
  exists prev, findall (fun _ => p) (ds ++ u) = findall_go (fun _ => p) (length u) prev u.
Proof.
  intros Hp Hd. unfold findall. rewrite length_app. apply findall_go_skip.
  intros _ ds' Hs Hne. apply Hp; [done|]. destruct Hs as [k ->]. by apply Forall_app in Hd as [_ ?].
Qed.

(** ** Properties *)

(** C19. The window is the least minimum and the greatest maximum that the
    phrases contribute: [parse_required_experience] returns [Some m] as
    minimum exactly when [m] is contributed by some phrase and no phrase
    contributes less, and symmetrically for the maximum. *)
Theorem parse_required_experience_envelope (l : list text) (m M : Z) :
  ((parse_required_experience l).1 = Some m <->
     (exists e, e ∈ l /\ m ∈ (classify e).1) /\
     (forall e x, e ∈ l -> x ∈ (classify e).1 -> (m <= x)%Z)) /\
  ((parse_required_experience l).2 = Some M <->
     (exists e, e ∈ l /\ M ∈ (classify e).2) /\
     (forall e x, e ∈ l -> x ∈ (classify e).2 -> (x <= M)%Z)).
Proof.
  simpl. rewrite py_min_spec, py_max_spec, !Forall_forall. split; split.
  - intros [Hin Hall]. split; [by apply elem_of_all_mins|].
    intros e x He Hx. apply Hall, elem_of_all_mins. eauto.
  - intros [Hin Hall]. split; [by apply elem_of_all_mins|].
    intros x Hx. apply elem_of_all_mins in Hx as [e [He Hx]]. eauto.
  - intros [Hin Hall]. split; [by apply elem_of_all_maxs|].
    intros e x He Hx. apply Hall, elem_of_all_maxs. eauto.
  - intros [Hin Hall]. split; [by apply elem_of_all_maxs|].
    intros x Hx. apply elem_of_all_maxs in Hx as [e [He Hx]]. eauto.
Qed.

(** A maximum is only ever found together with a minimum: an upper
    bound without a lower bound cannot come out of the parser. *)
Theorem parse_required_experience_max_has_min (l : list text) :
  (parse_required_experience l).2 <> None -> (parse_required_experience l).1 <> None.
Proof.
  simpl. intros Hmax Hmin. apply py_min_None_iff in Hmin.
  destruct (all_maxs l) as [|x xs] eqn:E; [done|].
  assert (x ∈ all_maxs l) as Hx by (rewrite E; left).
  apply elem_of_all_maxs in Hx as [e [He Hx]].
  destruct ((classify e).1) as [|y ys] eqn:E1.
  - apply (classify_max_min e); [|done]. intros H. rewrite H in Hx. by apply elem_of_nil in Hx.
  - assert (y ∈ all_mins l) as Hy.
    { apply elem_of_all_mins. exists e. rewrite E1. split; [done|left]. }
    rewrite Hmin in Hy. by apply elem_of_nil in Hy.
Qed.

(** C20. The window depends only on the set of phrases: reordering or
    repeating phrases (Python's [list(set(...))] has no fixed order) does
    not change it. *)
Theorem parse_required_experience_elements (l1 l2 : list text) :
  (forall e, e ∈ l1 <-> e ∈ l2) ->
  parse_required_experience l1 = parse_required_experience l2.
Proof.
  intros Hel. unfold parse_required_experience. f_equal.
  - apply py_min_elements. intros x. rewrite !elem_of_all_mins. naive_solver.
  - apply py_max_elements. intros x. rewrite !elem_of_all_maxs. naive_solver.
Qed.

(** The windows of spec 8: "1-2 years" gives 12..24 months, "fresh to
    6 months" gives 0..6, and "2 years" with "3-5 years" gives 24..60; a
    "fresh" phrase bounded in years keeps its minimum 0 but loses its
    maximum; and end to end, the job text of [src/test_api.py] asks for
    24..36 months. *)
Theorem parse_required_experience_examples :
  parse_required_experience [‹"1-2 years"›] = (Some 12%Z, Some 24%Z) /\
  parse_required_experience [‹"fresh to 6 months"›] = (Some 0%Z, Some 6%Z) /\
  parse_required_experience [‹"2 years"›; ‹"3-5 years"›] = (Some 24%Z, Some 60%Z) /\
  parse_required_experience [‹"fresh to 2 years"›] = (Some 0%Z, None) /\
  parse_required_experience (extract_experience
    ‹"We are looking for a Python developer with experience in machine learning and Flask. Bachelor's degree required. 2-3 years experience preferred."›)
  = (Some 24%Z, Some 36%Z).
Proof. repeat split; vm_compute; reflexivity. Qed.

Example parse_required_experience_max_has_min_witness :
  (parse_required_experience [‹"1-2 years"›]).2 <> None /\
  (parse_required_experience [‹"1-2 years"›]).1 <> None.
Proof.
  split; [vm_compute; discriminate|].
  apply parse_required_experience_max_has_min. vm_compute. discriminate.
Defined.

Example parse_required_experience_elements_witness :
  (forall e, e ∈ [‹"2 years"›; ‹"3-5 years"›] <-> e ∈ [‹"3-5 years"›; ‹"2 years"›; ‹"2 years"›]) /\
  parse_required_experience [‹"2 years"›; ‹"3-5 years"›] =
  parse_required_experience [‹"3-5 years"›; ‹"2 years"›; ‹"2 years"›].
Proof.
  assert (H : forall e, e ∈ [‹"2 years"›; ‹"3-5 years"›] <->
                        e ∈ [‹"3-5 years"›; ‹"2 years"›; ‹"2 years"›]).
  { intros e. rewrite !elem_of_cons, !elem_of_nil. tauto. }
  split; [exact H | apply parse_required_experience_elements, H].
Defined.

(** C31. A requirement written "N+ years" matches none of the three
    patterns, for every number N: the digits must be followed by optional
    spaces and a unit, so the job has no experience requirement at all and
    every candidate passes the experience check.  Written "N years", the
    same requirement is extracted whole. *)
Theorem extract_experience_plus_years (ds : text) :
  ds <> [] -> Forall (fun c => is_digit c = true) ds ->
  extract_experience (ds ++ ‹"+ years"›) = [] /\
  parse_required_experience (extract_experience (ds ++ ‹"+ years"›)) = (None, None) /\
  extract_experience (ds ++ ‹" years"›) = [ds ++ ‹" years"›].
Proof.
  intros Hne Hd.
  assert (Hplus : extract_experience (ds ++ ‹"+ years"›) = []).
  { unfold extract_experience. rewrite lower_app, lower_digits by done.
    replace (lower ‹"+ years"›) with ‹"+ years"› by reflexivity.
    destruct (findall_digits_skip exp_fresh ds ‹"+ years"›) as [p1 ->];
      [intros; by apply exp_fresh_digits | done |].
    destruct (findall_digits_skip exp_range ds ‹"+ years"›) as [p2 ->];
      [intros; unfold exp_range, p_capture; by rewrite digits_then | done |].
    destruct (findall_digits_skip exp_single ds ‹"+ years"›) as [p3 ->];
      [intros; unfold exp_single, p_capture; by rewrite digits_then | done |].
    vm_compute. reflexivity. }
  split; [exact Hplus|]. split; [by rewrite Hplus|].
  unfold extract_experience. rewrite lower_app, lower_digits by done.
  replace (lower ‹" years"›) with ‹" years"› by reflexivity.
  destruct (findall_digits_skip exp_fresh ds ‹" years"›) as [p1 ->];
    [intros; by apply exp_fresh_digits | done |].
  destruct (findall_digits_skip exp_range ds ‹" years"›) as [p2 ->];
    [intros; unfold exp_range, p_capture; by rewrite digits_then | done |].
  assert (Hs : exp_single (ds ++ ‹" years"›) = Some (ds ++ ‹" years"›, [])).
  { unfold exp_single, p_capture. rewrite digits_then by done. simpl.
    by rewrite Nat.sub_0_r, take_ge. }
  unfold findall. destruct ds as [|d ds0]; [done|]. cbn [app] in Hs.
  cbn [length app findall_go]. rewrite Hs. simpl.
  assert (Hnil : forall f prev, findall_go (fun _ => exp_single) f prev [] = []) by (by intros [|f] ?).
  rewrite Hnil. reflexivity.
Qed.

Example extract_experience_plus_years_witness :
  extract_experience ‹"5+ years"› = [] /\
  parse_required_experience (extract_experience ‹"5+ years"›) = (None, None) /\
  extract_experience ‹"5 years"› = [‹"5 years"›].
Proof.
  apply (extract_experience_plus_years ‹"5"›); [discriminate | repeat constructor].
Defined.

End Experience.
