(* ===== verification/WorkPeriods.v ===== *)
(** * Candidate experience: the work section, its date ranges, the total,
      and [format_months]

    [src/utils/resume_utils.py] lines 144-184.
    - [extract_work_experience_section] searches for a section header (case
      ignored).  It skips colons and whitespace, then takes the shortest
      text up to a line of the form [\n<letter><letters or spaces>:] or to
      the end.  A second, looser regex is tried when the first finds
      nothing.
    - [extract_work_periods] scans the section with two range patterns,
      "Mon YYYY - Mon YYYY|current|present" and "MM/YYYY - ...".  It parses
      both ends with dateutil and keeps the month difference when the end
      is not before the start and the difference is at most 600.
    - [total_experience_in_months] sums the kept periods.

    Dates as dateutil builds them.  A month name or number and a year,
    with the day taken from today (clipped to the month's length) and
    midnight; "current" and "present" mean [datetime.today()].  For two
    such dates, [end < start] holds exactly when the end's month comes
    before the start's, and [relativedelta] gives the difference of the
    month indices ([year * 12 + month]).  The model therefore works with
    month indices; [today] is the month index of the evaluation date.

    Why the combinators match the engine here:
    - [[A-Za-z]{3,9}] is always followed by a space.  It matches at a
      position exactly when the run of letters there has 3 to 9 letters and
      is followed by a space.
    - Each [\s*] is followed by a token that cannot start with whitespace.
    - The section's lazy group stops at the first position where the end
      marker matches, or at the end of the text.  The marker's
      [[A-Z\s]+] must be followed by ':', which it cannot contain, so it
      matches only when the maximal run is non-empty and followed by
      ':'. *)

From S2P Require Import Prelude.
From stdpp Require Import base list.
From Stdlib Require Import NArith ZArith Lia.

Module WorkPeriods.

Local Open Scope parser_scope.

(** ** [extract_work_experience_section] *)

(** [(WORK EXPERIENCE|EXPERIENCE|EMPLOYMENT HISTORY)] under [re.IGNORECASE] *)
Definition p_header : parser text :=
  p_alt (p_lit_ci ‹"WORK EXPERIENCE"›)
        (p_alt (p_lit_ci ‹"EXPERIENCE"›) (p_lit_ci ‹"EMPLOYMENT HISTORY"›)).

(** [[:\s\n]*] *)
Definition p_colon_ws : parser text :=
  p_many (fun c => (c =? ch_colon)%N || is_space c).

Definition alpha_or_space (c : N) : bool := is_alpha c || is_space c.

(** [\n[A-Z][A-Z\s]+:] under [re.IGNORECASE], at the start of [t]. *)
Definition section_end (t : text) : bool :=
  match t with
  | n :: a :: r =>
      (n =? ch_newline)%N && is_alpha a &&
      match take_while alpha_or_space r, drop_while alpha_or_space r with
      | _ :: _, c :: _ => (c =? ch_colon)%N
      | _, _ => false
      end
  | _ => false
  end.

(** [(.*?)(?:\n[A-Z][A-Z\s]+:|\Z)]: the group and the text after it. *)
Fixpoint lazy_group (t : text) : text * text :=
  match t with
  | [] => ([], [])
  | c :: r =>
      if section_end t then ([], t)
      else let '(g, rest) := lazy_group r in (c :: g, rest)
  end.

(** The first regex; its value is [match.group(2)]. *)
Definition section_re1 : parser text :=
  p_header ;;; p_colon_ws ;;; (fun t => Some (lazy_group t)).

(** The fallback: the same header and separators, then the whole rest of the text as the group. *)
Definition section_re2 : parser text :=
  p_header ;;; p_colon_ws ;;; (fun t => Some (t, [])).

Definition extract_work_experience_section (t : text) : text :=
  match search (fun _ => section_re1) t with
  | Some (g, _) => g
  | None =>
      match search (fun _ => section_re2) t with
      | Some (g, _) => g
      | None => []
      end
  end.

(** ** [extract_work_periods] *)

(** A captured end of a range: a month word and a year, a numeric month
    and a year, or "current"/"present". *)
Inductive date_text :=
| DMonthName (month year : text)
| DNumeric (month year : text)
| DNow.

(** [[A-Za-z]{3,9}] followed by the required space. *)
Definition p_word_3_9 : parser text :=
  fun t => let w := take_while is_alpha t in
           if (3 <=? length w) && (length w <=? 9) then Some (w, drop_while is_alpha t) else None.

(** [[A-Za-z]{3,9} \d{4}] *)
Definition p_month_year : parser date_text :=
  w <- p_word_3_9 ;; p_lit [ch_space] ;;; y <- p_count 4 is_digit ;; p_ret (DMonthName w y).

(** [\d{2}[/\-]\d{4}] *)
Definition p_numeric_date : parser date_text :=
  m <- p_count 2 is_digit ;; p_sat (fun c => (c =? ch_slash)%N || (c =? ch_dash)%N) ;;;
  y <- p_count 4 is_digit ;; p_ret (DNumeric m y).

(** [(?:–|-|to)] and [\s*] *)
Definition p_range_sep : parser text :=
  p_alt (p_lit [ch_endash]) (p_alt (p_lit [ch_dash]) (p_lit_ci ‹"to"›)).
Definition p_ws : parser text := p_many is_space.

(** [current|present] *)
Definition p_now : parser date_text :=
  p_alt (p_lit_ci ‹"current"› ;;; p_ret DNow) (p_lit_ci ‹"present"› ;;; p_ret DNow).

(** The two patterns, each capturing (start, end). *)
Definition period_re (p_date : parser date_text) : parser (date_text * date_text) :=
  s <- p_date ;; p_ws ;;; p_range_sep ;;; p_ws ;;; e <- p_alt p_date p_now ;; p_ret (s, e).

(** dateutil's month names ([parserinfo.MONTHS]), compared lower-cased. *)
Definition month_names : list (list text * Z) :=
  [([‹"jan"›; ‹"january"›], 1); ([‹"feb"›; ‹"february"›], 2); ([‹"mar"›; ‹"march"›], 3);
   ([‹"apr"›; ‹"april"›], 4); ([‹"may"›], 5); ([‹"jun"›; ‹"june"›], 6);
   ([‹"jul"›; ‹"july"›], 7); ([‹"aug"›; ‹"august"›], 8);
   ([‹"sep"›; ‹"sept"›; ‹"september"›], 9); ([‹"oct"›; ‹"october"›], 10);
   ([‹"nov"›; ‹"november"›], 11); ([‹"dec"›; ‹"december"›], 12)]%Z.

Definition month_of_name (w : text) : option Z :=
  snd <$> List.find (fun e => bool_decide (lower w ∈ e.1)) month_names.

(** [date_parser.parse], or [datetime.today()] for current/present, as a
    month index; [None] is a raised exception (the pair is skipped). *)
Definition parse_date (today : Z) (d : date_text) : option Z :=
  match d with
  | DMonthName w y =>
      m ← month_of_name w;
      let yr := digits_value y in
      if (yr =? 0)%Z then None else Some (yr * 12 + (m - 1))%Z
  | DNumeric mm y =>
      let m := digits_value mm in
      let yr := digits_value y in
      if (1 <=? m)%Z && (m <=? 12)%Z && negb (yr =? 0)%Z then Some (yr * 12 + (m - 1))%Z
      else None
  | DNow => Some today
  end.

(** The body of the loop: [continue] on an exception, on [end < start],
    and outside [0, 600]. *)
Definition period_months (today : Z) (se : date_text * date_text) : option Z :=
  s ← parse_date today se.1;
  e ← parse_date today se.2;
  if (e <? s)%Z then None
  else let total_months := (e - s)%Z in
       if (0 <=? total_months)%Z && (total_months <=? 600)%Z then Some total_months else None.

Definition extract_work_periods (today : Z) (t : text) : list Z :=
  omap (period_months today)
    (findall (fun _ => period_re p_month_year) t ++ findall (fun _ => period_re p_numeric_date) t).

Definition total_experience_in_months (periods : list Z) : Z := fold_right Z.add 0%Z periods.

(** ** [format_months] *)

Definition plural (b : bool) : text := if b then ‹"s"› else [].

Definition format_months (months : Z) : text :=
  let years := (months / 12)%Z in
  let rem_months := (months mod 12)%Z in
  if (0 <? years)%Z then
    strip (show_Z years ++ ‹" year"› ++ plural (1 <? years)%Z ++ ‹" "› ++
           show_Z rem_months ++ ‹" month"› ++ plural (negb (rem_months =? 1)%Z))
  else show_Z rem_months ++ ‹" month"› ++ plural (negb (rem_months =? 1)%Z).

(** A reader for the strings [format_months] prints (not part of the
    source; used to state the round trip). *)
Definition p_duration : parser Z :=
  p_alt (y <- p_int ;; p_lit ‹" year"› ;;; p_opt_char 115%N ;;; p_lit ‹" "› ;;;
         m <- p_int ;; p_lit ‹" month"› ;;; p_opt_char 115%N ;;; p_ret (12 * y + m)%Z)
        (m <- p_int ;; p_lit ‹" month"› ;;; p_opt_char 115%N ;;; p_ret m).

Definition parse_months (t : text) : option Z :=
  match p_duration t with Some (m, []) => Some m | _ => None end.

(** ** Lemmas *)
Lemma period_months_bounds (today : Z) (se : date_text * date_text) (p : Z) :
  period_months today se = Some p -> (0 <= p <= 600)%Z.
Proof.
  unfold period_months. destruct (parse_date today se.1) as [s|]; [|done].
  destruct (parse_date today se.2) as [e|]; [|done]. simpl.
  destruct (e <? s)%Z; [done|].
  destruct (0 <=? e - s)%Z eqn:E1, (e - s <=? 600)%Z eqn:E2; try done.
  intros [= <-]. apply Z.leb_le in E1, E2. lia.
Qed.

Lemma section_re_None (t : text) :
  section_re1 t = None <-> section_re2 t = None.
Proof.
  unfold section_re1, section_re2, p_bind, p_colon_ws, p_many.
  destruct (p_header t) as [[h r]|]; [|done]. split; discriminate.
Qed.

Lemma p_opt_char_plural (b : bool) (c : N) (r : text) :
  c <> 115%N -> exists m, p_opt_char 115 (plural b ++ c :: r) = Some (m, c :: r).
Proof.
  intros Hc. destruct b; [cbn; by eexists|].
  unfold plural, p_opt_char. rewrite app_nil_l.
  destruct (N.eqb_spec 115 c); [congruence | by eexists].
Qed.

Lemma p_opt_char_plural_end (b : bool) :
  exists m, p_opt_char 115 (plural b) = Some (m, []).
Proof. destruct b; cbn; by eexists. Qed.

Lemma head_space_not_digit (r : text) :
  default false (is_digit <$> head (ch_space :: r)) = false.
Proof. reflexivity. Qed.

Lemma last_month_plural (l : text) (b : bool) :
  default false (is_space <$> last (l ++ ‹" month"› ++ plural b)) = false.
Proof. rewrite last_app. by destruct b. Qed.

(** The reader takes the two-unit form apart. *)
Lemma p_duration_years (y r : Z) (b1 b2 : bool) :
  (0 <= y)%Z -> (0 <= r)%Z ->
  p_duration (show_Z y ++ ‹" year"› ++ plural b1 ++ ‹" "› ++ show_Z r ++ ‹" month"› ++ plural b2)
  = Some ((12 * y + r)%Z, []).
Proof.
  intros Hy Hr. unfold p_duration, p_alt, p_bind, p_ret. cbv beta.
  rewrite (p_int_show y (‹" year"› ++ _)) by (done || apply head_space_not_digit).
  rewrite p_lit_app.
  destruct (p_opt_char_plural b1 ch_space (‹""› ++ show_Z r ++ ‹" month"› ++ plural b2))
    as [m1 Hm1]; [discriminate|].
  change (‹" "› ++ show_Z r ++ ‹" month"› ++ plural b2)
    with (ch_space :: (‹""› ++ show_Z r ++ ‹" month"› ++ plural b2)). rewrite Hm1.
  change (ch_space :: (‹""› ++ show_Z r ++ ‹" month"› ++ plural b2))
    with (‹" "› ++ show_Z r ++ ‹" month"› ++ plural b2). rewrite p_lit_app.
  rewrite (p_int_show r (‹" month"› ++ _)) by (done || apply head_space_not_digit). rewrite p_lit_app.
  destruct (p_opt_char_plural_end b2) as [m2 Hm2]. by rewrite Hm2.
Qed.

Lemma p_duration_months (r : Z) (b : bool) :
  (0 <= r)%Z -> p_duration (show_Z r ++ ‹" month"› ++ plural b) = Some (r, []).
Proof.
  intros Hr. unfold p_duration, p_alt, p_bind, p_ret. cbv beta.
  rewrite (p_int_show r (‹" month"› ++ _)) by (done || apply head_space_not_digit).
  replace (p_lit ‹" year"› (‹" month"› ++ plural b)) with (@None (text * text)) by reflexivity.
  rewrite p_lit_app.
  destruct (p_opt_char_plural_end b) as [m2 Hm2]. by rewrite Hm2.
Qed.

(** ** Properties *)

(** C21. Every period [extract_work_periods] keeps lies in [0, 600]
    months, so the total is between 0 and 600 times the number of
    periods. *)
Theorem extract_work_periods_bounds (today : Z) (t : text) :
  Forall (fun p => 0 <= p <= 600)%Z (extract_work_periods today t) /\
  (0 <= total_experience_in_months (extract_work_periods today t)
     <= 600 * Z.of_nat (length (extract_work_periods today t)))%Z.
Proof.
  assert (HF : Forall (fun p => 0 <= p <= 600)%Z (extract_work_periods today t)).
  { apply Forall_forall. intros p Hp. unfold extract_work_periods in Hp.
    apply list_elem_of_omap in Hp as [se [_ Hse]]. by apply period_months_bounds in Hse. }
  split; [done|]. induction HF as [|p l Hp _ IH]; simpl; lia.
Qed.

(** C33. The fallback regex of [extract_work_experience_section] is dead
    code: it needs the same header as the first regex, and the first
    always matches once the header is found.  The function returns the
    first regex's group, or "" when there is no header. *)
Theorem extract_work_experience_section_fallback_dead (t : text) :
  extract_work_experience_section t =
  match search (fun _ => section_re1) t with Some (g, _) => g | None => [] end.
Proof.
  unfold extract_work_experience_section.
  destruct (search (fun _ => section_re1) t) as [[g r]|] eqn:E; [done|].
  unfold search in *. apply (search_go_None_iff (fun _ => section_re1) (fun _ => section_re2)) in E.
  - by rewrite E.
  - intros _ u. apply section_re_None.
Qed.

(** The example of spec 8: "Jan 2020 - Dec 2021" under an
    "EXPERIENCE" header counts 23 months, whatever the date.  With the
    range inverted, the period is dropped. *)
Theorem work_periods_spec_example (today : Z) :
  total_experience_in_months
    (extract_work_periods today (extract_work_experience_section ‹"EXPERIENCE
Jan 2020 - Dec 2021"›)) = 23%Z /\
  extract_work_periods today (extract_work_experience_section ‹"EXPERIENCE
Dec 2021 - Jan 2020"›) = [].
Proof. split; vm_compute; reflexivity. Qed.

(** C22. [format_months] prints a duration that reads back to the same
    number of months: "{years} year[s] {months} month[s]", or
    "{months} month[s]" when there are no whole years. *)
Theorem format_months_roundtrip (months : Z) :
  (0 <= months)%Z -> parse_months (format_months months) = Some months.
Proof.
  intros Hm. unfold format_months, parse_months.
  pose proof (Z.mod_pos_bound months 12 ltac:(lia)) as Hr.
  pose proof (Z.div_mod months 12 ltac:(lia)) as Hdm.
  assert (Hy : (0 <= months / 12)%Z) by (apply Z.div_pos; lia).
  destruct (Z.ltb_spec 0 (months / 12)) as [Hpos|Hz].
  - rewrite strip_id.
    + rewrite p_duration_years by lia. f_equal. lia.
    + destruct (show_Z (months / 12)) as [|d ds] eqn:E; [by apply show_Z_nonempty in E|].
      simpl. apply is_space_word. pose proof (show_Z_digits (months / 12) Hy) as Hd.
      rewrite E in Hd. inversion Hd as [|? ? Hd1 _]. unfold is_word. by rewrite Hd1, orb_true_r.
    + rewrite !app_assoc, <- (app_assoc _ ‹" month"› (plural _)). apply last_month_plural.
  - rewrite p_duration_months by lia. f_equal. lia.
Qed.

(** The wording of spec 4.6: singular and plural on each unit
    separately, and no year clause under a year. *)
Theorem format_months_examples :
  format_months 23 = ‹"1 year 11 months"› /\ format_months 12 = ‹"1 year 0 months"› /\
  format_months 25 = ‹"2 years 1 month"› /\ format_months 1 = ‹"1 month"› /\
  format_months 0 = ‹"0 months"›.
Proof. repeat split; vm_compute; reflexivity. Qed.

(** C32. "present" is read as the evaluation date, so the months counted
    for "Jan 2020 - present" grow with the date: the result is the number
    of months from January 2020 to today, for any date up to 600 months
    later. *)
Theorem work_periods_present (today : Z) :
  (24240 <= today <= 24840)%Z ->
  extract_work_periods today ‹"Jan 2020 - present"› = [(today - 24240)%Z].
Proof.
  intros Ht. unfold extract_work_periods.
  replace (findall _ _ ++ findall _ _) with [(DMonthName ‹"Jan"› ‹"2020"›, DNow)]
    by (vm_compute; reflexivity).
  assert (Hs : parse_date today (DMonthName ‹"Jan"› ‹"2020"›) = Some 24240%Z)
    by (vm_compute; reflexivity).
  unfold period_months. cbn [omap list_omap fst snd]. rewrite Hs. simpl.
  destruct (Z.ltb_spec today 24240); [lia|].
  destruct (Z.leb_spec 0 (today - 24240)), (Z.leb_spec (today - 24240) 600); try lia. done.
Qed.

Example work_periods_present_witness :
  (24240 <= 24322 <= 24840)%Z /\
  extract_work_periods 24322 ‹"Jan 2020 - present"› = [82%Z].
Proof. split; [lia | apply (work_periods_present 24322); lia]. Defined.

(** The end-of-section marker is matched ignoring case, so any line
    "Word word:" ends the section, not only an ALL-CAPS heading: a
    "Role:" line above the dates cuts them off and no experience is
    counted. *)
Theorem work_section_lowercase_marker (today : Z) :
  extract_work_experience_section ‹"EXPERIENCE
Acme Corp
Role: Developer
Jan 2020 - Dec 2021"› = ‹"Acme Corp"› /\
  total_experience_in_months (extract_work_periods today (extract_work_experience_section ‹"EXPERIENCE
Acme Corp
Role: Developer
Jan 2020 - Dec 2021"›)) = 0%Z.
Proof. split; vm_compute; reflexivity. Qed.

(** The header word is searched anywhere, ignoring case: the word
    "experience" in a summary sentence opens the section there, the next
    heading closes it, and the real EXPERIENCE section below is never
    read. *)
Theorem work_section_header_in_prose (today : Z) :
  extract_work_experience_section ‹"Summary: 5 years of experience in Python
Skills: Python
EXPERIENCE
Jan 2020 - Dec 2021"› = ‹"in Python"› /\
  total_experience_in_months (extract_work_periods today (extract_work_experience_section ‹"Summary: 5 years of experience in Python
Skills: Python
EXPERIENCE
Jan 2020 - Dec 2021"›)) = 0%Z.
Proof. split; vm_compute; reflexivity. Qed.

Example format_months_roundtrip_witness :
  (0 <= 23)%Z /\ parse_months (format_months 23) = Some 23%Z.
Proof. split; [lia | apply (format_months_roundtrip 23); lia]. Defined.

End WorkPeriods.
