(* ===== verification/Scorer.v ===== *)
(** * The scorer: the body of the per-resume loop of [rank_resumes]

    [src/app.py] lines 198-234.  Given the job's skill keys, qualification
    tokens and experience window, and one resume's skill keys,
    qualification tokens and total months, the loop body computes:
    - the experience verdict and its message;
    - the matched skill and qualification sets;
    - the F1 score of the skill overlap;
    - the 0.3 penalty.

    Python computes in binary64; the model computes the same expressions
    exactly in [Q] (the literal [0.3] is read as 3/10).  The list lengths
    in the F1 formula are the lengths of the key lists, with duplicates,
    exactly as [len(resume_skills)] and [len(job_skills)]. *)

From S2P Require Import Prelude SkillNorm.
From stdpp Require Import base list gmap sets.
From Stdlib Require Import ZArith QArith Qround Lqa Lia.

Module Scorer.

(** ** Experience verdict *)

Inductive exp_verdict := ExpMatched | ExpNotMatched | ExpNoRequirement.

#[export] Instance exp_verdict_eq_dec : EqDecision exp_verdict.
Proof. solve_decision. Defined.

(** [if job_min_exp is not None and total_months >= job_min_exp and
    (job_max_exp is None or total_months <= job_max_exp)] ... [elif] ...
    [else] *)
Definition experience_verdict (job_min_exp job_max_exp : option Z) (total_months : Z) : exp_verdict :=
  match job_min_exp with
  | Some mn =>
      if (mn <=? total_months)%Z &&
         match job_max_exp with None => true | Some mx => (total_months <=? mx)%Z end
      then ExpMatched else ExpNotMatched
  | None => ExpNoRequirement
  end.

(** [experience_matched] *)
Definition experience_matched (v : exp_verdict) : bool :=
  match v with ExpNotMatched => false | _ => true end.

(** [exp_match_statement] *)
Definition exp_match_statement (v : exp_verdict) : text :=
  match v with
  | ExpMatched => ‹"Experience matched"›
  | ExpNotMatched => ‹"Experience not matched"›
  | ExpNoRequirement => ‹"No experience requirement specified"›
  end.

(** ** Skill F1 *)

Definition Qnat (n : nat) : Q := inject_Z (Z.of_nat n).

(** [precision = len(matched)/len(resume_skills)],
    [recall = len(matched)/len(job_skills)], and the harmonic mean when
    [precision + recall > 0]. *)
Definition skill_f1 (matched n_resume n_job : nat) : Q :=
  let precision := Qnat matched / Qnat n_resume in
  let recall := Qnat matched / Qnat n_job in
  if Qle_bool (precision + recall) 0 then 0
  else 2 * (precision * recall) / (precision + recall).

Definition matched_set (job res : list text) : gset text :=
  list_to_set job ∩ list_to_set res.

(** [if job_skills and resume_skills: ... else: skill_score = 0] *)
Definition skill_score (job_skills resume_skills : list text) : Q :=
  match job_skills, resume_skills with
  | _ :: _, _ :: _ =>
      skill_f1 (size (matched_set job_skills resume_skills))
        (length resume_skills) (length job_skills)
  | _, _ => 0
  end.

(** ** The loop body *)

Record scored := {
  sc_score : Q;                 (* raw_scores[i] *)
  sc_skills : gset text;        (* "skills": list(matched_skills) *)
  sc_quals : gset text;         (* "qualifications": list(matched_quals) *)
  sc_verdict : exp_verdict      (* "Experience_Match" *)
}.

Definition penalty_factor : Q := 3 # 10.

Definition score_resume (job_skills job_quals : list text) (job_min_exp job_max_exp : option Z)
    (resume_skills resume_quals : list text) (total_months : Z) : scored :=
  let v := experience_verdict job_min_exp job_max_exp total_months in
  let ms := matched_set job_skills resume_skills in
  let mq := matched_set job_quals resume_quals in
  let s := skill_score job_skills resume_skills in
  let final := if negb (experience_matched v) || bool_decide (ms = ∅) || bool_decide (mq = ∅)
               then s * penalty_factor else s in
  {| sc_score := final; sc_skills := ms; sc_quals := mq; sc_verdict := v |}.

(** ** Lemmas *)
Lemma Qnat_nonneg (n : nat) : 0 <= Qnat n.
Proof. unfold Qnat, Qle. simpl. lia. Qed.

Lemma Qnat_pos (n : nat) : (0 < n)%nat -> 0 < Qnat n.
Proof. intros H. unfold Qnat, Qlt. simpl. lia. Qed.

Lemma Qnat_le (m n : nat) : (m <= n)%nat -> Qnat m <= Qnat n.
Proof. intros H. unfold Qnat, Qle. simpl. lia. Qed.

Lemma Qnat_add (m n : nat) : Qnat (m + n) == Qnat m + Qnat n.
Proof. unfold Qnat. rewrite Nat2Z.inj_add, inject_Z_plus. reflexivity. Qed.

Lemma matched_set_size (job res : list text) :
  (size (matched_set job res) <= length res /\ size (matched_set job res) <= length job)%nat.
Proof.
  unfold matched_set. split.
  - etrans; [apply subseteq_size, intersection_subseteq_r | apply size_list_to_set_le].
  - etrans; [apply subseteq_size, intersection_subseteq_l | apply size_list_to_set_le].
Qed.

(** The harmonic mean of [m/r] and [m/j] is [2m/(r+j)]. *)
Lemma skill_f1_closed (m r j : nat) :
  (0 < r)%nat -> (0 < j)%nat -> skill_f1 m r j == 2 * Qnat m / (Qnat r + Qnat j).
Proof.
  intros Hr Hj. unfold skill_f1. cbv zeta.
  pose proof (Qnat_pos r Hr) as Hr'. pose proof (Qnat_pos j Hj) as Hj'.
  destruct (Nat.eq_dec m 0) as [->|Hm].
  - assert (H0 : Qnat 0 / Qnat r + Qnat 0 / Qnat j == 0).
    { unfold Qdiv. change (Qnat 0) with 0. ring. }
    replace (Qle_bool _ _) with true by (symmetry; apply Qle_bool_iff; rewrite H0; lra).
    change (Qnat 0) with 0. unfold Qdiv. ring.
  - pose proof (Qnat_pos m ltac:(lia)) as Hm'.
    assert (Hp : 0 < Qnat m / Qnat r) by (apply Qlt_shift_div_l; lra).
    assert (Hq : 0 < Qnat m / Qnat j) by (apply Qlt_shift_div_l; lra).
    replace (Qle_bool _ _) with false; [|symmetry; apply not_true_iff_false;
      rewrite Qle_bool_iff; lra].
    assert (0 < Qnat m * Qnat j) by (apply Qmult_lt_0_compat; lra).
    assert (0 < Qnat m * Qnat r) by (apply Qmult_lt_0_compat; lra).
    field. repeat split; lra.
Qed.

#[export] Hint Resolve Qnat_nonneg Qnat_pos Qnat_le : textdb.

Lemma skill_score_bounds (job res : list text) : 0 <= skill_score job res <= 1.
Proof.
  unfold skill_score. destruct job as [|x job]; [lra|].
  destruct res as [|y res]; [lra|]. rewrite skill_f1_closed by (simpl; lia).
  destruct (matched_set_size (x :: job) (y :: res)) as [H1 H2].
  set (m := size (matched_set (x :: job) (y :: res))) in *.
  assert (Hpos : 0 < Qnat (length (y :: res)) + Qnat (length (x :: job))).
  { pose proof (Qnat_pos (length (y :: res)) ltac:(simpl; lia)).
    pose proof (Qnat_nonneg (length (x :: job))). lra. }
  pose proof (Qnat_le _ _ H1). pose proof (Qnat_le _ _ H2). pose proof (Qnat_nonneg m).
  split.
  - apply Qle_shift_div_l; [exact Hpos|]. lra.
  - apply Qle_shift_div_r; [exact Hpos|]. lra.
Qed.

Lemma score_resume_nonneg jsk jq jmin jmax rsk rq months :
  0 <= sc_score (score_resume jsk jq jmin jmax rsk rq months).
Proof.
  unfold score_resume. simpl. pose proof (skill_score_bounds jsk rsk).
  unfold penalty_factor. destruct (_ || _ || _); simpl; lra.
Qed.

(** ** Properties *)

(** C9. The skill score as the code computes it (precision, recall,
    harmonic mean) equals the closed form [2|M| / (|R| + |J|)] when both
    key lists are non-empty, and is 0 otherwise. *)
Theorem skill_score_closed_form (job res : list text) :
  skill_score job res ==
  match job, res with
  | _ :: _, _ :: _ => 2 * Qnat (size (matched_set job res)) / (Qnat (length res) + Qnat (length job))
  | _, _ => 0
  end.
Proof.
  unfold skill_score. destruct job as [|x job]; [reflexivity|].
  destruct res as [|y res]; [reflexivity|]. apply skill_f1_closed; simpl; lia.
Qed.



(** C10. Every raw score lies between 0 and 1, penalised or not. *)
Theorem score_resume_bounds jsk jq jmin jmax rsk rq months :
  0 <= sc_score (score_resume jsk jq jmin jmax rsk rq months) <= 1.
Proof.
  unfold score_resume. simpl. pose proof (skill_score_bounds jsk rsk).
  unfold penalty_factor. destruct (_ || _ || _); simpl; lra.
Qed.

(** C29. A resume that matches none of the job's skill keys scores exactly
    0: the F1 is 0 before any penalty, so the "no matched skills" trigger
    of the penalty never changes a score. *)
Theorem score_resume_no_skill_match jsk jq jmin jmax rsk rq months :
  matched_set jsk rsk = ∅ ->
  sc_score (score_resume jsk jq jmin jmax rsk rq months) == 0.
Proof.
  intros Hm. unfold score_resume. simpl.
  assert (Hs : skill_score jsk rsk == 0).
  { unfold skill_score. destruct jsk as [|x jsk]; [done|]. destruct rsk as [|y rsk]; [done|].
    rewrite skill_f1_closed, Hm by (simpl; lia). reflexivity. }
  rewrite bool_decide_eq_true_2 by done. rewrite orb_true_r. simpl.
  rewrite Hs. unfold penalty_factor. ring.
Qed.

Example score_resume_no_skill_match_witness :
  matched_set [‹"python"›] [‹"sql"›] = ∅ /\
  sc_score (score_resume [‹"python"›] [‹"bachelor"›] None None [‹"sql"›] [‹"bachelor"›] 0) == 0.
Proof.
  assert (H : matched_set [‹"python"›] [‹"sql"›] = ∅) by decide_closed.
  split; [exact H | exact (score_resume_no_skill_match _ _ _ _ _ _ _ H)].
Defined.

(** The scoring example of spec 8: job skills {python, sql} against
    resume skills {python} give precision 1, recall 1/2 and F1 2/3; with
    the qualifications and the experience unmatched the score is 2/3 * 0.3
    = 1/5. *)
Theorem score_resume_spec_example :
  skill_score [‹"python"›; ‹"sql"›] [‹"python"›] == 2 # 3 /\
  sc_score (score_resume [‹"python"›; ‹"sql"›] [‹"bachelor"›] (Some 24%Z) (Some 36%Z)
              [‹"python"›] [‹"master"›] 6%Z) == 1 # 5 /\
  sc_verdict (score_resume [‹"python"›; ‹"sql"›] [‹"bachelor"›] (Some 24%Z) (Some 36%Z)
              [‹"python"›] [‹"master"›] 6%Z) = ExpNotMatched.
Proof. repeat split; vm_compute; reflexivity. Qed.

(** C30. Precision divides by the number of raw skill keys, not by the
    number of distinct keys (spec 4.6 speaks of sets).  For every job and
    resume, listing a key the resume already has (as "React" and "ReactJS"
    both give "react") leaves the matched skills unchanged and strictly
    lowers the score of any resume with a matched skill. *)
Theorem score_resume_duplicate_keys jsk jq jmin jmax rsk rq months (k : text) :
  k ∈ rsk ->
  sc_skills (score_resume jsk jq jmin jmax (k :: rsk) rq months) =
    sc_skills (score_resume jsk jq jmin jmax rsk rq months) /\
  (matched_set jsk rsk <> ∅ ->
   sc_score (score_resume jsk jq jmin jmax (k :: rsk) rq months) <
   sc_score (score_resume jsk jq jmin jmax rsk rq months)).
Proof.
  intros Hk.
  assert (Hm : matched_set jsk (k :: rsk) = matched_set jsk rsk).
  { unfold matched_set. apply set_eq. intros x.
    rewrite !elem_of_intersection, !elem_of_list_to_set, elem_of_cons. naive_solver. }
  split; [simpl; exact Hm|]. intros Hne.
  assert (Hlt : skill_score jsk (k :: rsk) < skill_score jsk rsk).
  { destruct jsk as [|x jsk']; [by unfold matched_set in Hne; set_solver|].
    destruct rsk as [|y rsk']; [by apply elem_of_nil in Hk|].
    unfold skill_score. rewrite !skill_f1_closed by (simpl; lia). rewrite Hm.
    assert (Hpos : 0 < Qnat (size (matched_set (x :: jsk') (y :: rsk')))).
    { apply Qnat_pos. apply Nat.neq_0_lt_0. intros E. apply Hne.
      apply leibniz_equiv. by apply size_empty_inv. }
    set (a := 2 * Qnat (size (matched_set (x :: jsk') (y :: rsk')))).
    set (B := Qnat (length (y :: rsk')) + Qnat (length (x :: jsk'))).
    assert (HS : Qnat (length (k :: y :: rsk')) + Qnat (length (x :: jsk')) == B + 1).
    { unfold B. change (length (k :: y :: rsk')) with (1 + length (y :: rsk'))%nat.
      rewrite Qnat_add. change (Qnat 1) with 1. ring. }
    rewrite HS.
    assert (HB : 0 < B).
    { unfold B. pose proof (Qnat_pos (length (y :: rsk')) ltac:(simpl; lia)).
      pose proof (Qnat_nonneg (length (x :: jsk'))). lra. }
    assert (Ha : 0 < a) by (unfold a; lra).
    assert (Hab : 0 < a / B) by (apply Qlt_shift_div_l; lra).
    apply Qlt_shift_div_r; [lra|].
    assert (Heq : a / B * (B + 1) == a + a / B) by (field; lra). rewrite Heq. lra. }
  unfold score_resume. simpl. rewrite Hm. unfold penalty_factor.
  destruct (_ || _ || _); simpl; lra.
Qed.

Example score_resume_duplicate_keys_witness :
  map SkillNorm.normalize_skill [‹"React"›; ‹"ReactJS"›] = [‹"react"›; ‹"react"›] /\
  sc_score (score_resume [‹"react"›] [‹"bachelor"›] None None [‹"react"›; ‹"react"›]
              [‹"bachelor"›] 0%Z) <
  sc_score (score_resume [‹"react"›] [‹"bachelor"›] None None [‹"react"›] [‹"bachelor"›] 0%Z).
Proof.
  split; [vm_compute; reflexivity|].
  apply (score_resume_duplicate_keys _ _ _ _ [‹"react"›] _ _ ‹"react"›); [left | decide_closed].
Defined.

End Scorer.
