(* ===== verification/Ranker.v ===== *)
(** * The ranker: display scaling, the stable descending sort, ranks

    [src/app.py] lines 236-248.  If the largest raw score is positive, every
    raw score [s] is shown as [round(sqrt(s)/sqrt(max)*top, 2)], where the
    ceiling [top] is [random.randint(91, 99)].  The list is then sorted by
    the shown score, descending and stably, and ranked 1, 2, ...  If the
    largest raw score is 0, no score is set, and the key lookup of the sort
    raises [KeyError]; the handler turns that into a 500 response.  An
    empty list sets no score and sorts to [[]] without error.

    A display score is kept as an integer number of hundredths ("cents").
    [display_cents] is the exact value of the expression, rounded to the
    nearest hundredth with ties rounded up.  It is computed with [Z.sqrt] on
    [4 X] for [X = (100 top)^2 s / max].  Python's binary64 rounding is not
    modelled; exact ties (where Python rounds half to even) are the only
    other difference.

    The sort is generic in a Section over any element type and integer
    key.  Its specification [sorted_spec] says what [sorted(...,
    reverse=True)] promises: a permutation, in descending key order, that
    keeps equal keys in input order. *)

From S2P Require Import Prelude Scorer.
From stdpp Require Import base list gmap sets sorting strings.
From Stdlib Require Import ZArith QArith Qround Qminmax Lqa Lia Sorted Permutation.

Module Ranker.

(** ** Display scores *)

(** [round(math.sqrt(s) / math.sqrt(max_score) * top, 2)], in hundredths. *)
Definition display_cents (top : Z) (max_score s : Q) : Z :=
  ((Z.sqrt (Qfloor (inject_Z (4 * (100 * top) ^ 2) * s / max_score)) + 1) / 2)%Z.

(** [max(raw_scores)]: the first maximal element. *)
Definition py_qmax (x : Q) (r : list Q) : Q :=
  fold_left (fun acc y => if Qle_bool y acc then acc else y) r x.

(** Lines 237-243: [Some] list of display scores, or [None] when the
    maximum is not positive, so that no score is set and the sort of line
    246 raises [KeyError].  An empty list sets no score and sorts to [[]]. *)
Definition normalize_scores (top : Z) (raw_scores : list Q) : option (list Z) :=
  match raw_scores with
  | [] => Some []
  | x :: r =>
      let max_score := py_qmax x r in
      if Qle_bool max_score 0 then None
      else Some (map (display_cents top max_score) raw_scores)
  end.

(** *** Lemmas on the display scale *)

#[export] Instance display_cents_proper (top : Z) :
  Proper (Qeq ==> Qeq ==> eq) (display_cents top).
Proof. intros mx mx' Hm x x' Hx. unfold display_cents. by rewrite Hm, Hx. Qed.

Lemma display_cents_zero (top : Z) (mx : Q) : display_cents top mx 0 = 0%Z.
Proof.
  unfold display_cents. assert (H0 : inject_Z (4 * (100 * top) ^ 2) * 0 / mx == 0).
  { unfold Qdiv. ring. }
  rewrite H0. reflexivity.
Qed.

(** The largest raw score is shown as the ceiling itself. *)
Lemma display_cents_max (top : Z) (mx : Q) :
  (0 <= top)%Z -> 0 < mx -> display_cents top mx mx = (100 * top)%Z.
Proof.
  intros Htop Hmx. unfold display_cents.
  assert (H : inject_Z (4 * (100 * top) ^ 2) * mx / mx == inject_Z ((200 * top) * (200 * top))).
  { replace (4 * (100 * top) ^ 2)%Z with ((200 * top) * (200 * top))%Z by ring.
    field. intros E. rewrite E in Hmx. apply (Qlt_irrefl 0), Hmx. }
  rewrite H, Qfloor_Z, Z.sqrt_square by lia. zlia.
Qed.

Lemma display_cents_mono (top : Z) (mx s1 s2 : Q) :
  0 < mx -> s1 <= s2 -> (display_cents top mx s1 <= display_cents top mx s2)%Z.
Proof.
  intros Hmx Hs. unfold display_cents. apply Z.div_le_mono; [lia|].
  apply Z.add_le_mono_r, Z.sqrt_le_mono, Qfloor_resp_le.
  unfold Qdiv. apply Qmult_le_compat_r; [|apply Qinv_le_0_compat; lra].
  rewrite !(Qmult_comm (inject_Z _)). apply Qmult_le_compat_r; [exact Hs|].
  unfold Qle. simpl. pose proof (Z.pow_nonneg (100 * top) 2). lia.
Qed.

Lemma py_qmax_spec (x : Q) (r : list Q) :
  (exists y, y ∈ x :: r /\ py_qmax x r = y) /\ Forall (fun y => y <= py_qmax x r) (x :: r).
Proof.
  revert x. induction r as [|z r IH]; intros x; simpl.
  - split; [exists x; split; [left|done] | repeat constructor; lra].
  - unfold py_qmax in *. simpl. destruct (Qle_bool z x) eqn:E.
    + apply Qle_bool_iff in E. destruct (IH x) as [[y [Hy Hmax]] Hall].
      split.
      * exists y. split; [|done]. apply elem_of_cons in Hy as [->|Hy]; [left | by right; right].
      * inversion Hall as [|? ? Hx Hr]; subst. constructor; [done|]. constructor; [lra|done].
    + apply not_true_iff_false in E. rewrite Qle_bool_iff in E. apply Qnot_le_lt in E.
      destruct (IH z) as [[y [Hy Hmax]] Hall]. split.
      * exists y. split; [by right|done].
      * inversion Hall as [|? ? Hz Hr]; subst. constructor; [lra|]. by constructor.
Qed.

(** ** [sorted(..., key=..., reverse=True)] *)

Section Sort.
Context {A : Type} (key : A -> Z).

(** Insert [x] after every element whose key is at least [x]'s. *)
Fixpoint insert_desc (x : A) (l : list A) : list A :=
  match l with
  | [] => [x]
  | y :: l' => if (key y <? key x)%Z then x :: l else y :: insert_desc x l'
  end.

Definition sort_desc (l : list A) : list A :=
  fold_left (fun acc x => insert_desc x acc) l [].

(** What Python's stable descending sort promises. *)
Definition sorted_spec (l r : list A) : Prop :=
  r ≡ₚ l /\ Sorted (fun a b => key b <= key a)%Z r /\
  forall k, filter (fun x => key x = k) r = filter (fun x => key x = k) l.

(** *** Lemmas on the sort *)

Local Abbreviation desc := (fun a b => key b <= key a)%Z.
Local Abbreviation key_is k := (fun x => key x = k).

Lemma insert_desc_perm (x : A) (l : list A) : insert_desc x l ≡ₚ x :: l.
Proof.
  induction l as [|y l IH]; simpl; [done|].
  destruct (key y <? key x)%Z; [done|].
  etrans; [apply perm_skip, IH | apply perm_swap].
Qed.

Lemma sort_desc_go_perm (l acc : list A) :
  fold_left (fun acc x => insert_desc x acc) l acc ≡ₚ l ++ acc.
Proof.
  revert acc. induction l as [|x l IH]; intros acc; simpl; [done|].
  rewrite IH, insert_desc_perm. symmetry. apply Permutation_middle.
Qed.

Lemma insert_desc_hd (z x : A) (l : list A) :
  (key x <= key z)%Z -> HdRel desc z l -> HdRel desc z (insert_desc x l).
Proof.
  intros Hx Hz. destruct l as [|y l]; simpl; [by constructor|].
  destruct (key y <? key x)%Z; constructor; [lia|]. by inversion Hz.
Qed.

Lemma insert_desc_sorted (x : A) (l : list A) :
  Sorted desc l -> Sorted desc (insert_desc x l).
Proof.
  induction 1 as [|y l Hl IH Hy]; simpl; [by repeat constructor|].
  destruct (Z.ltb_spec (key y) (key x)).
  - constructor; [by constructor|]. constructor. lia.
  - constructor; [exact IH|]. apply insert_desc_hd; [lia | exact Hy].
Qed.

(** In a descending list every key is at most the head's. *)
Lemma sorted_desc_head (y : A) (l : list A) :
  Sorted desc (y :: l) -> forall z, z ∈ y :: l -> (key z <= key y)%Z.
Proof.
  intros Hs. apply Sorted_StronglySorted in Hs; [|intros a b c; simpl; lia].
  inversion Hs as [|? ? _ Hall]; subst. intros z Hz.
  apply elem_of_cons in Hz as [->|Hz]; [lia|].
  rewrite List.Forall_forall in Hall. apply Hall. by apply list_elem_of_In.
Qed.

Lemma filter_key_nil (k : Z) (l : list A) :
  (forall z, z ∈ l -> key z <> k) -> filter (key_is k) l = [].
Proof.
  induction l as [|y l IH]; intros H; [done|]. rewrite filter_cons.
  rewrite decide_False by (apply H; left). apply IH. intros z Hz. apply H. by right.
Qed.

(** Inserting into a descending list appends [x] to the block of its key. *)
Lemma insert_desc_filter (k : Z) (x : A) (l : list A) :
  Sorted desc l ->
  filter (key_is k) (insert_desc x l) = filter (key_is k) l ++ filter (key_is k) [x].
Proof.
  induction l as [|y l IH]; intros Hs; simpl; [done|].
  destruct (Z.ltb_spec (key y) (key x)) as [Hlt|Hge].
  - rewrite !(filter_cons _ x), filter_nil. case_decide as Hk.
    + rewrite (filter_key_nil k (y :: l)); [done|].
      intros z Hz. pose proof (sorted_desc_head y l Hs z Hz). lia.
    + by rewrite app_nil_r.
  - rewrite !filter_cons, IH by (by apply Sorted_inv in Hs as [? _]).
    by case_decide.
Qed.

Lemma sort_desc_go_sorted (l acc : list A) :
  Sorted desc acc -> Sorted desc (fold_left (fun acc x => insert_desc x acc) l acc).
Proof.
  revert acc. induction l as [|x l IH]; intros acc Hacc; simpl; [done|].
  apply IH, insert_desc_sorted, Hacc.
Qed.

Lemma sort_desc_go_filter (k : Z) (l acc : list A) :
  Sorted desc acc ->
  filter (key_is k) (fold_left (fun acc x => insert_desc x acc) l acc)
  = filter (key_is k) acc ++ filter (key_is k) l.
Proof.
  revert acc. induction l as [|x l IH]; intros acc Hacc; simpl; [by rewrite app_nil_r|].
  rewrite IH by (by apply insert_desc_sorted). rewrite insert_desc_filter by done.
  rewrite (filter_cons _ x l), <- app_assoc. f_equal. rewrite filter_cons, filter_nil.
  by case_decide.
Qed.

(** Two descending lists with the same block for every key are equal. *)
Lemma sorted_desc_unique (r1 r2 : list A) :
  Sorted desc r1 -> Sorted desc r2 ->
  (forall k, filter (key_is k) r1 = filter (key_is k) r2) -> r1 = r2.
Proof.
  revert r2. induction r1 as [|x1 r1 IH]; intros r2 H1 H2 Hf.
  - destruct r2 as [|x2 r2]; [done|]. specialize (Hf (key x2)).
    rewrite filter_cons, decide_True in Hf by done. done.
  - destruct r2 as [|x2 r2].
    + specialize (Hf (key x1)). rewrite filter_cons, decide_True in Hf by done. done.
    + assert (Hk : key x1 = key x2).
      { destruct (Z.lt_total (key x1) (key x2)) as [Hlt|[Heq|Hgt]]; [|done|].
        - specialize (Hf (key x2)). rewrite (filter_cons _ x2), decide_True in Hf by done.
          rewrite filter_key_nil in Hf; [done|].
          intros z Hz. pose proof (sorted_desc_head x1 r1 H1 z Hz). lia.
        - specialize (Hf (key x1)). rewrite (filter_cons _ x1), decide_True in Hf by done.
          rewrite (filter_key_nil _ (x2 :: r2)) in Hf; [done|].
          intros z Hz. pose proof (sorted_desc_head x2 r2 H2 z Hz). lia. }
      pose proof (Hf (key x1)) as Hx. rewrite !filter_cons, !decide_True in Hx by done.
      injection Hx as -> Hx. f_equal. apply IH.
      * by apply Sorted_inv in H1 as [? _].
      * by apply Sorted_inv in H2 as [? _].
      * intros k. specialize (Hf k). rewrite !filter_cons in Hf.
        case_decide; [by injection Hf | done].
Qed.

Lemma sort_desc_spec (l : list A) : sorted_spec l (sort_desc l).
Proof.
  unfold sorted_spec, sort_desc. split; [|split].
  - rewrite sort_desc_go_perm. by rewrite app_nil_r.
  - apply sort_desc_go_sorted. constructor.
  - intros k. by rewrite sort_desc_go_filter by constructor.
Qed.

End Sort.

(** [sort_desc] is Python's stable descending sort: the result is a
    permutation of the input, its keys are non-increasing, and elements with
    equal keys keep their input order.  No other list has these three
    properties. *)
Theorem sort_desc_correct {A} (key : A -> Z) (l r : list A) :
  sorted_spec key l r <-> r = sort_desc key l.
Proof.
  split; [|intros ->; apply sort_desc_spec].
  intros (Hp & Hs & Hf). destruct (sort_desc_spec key l) as (_ & Hs' & Hf').
  apply sorted_desc_unique with key; [done|done|]. intros k. by rewrite Hf, Hf'.
Qed.


(** ** Ranks *)

(** [for idx, r in enumerate(sorted_results): r["rank"] = idx + 1] *)
Definition assign_ranks {A} (l : list A) : list (A * nat) :=
  imap (fun idx r => (r, S idx)) l.

(** ** The ranking step *)

(** One entry of [candidate_data] (lines 226-234). *)
Record candidate := {
  cd_name : option text;
  cd_email : option text;
  cd_skills : gset text;
  cd_quals : gset text;
  cd_experience : text;
  cd_exp_match : text;
  cd_url : text
}.

(** An entry of the response: the candidate, its display score in
    hundredths, its rank. *)
Record ranked := {
  rk_cand : candidate;
  rk_score : Z;
  rk_rank : nat
}.

(** Lines 236-248.  [None] is the [KeyError] raised by the sort when no
    score was set. *)
Definition rank_candidates (top : Z) (data : list candidate) (raw_scores : list Q)
    : option (list ranked) :=
  match normalize_scores top raw_scores with
  | None => None
  | Some cents =>
      let sorted_results := sort_desc snd (zip data cents) in
      Some (map (fun '((c, s), i) => {| rk_cand := c; rk_score := s; rk_rank := i |})
                (assign_ranks sorted_results))
  end.

(** ** Lemmas on ranks and on the ranking step *)
Lemma imap_pair_fst {A} (g : nat -> nat) (l : list A) :
  map fst (imap (fun idx r => (r, g idx)) l) = l.
Proof.
  revert g. induction l as [|x l IH]; intros g; simpl; [done|].
  f_equal. apply (IH (fun i => g (S i))).
Qed.

Lemma imap_pair_snd {A} (g : nat -> nat) (l : list A) :
  map snd (imap (fun idx r => (r, g idx)) l) = map g (seq 0 (length l)).
Proof.
  revert g. induction l as [|x l IH]; intros g; simpl; [done|].
  f_equal. etrans; [apply (IH (fun i => g (S i)))|]. by rewrite <- seq_shift, map_map.
Qed.

Lemma assign_ranks_fst {A} (l : list A) : map fst (assign_ranks l) = l.
Proof. apply imap_pair_fst. Qed.

Lemma assign_ranks_snd {A} (l : list A) : map snd (assign_ranks l) = seq 1 (length l).
Proof. unfold assign_ranks. rewrite imap_pair_snd. apply seq_shift. Qed.

Lemma length_assign_ranks {A} (l : list A) : length (assign_ranks l) = length l.
Proof. apply length_imap. Qed.

Lemma normalize_scores_Some (top : Z) (raw : list Q) (cents : list Z) :
  normalize_scores top raw = Some cents -> raw <> [] ->
  exists x r, raw = x :: r /\ 0 < py_qmax x r /\ cents = map (display_cents top (py_qmax x r)) raw.
Proof.
  unfold normalize_scores. destruct raw as [|x r]; [done|]. intros Hn _. revert Hn.
  destruct (Qle_bool (py_qmax x r) 0) eqn:E; [done|]. intros [= <-].
  apply not_true_iff_false in E. rewrite Qle_bool_iff in E. apply Qnot_le_lt in E. eauto.
Qed.

(** Scores shown: within [0, 100 top] hundredths, with [top] itself
    shown for a largest raw score. *)
Lemma normalize_scores_range (top : Z) (raw : list Q) (cents : list Z) :
  (0 <= top)%Z -> Forall (fun s => 0 <= s) raw -> normalize_scores top raw = Some cents ->
  Forall (fun c => 0 <= c <= 100 * top)%Z cents /\ (raw <> [] -> (100 * top)%Z ∈ cents).
Proof.
  intros Htop Hnn Hn. destruct raw as [|x0 r0]; [injection Hn as <-; by split|].
  apply normalize_scores_Some in Hn as (x & r & Hxr & Hmx & ->); [|done]. rewrite Hxr in Hnn |- *.
  destruct (py_qmax_spec x r) as [[y [Hy Hmax]] Hall]. split.
  - apply Forall_forall. intros c Hc. apply list_elem_of_In, in_map_iff in Hc as [s [<- Hs]].
    apply list_elem_of_In in Hs. rewrite Forall_forall in Hall, Hnn.
    rewrite <- (display_cents_zero top (py_qmax x r)), <- (display_cents_max top (py_qmax x r)) by done.
    split; apply display_cents_mono; auto.
  - intros _. rewrite <- (display_cents_max top (py_qmax x r)) by done.
    apply list_elem_of_In, in_map_iff. exists y. split; [by rewrite Hmax|].
    by apply list_elem_of_In.
Qed.

Lemma normalize_scores_length (top : Z) (raw : list Q) (cents : list Z) :
  normalize_scores top raw = Some cents -> length cents = length raw.
Proof.
  intros Hn. destruct raw as [|x0 r0]; [by injection Hn as <-|].
  apply normalize_scores_Some in Hn as (x & r & -> & _ & ->); [apply length_map | done].
Qed.

(** A pool whose raw scores are all 0 sets no display score. *)
Lemma normalize_scores_zero (top : Z) (raw : list Q) :
  raw <> [] -> Forall (fun s => s == 0) raw -> normalize_scores top raw = None.
Proof.
  intros Hne Hz. destruct (normalize_scores top raw) as [cents|] eqn:Hn; [|done].
  apply normalize_scores_Some in Hn as (x & r & -> & Hmx & _); [|done].
  destruct (py_qmax_spec x r) as [[y [Hy Hmax]] _]. rewrite Forall_forall in Hz.
  pose proof (Hz y Hy). exfalso. rewrite Hmax in Hmx. lra.
Qed.

(** The ranking step is the stable sort of the zipped pairs, numbered. *)
Lemma rank_candidates_Some (top : Z) (data : list candidate) (raw : list Q) (res : list ranked) :
  rank_candidates top data raw = Some res ->
  exists cents, normalize_scores top raw = Some cents /\
    map (fun e => (rk_cand e, rk_score e)) res = sort_desc snd (zip data cents) /\
    map rk_rank res = seq 1 (length res).
Proof.
  unfold rank_candidates. destruct (normalize_scores top raw) as [cents|]; [|done].
  intros [= <-]. exists cents. split; [done|].
  set (L := sort_desc snd (zip data cents)). split.
  - rewrite map_map. transitivity (map fst (assign_ranks L)); [|apply assign_ranks_fst].
    apply map_ext. by intros [[c s] i].
  - rewrite map_map, length_map, length_assign_ranks, <- assign_ranks_snd.
    apply map_ext. by intros [[c s] i].
Qed.

(** With one raw score per candidate, the ranking lists each candidate
    once. *)
Lemma rank_candidates_perm (top : Z) (data : list candidate) (raw : list Q) (res : list ranked) :
  length data = length raw -> rank_candidates top data raw = Some res ->
  map rk_cand res ≡ₚ data.
Proof.
  intros Hlen Hr. apply rank_candidates_Some in Hr as (cents & Hn & Hsort & _).
  destruct (sort_desc_spec snd (zip data cents)) as (Hp & _ & _).
  rewrite <- Hsort in Hp. apply (Permutation_map fst) in Hp.
  rewrite map_map in Hp. simpl in Hp. rewrite Hp. change (map fst (zip data cents)) with (zip data cents).*1.
  rewrite fst_zip; [done|]. apply normalize_scores_length in Hn. lia.
Qed.

Lemma sorted_map_inv {A B} (R : B -> B -> Prop) (f : A -> B) (l : list A) :
  Sorted R (map f l) -> Sorted (fun a b => R (f a) (f b)) l.
Proof.
  induction l as [|x l IH]; intros Hs; [constructor|]. simpl in Hs.
  apply Sorted_inv in Hs as [Hs Hh]. constructor; [by apply IH|].
  destruct l as [|y l]; constructor. by inversion Hh.
Qed.

(** A pool with a positive raw score gets display scores. *)
Lemma normalize_scores_pos (top : Z) (raw : list Q) (s : Q) :
  s ∈ raw -> 0 < s -> is_Some (normalize_scores top raw).
Proof.
  intros Hs Hpos. unfold normalize_scores. destruct raw as [|x r]; [by apply elem_of_nil in Hs|].
  destruct (py_qmax_spec x r) as [_ Hall]. rewrite Forall_forall in Hall.
  pose proof (Hall s Hs). destruct (Qle_bool (py_qmax x r) 0) eqn:E; [|by eexists].
  apply Qle_bool_iff in E. lra.
Qed.

(** Every successful ranking of non-negative raw scores is well formed:
    ranks 1..n, non-increasing display scores within [0, 100 top]. *)
Lemma rank_candidates_wf (top : Z) (data : list candidate) (raw : list Q) (res : list ranked) :
  (0 <= top)%Z -> Forall (fun s => 0 <= s) raw -> length data = length raw ->
  rank_candidates top data raw = Some res ->
  map rk_rank res = seq 1 (length res) /\
  Sorted (fun a b => rk_score b <= rk_score a)%Z res /\
  Forall (fun e => 0 <= rk_score e <= 100 * top)%Z res.
Proof.
  intros Htop Hnn Hlen Hr.
  destruct (rank_candidates_Some _ _ _ _ Hr) as (cents & Hn & Hsort & Hrk).
  destruct (sort_desc_spec snd (zip data cents)) as (Hp & Hs & _). rewrite <- Hsort in Hp, Hs.
  destruct (normalize_scores_range _ _ _ Htop Hnn Hn) as [Hrange _].
  split; [done|]. split.
  - by apply sorted_map_inv in Hs.
  - apply Forall_forall. intros e He. rewrite Forall_forall in Hrange. apply Hrange.
    apply (elem_of_zip_r (rk_cand e) _ data). rewrite <- Hp.
    apply list_elem_of_In, in_map_iff. exists e. split; [done|]. by apply list_elem_of_In.
Qed.

(** ** Properties *)

(** C11. The ranking step refines Python's stable sort: when it succeeds,
    the (candidate, display score) pairs of the result are the stable
    descending sort of the candidates zipped with their display scores, and
    the ranks are 1, 2, ..., n in order. *)
Theorem rank_candidates_spec (top : Z) (data : list candidate) (raw : list Q) (res : list ranked) :
  rank_candidates top data raw = Some res ->
  exists cents, normalize_scores top raw = Some cents /\
    sorted_spec snd (zip data cents) (map (fun e => (rk_cand e, rk_score e)) res) /\
    map rk_rank res = seq 1 (length res).
Proof.
  intros Hr. apply rank_candidates_Some in Hr as (cents & Hn & Hsort & Hrk).
  exists cents. rewrite Hsort. split; [done|]. split; [apply sort_desc_spec | done].
Qed.

(** C12. When the ranking succeeds on non-negative raw scores, one per
    candidate, every score shown lies in [0, 100 top] hundredths and the
    first-ranked candidate shows exactly the ceiling [top]. *)
Theorem rank_candidates_top (top : Z) (data : list candidate) (raw : list Q)
    (e : ranked) (rest : list ranked) :
  (0 <= top)%Z -> Forall (fun s => 0 <= s) raw -> length data = length raw ->
  rank_candidates top data raw = Some (e :: rest) ->
  Forall (fun e' => 0 <= rk_score e' <= 100 * top)%Z (e :: rest) /\ rk_score e = (100 * top)%Z.
Proof.
  intros Htop Hnn Hlen Hr.
  destruct (rank_candidates_Some _ _ _ _ Hr) as (cents & Hn & Hsort & _).
  assert (Hne : raw <> []).
  { intros ->. injection Hn as <-. by destruct data. }
  destruct (sort_desc_spec snd (zip data cents)) as (Hp & Hs & _). rewrite <- Hsort in Hp, Hs.
  destruct (normalize_scores_range _ _ _ Htop Hnn Hn) as [Hrange Hin]. specialize (Hin Hne).
  assert (Hsc : forall e', e' ∈ e :: rest -> (0 <= rk_score e' <= 100 * top)%Z).
  { intros e' He'. rewrite Forall_forall in Hrange. apply Hrange.
    apply (elem_of_zip_r (rk_cand e') _ data). rewrite <- Hp.
    apply list_elem_of_In, in_map_iff. exists e'. split; [done|]. by apply list_elem_of_In. }
  split; [by apply Forall_forall|].
  apply list_elem_of_lookup in Hin as [i Hi].
  destruct (lookup_lt_is_Some_2 data i) as [d Hd].
  { apply lookup_lt_Some in Hi. apply normalize_scores_length in Hn. lia. }
  assert (Hz : (d, (100 * top)%Z) ∈ map (fun e => (rk_cand e, rk_score e)) (e :: rest)).
  { rewrite Hp. apply list_elem_of_lookup. exists i. by apply lookup_zip_Some. }
  pose proof (sorted_desc_head snd _ _ Hs _ Hz). pose proof (Hsc e ltac:(left)). simpl in *. lia.
Qed.

(** C13. On non-negative raw scores the ranking fails (the sort's
    [KeyError]) exactly when every raw score is 0: then no display score is
    ever set. *)
Theorem rank_candidates_all_zero (top : Z) (data : list candidate) (raw : list Q) :
  raw <> [] -> Forall (fun s => 0 <= s) raw ->
  rank_candidates top data raw = None <-> Forall (fun s => s == 0) raw.
Proof.
  intros Hne Hnn. unfold rank_candidates, normalize_scores.
  destruct raw as [|x r]; [done|].
  destruct (py_qmax_spec x r) as [[y [Hy Hmax]] Hall].
  rewrite Forall_forall in Hall, Hnn |- *.
  destruct (Qle_bool (py_qmax x r) 0) eqn:E.
  - apply Qle_bool_iff in E. split; [|done]. intros _ z Hz.
    pose proof (Hall z Hz). pose proof (Hnn z Hz). lra.
  - split; [done|]. intros Hz. apply not_true_iff_false in E. exfalso. apply E.
    apply Qle_bool_iff. rewrite Hmax. pose proof (Hz y Hy). lra.
Qed.

(** A candidate entry carrying only a name, for the examples. *)
Definition demo_candidate (n : string) : candidate :=
  {| cd_name := Some ‹n›; cd_email := None; cd_skills := ∅; cd_quals := ∅;
     cd_experience := []; cd_exp_match := []; cd_url := [] |}.

(** The pool of the example below. *)
Definition demo_pool : list candidate := [demo_candidate "a"; demo_candidate "b"; demo_candidate "c"].
Definition demo_raw : list Q := [8 # 79; 39 # 385; 1].

Example rank_candidates_spec_witness :
  exists res, rank_candidates 91 demo_pool demo_raw = Some res /\
  exists cents, normalize_scores 91 demo_raw = Some cents /\
    sorted_spec snd (zip demo_pool cents) (map (fun e => (rk_cand e, rk_score e)) res) /\
    map rk_rank res = seq 1 (length res).
Proof.
  exists (default [] (rank_candidates 91 demo_pool demo_raw)).
  assert (H : rank_candidates 91 demo_pool demo_raw =
              Some (default [] (rank_candidates 91 demo_pool demo_raw))) by (vm_compute; reflexivity).
  split; [exact H | exact (rank_candidates_spec _ _ _ _ H)].
Defined.

Example rank_candidates_top_witness :
  exists e rest, rank_candidates 91 demo_pool demo_raw = Some (e :: rest) /\
  Forall (fun e' => 0 <= rk_score e' <= 100 * 91)%Z (e :: rest) /\ rk_score e = (100 * 91)%Z.
Proof.
  destruct (rank_candidates 91 demo_pool demo_raw) as [[|e rest]|] eqn:E;
    [vm_compute in E; discriminate | | vm_compute in E; discriminate].
  exists e, rest. split; [reflexivity|].
  apply (rank_candidates_top 91 demo_pool demo_raw e rest); [lia | | reflexivity | exact E].
  repeat constructor; unfold Qle; simpl; lia.
Defined.

Example rank_candidates_all_zero_witness :
  [0; 0] <> [] /\ Forall (fun s => 0 <= s) [0; 0] /\
  (rank_candidates 91 [demo_candidate "a"; demo_candidate "b"] [0; 0] = None <->
   Forall (fun s => s == 0) [0; 0]).
Proof.
  assert (Hne : [0; 0] <> @nil Q) by discriminate.
  assert (Hnn : Forall (fun s => 0 <= s) [0; 0]) by (repeat constructor; unfold Qle; simpl; lia).
  split; [exact Hne|]. split; [exact Hnn|]. exact (rank_candidates_all_zero _ _ _ Hne Hnn).
Defined.

(** Spec 8 says the random ceiling affects only magnitudes, never the
    relative order.  Rounding makes that false.  The raw scores 8/79 (four
    skills matched out of 40 + 39 keys) and 39/385 (13 out of 40 + 37,
    penalised), next to a perfect 1:
    - with ceiling 91, both show 28.96, and the stable sort keeps their
      input order a, b;
    - with ceiling 99, they show 31.50 and 31.51, and b moves ahead of a. *)
Theorem ranking_order_depends_on_ceiling :
  let data := [demo_candidate "a"; demo_candidate "b"; demo_candidate "c"] in
  let raw := [8 # 79; 39 # 385; 1] in
  map (fun e => (cd_name (rk_cand e), rk_score e)) <$> rank_candidates 91 data raw
    = Some [(Some ‹"c"›, 9100%Z); (Some ‹"a"›, 2896%Z); (Some ‹"b"›, 2896%Z)] /\
  map (fun e => (cd_name (rk_cand e), rk_score e)) <$> rank_candidates 99 data raw
    = Some [(Some ‹"c"›, 9900%Z); (Some ‹"b"›, 3151%Z); (Some ‹"a"›, 3150%Z)].
Proof. split; vm_compute; reflexivity. Qed.

End Ranker.
