(* ===== verification/Pipeline.v ===== *)
(** * The ranking endpoint: [rank_resumes] and its cache gate

    [src/app.py] lines 88-258.  One POST request runs these steps:
    - validate the body;
    - read the job's resumes from the document store;
    - return the stored ranking when its e-mail set equals the pool's (the
      cache gate);
    - otherwise fetch and decode every resume, skipping those that fail;
    - extract the job's requirements, score each resume ([Scorer]);
    - rank the pool ([Ranker]), write the ranking back and return it.

    The collaborators form the record [services]: the HTTP fetch, the PDF
    library under [PdfText.extract_text_from_pdf] (which never raises, so
    an unreadable PDF becomes empty text and is skipped), the spaCy model ([SkillNorm.NlpModel]), the embedding model
    with the cosine similarity, and the current month.  The document store
    is the explicit state [store]; the handler returns the response with
    the new store.  The random ceiling [random.randint(91, 99)] is an
    argument.  Python's exceptions are the error responses.

    The theorems:
    - the store changes only on a recompute, and then holds the response;
    - with every e-mailed resume processable, a second call is served from
      the cache; a skipped resume with its own e-mail defeats the cache on
      every call;
    - the similarity scores never reach the response;
    - a job description without extractable skills can never be ranked;
    - a recomputed response ranks exactly the processable resumes. *)

From S2P Require Import Prelude TextNorm PdfText Qualifications SkillNorm Experience WorkPeriods Scorer Ranker.
From stdpp Require Import base list gmap sets strings.
From Stdlib Require Import ZArith QArith Lia Sorted.

Module Pipeline.

Import Scorer Ranker.

(** ** Data *)

(** A document of the [resumes] collection: the fields the handler reads. *)
Record resume_doc := {
  rd_jobId : option text;
  rd_resumeURL : option text;
  rd_fullName : option text;
  rd_email : option text
}.

#[export] Instance resume_doc_eq_dec : EqDecision resume_doc.
Proof. solve_decision. Defined.

(** A JSON object of the body: the two fields read with [data.get]. *)
Record rank_request := {
  rq_jobId : option text;
  rq_description : option text
}.

(** The body as [request.get_json()] sees it (line 93). *)
Inductive request_body :=
| BodyInvalid                   (* not JSON content or malformed: get_json() raises *)
| BodyFalsy                     (* null, false, 0, "", [] or {} *)
| BodyNonObject                 (* truthy JSON that is not an object: data.get raises *)
| BodyObject (d : rank_request).

(** The document store: the [resumes] collection, and the
    [resume_rankings] collection keyed by job id.  A ranking document holds
    [Some] list under "ranked_resumes", or [None] when it lacks that key. *)
Record store := {
  st_resumes : list resume_doc;
  st_rankings : gmap text (option (list ranked))
}.

(** The external collaborators.  [None] is a raised exception. *)
Record services := {
  sv_fetch : text -> option (list Byte.byte);      (* requests.get + raise_for_status *)
  sv_pdf : PdfText.PdfLib;                         (* PyPDF2, under extract_text_from_pdf *)
  sv_similarity : list text -> text -> list Q;     (* model.encode + cosine_similarity *)
  sv_today : Z;                                    (* datetime.today(), as a month index *)
  sv_nlp : SkillNorm.NlpModel                      (* nlp *)
}.

(** The responses: [jsonify(list)] with 200, [{"error": msg}] and
    [{"message": msg}] with their status codes. *)
Inductive response :=
| RRanked (rs : list ranked)
| RError (code : Z) (msg : text)
| RMessage (code : Z) (msg : text).

Definition msg_no_json : text := ‹"No JSON data provided"›.
Definition msg_required : text := ‹"jobId and jobDescription are required"›.
Definition msg_no_resumes : text := ‹"No resumes found for this job"›.
Definition msg_no_valid : text := ‹"No valid resumes could be processed"›.
Definition msg_internal : text := ‹"Internal server error occurred while ranking resumes"›.

(** Python truthiness of an optional string. *)
Definition truthy (o : option text) : bool :=
  match o with Some (_ :: _) => true | _ => false end.

(** ** The cache gate (lines 119-128) *)

(** [{r.get("email") for r in ... if r.get("email")}] *)
Definition email_set (emails : list (option text)) : gset text :=
  list_to_set (omap (fun o => if truthy o then o else None) emails).

Definition cached_emails (cached : list ranked) : gset text :=
  email_set (map (fun e => cd_email (rk_cand e)) cached).

Definition current_emails (resumes : list resume_doc) : gset text :=
  email_set (map rd_email resumes).

(** [if cached_data and "ranked_resumes" in cached_data] and
    [cached_emails == current_emails]: the list to serve, if any. *)
Definition cache_lookup (entry : option (option (list ranked))) (resumes : list resume_doc)
    : option (list ranked) :=
  match entry with
  | Some (Some cached) =>
      if bool_decide (cached_emails cached = current_emails resumes) then Some cached else None
  | _ => None
  end.

(** ** The processing loop (lines 130-166) *)

(** One row of [resume_texts], [resume_names], [resume_emails],
    [resume_urls]. *)
Record processed := {
  pr_text : text;
  pr_name : option text;
  pr_email : option text;
  pr_url : text
}.

(** The loop body: [continue] without a URL, on an exception of the fetch
    or the decoder, and on text that strips to nothing. *)
Definition process_resume (sv : services) (r : resume_doc) : option processed :=
  match rd_resumeURL r with
  | Some ((_ :: _) as url) =>
      bytes ← sv_fetch sv url;
      let txt := @PdfText.extract_text_from_pdf (sv_pdf sv) bytes in
      match strip txt with
      | [] => None
      | _ :: _ => Some {| pr_text := txt; pr_name := rd_fullName r;
                          pr_email := rd_email r; pr_url := url |}
      end
  | _ => None
  end.

Definition process_resumes (sv : services) (resumes : list resume_doc) : list processed :=
  omap (process_resume sv) resumes.

(** ** Scoring (lines 168-234) *)

(** The job's requirements (lines 180-183).  A Python list built from a
    set has an arbitrary order; [elements] is one such order, and the
    scorer uses only lengths and sets. *)
Record job_reqs := {
  jr_skills : list text;
  jr_quals : list text;
  jr_min : option Z;
  jr_max : option Z
}.

Definition job_requirements (sv : services) (job_description : text) : job_reqs :=
  let window := Experience.parse_required_experience
                  (Experience.extract_experience job_description) in
  {| jr_skills := map SkillNorm.normalize_skill
                    (elements (@SkillNorm.extract_skills_dynamic (sv_nlp sv) job_description));
     jr_quals := map Qualifications.normalize_qualification
                   (elements (Qualifications.extract_qualifications job_description));
     jr_min := window.1; jr_max := window.2 |}.

(** The body of [for i, score in enumerate(similarity_scores)]: the raw
    score and the [candidate_data] entry of one resume. *)
Definition score_candidate (sv : services) (jr : job_reqs) (p : processed) : Q * candidate :=
  let txt := pr_text p in
  let resume_skills := map SkillNorm.normalize_skill
                         (elements (@SkillNorm.extract_skills_dynamic (sv_nlp sv) txt)) in
  let resume_quals := map Qualifications.normalize_qualification
                        (elements (Qualifications.extract_qualifications txt)) in
  let work_section := WorkPeriods.extract_work_experience_section txt in
  let resume_periods := WorkPeriods.extract_work_periods (sv_today sv) work_section in
  let total_months := WorkPeriods.total_experience_in_months resume_periods in
  let exp_value := WorkPeriods.format_months total_months in
  let sc := score_resume (jr_skills jr) (jr_quals jr) (jr_min jr) (jr_max jr)
              resume_skills resume_quals total_months in
  (sc_score sc,
   {| cd_name := pr_name p; cd_email := pr_email p; cd_skills := sc_skills sc;
      cd_quals := sc_quals sc; cd_experience := exp_value;
      cd_exp_match := exp_match_statement (sc_verdict sc); cd_url := pr_url p |}).

(** The loop runs over the indices of [similarity_scores] and reads
    [resume_texts[i]]; an index past the end raises [IndexError]. *)
Definition score_loop (sv : services) (jr : job_reqs) (sims : list Q) (ps : list processed)
    : option (list (Q * candidate)) :=
  mapM (fun i => score_candidate sv jr <$> ps !! i) (seq 0 (length sims)).

(** ** The handler *)

(** [rank_doc_ref.set({"ranked_resumes": sorted_results})] *)
Definition write_snapshot (st : store) (job_id : text) (rs : list ranked) : store :=
  {| st_resumes := st_resumes st; st_rankings := <[job_id := Some rs]> (st_rankings st) |}.

(** [model.encode(resumes_cleaned + [job_cleaned])] and the cosine
    similarity of each resume with the job. *)
Definition similarity_scores (sv : services) (ps : list processed) (job_description : text)
    : list Q :=
  sv_similarity sv (map (fun p => TextNorm.preprocess_text (pr_text p)) ps)
    (TextNorm.preprocess_text job_description).

(** Everything after the cache gate (lines 130-254), on the job's pool:
    process, score, rank, write the snapshot and answer.  A [KeyError] of
    the sort (no score set) or an [IndexError] of the loop is the 500
    response of the [except] clause. *)
Definition recompute (sv : services) (top : Z) (job_id job_description : text)
    (resumes : list resume_doc) (st : store) : response * store :=
  match process_resumes sv resumes with
  | [] => (RMessage 404 msg_no_valid, st)
  | ps =>
      let jr := job_requirements sv job_description in
      match score_loop sv jr (similarity_scores sv ps job_description) ps with
      | None => (RError 500 msg_internal, st)
      | Some rows =>
          match rank_candidates top (map snd rows) (map fst rows) with
          | None => (RError 500 msg_internal, st)
          | Some sorted_results =>
              (RRanked sorted_results, write_snapshot st job_id sorted_results)
          end
      end
  end.

(** [resumes_ref.where("jobId", "==", job_id).stream()] *)
Definition job_resumes (st : store) (job_id : text) : list resume_doc :=
  filter (fun r => rd_jobId r = Some job_id) (st_resumes st).

(** [rank_resumes], lines 88-258. *)
Definition rank_resumes (sv : services) (top : Z) (data : request_body) (st : store)
    : response * store :=
  match data with
  | BodyInvalid | BodyNonObject => (RError 500 msg_internal, st)
  | BodyFalsy => (RError 400 msg_no_json, st)
  | BodyObject d =>
      match rq_jobId d, rq_description d with
      | Some ((_ :: _) as job_id), Some ((_ :: _) as job_description) =>
          match job_resumes st job_id with
          | [] => (RMessage 404 msg_no_resumes, st)
          | resumes =>
              match cache_lookup (st_rankings st !! job_id) resumes with
              | Some cached => (RRanked cached, st)
              | None => recompute sv top job_id job_description resumes st
              end
          end
      | _, _ => (RError 400 msg_required, st)
      end
  end.

(** The same services with another similarity model. *)
Definition with_similarity (sv : services) (f : list text -> text -> list Q) : services :=
  {| sv_fetch := sv_fetch sv; sv_pdf := sv_pdf sv; sv_similarity := f;
     sv_today := sv_today sv; sv_nlp := sv_nlp sv |}.

(** ** Lemmas *)
Lemma elem_of_email_set (l : list (option text)) (e : text) :
  e ∈ email_set l <-> Some e ∈ l /\ e <> [].
Proof.
  unfold email_set. rewrite elem_of_list_to_set, list_elem_of_omap. split.
  - intros [[[|c u]|] [Ho He]]; simpl in He; try done. injection He as <-. done.
  - intros [Hin Hne]. exists (Some e). split; [done|]. destruct e; done.
Qed.

(** The cache gate compares sets: the order of the lists does not
    matter. *)
#[export] Instance email_set_proper : Proper ((≡ₚ) ==> (=)) email_set.
Proof.
  intros l1 l2 Hp. apply set_eq. intros e. rewrite !elem_of_email_set. by rewrite Hp.
Qed.

Lemma process_resume_email (sv : services) (r : resume_doc) (p : processed) :
  process_resume sv r = Some p -> pr_email p = rd_email r.
Proof.
  unfold process_resume. destruct (rd_resumeURL r) as [[|c u]|]; try done.
  destruct (sv_fetch sv (c :: u)) as [b|]; simpl; [|done].
  destruct (strip _); [done|]. by intros [= <-].
Qed.

Lemma elem_of_process_resumes (sv : services) (rs : list resume_doc) (p : processed) :
  p ∈ process_resumes sv rs <-> exists r, r ∈ rs /\ process_resume sv r = Some p.
Proof. apply list_elem_of_omap. Qed.

Lemma mapM_map_option {A B C} (f : B -> option C) (h : A -> B) (l : list A) :
  mapM f (map h l) = mapM (f ∘ h) l.
Proof. induction l as [|x l IH]; simpl; [done|]. by rewrite IH. Qed.

(** Reading [ps[i]] for every index of [ps] maps over [ps]. *)
Lemma mapM_lookup {A B} (g : A -> B) (l : list A) :
  mapM (fun i => g <$> l !! i) (seq 0 (length l)) = Some (map g l).
Proof.
  induction l as [|x l IH]; [done|]. cbn [length seq].
  rewrite <- seq_shift. cbn [mapM]. rewrite mapM_map_option.
  change ((fun i => g <$> (x :: l) !! i) ∘ S) with (fun i => g <$> l !! i). by rewrite IH.
Qed.

(** Each scored row comes from a processed resume. *)
Lemma score_loop_rows (sv : services) (jr : job_reqs) (sims : list Q) (ps : list processed)
    (rows : list (Q * candidate)) :
  score_loop sv jr sims ps = Some rows ->
  length rows = length sims /\ forall row, row ∈ rows -> exists p, p ∈ ps /\ row = score_candidate sv jr p.
Proof.
  unfold score_loop. intros H. split.
  - apply length_mapM in H. by rewrite <- H, length_seq.
  - apply mapM_Some_1 in H. intros row Hrow.
    apply list_elem_of_lookup in Hrow as [k Hk].
    destruct (Forall2_lookup_r _ _ _ _ _ H Hk) as (i & _ & Hi).
    destruct (ps !! i) as [p|] eqn:Ep; [|done]. injection Hi as <-.
    exists p. split; [by eapply list_elem_of_lookup_2 | done].
Qed.

(** With one similarity score per resume, every processed resume is
    scored. *)
Lemma score_loop_all (sv : services) (jr : job_reqs) (sims : list Q) (ps : list processed) :
  length sims = length ps -> score_loop sv jr sims ps = Some (map (score_candidate sv jr) ps).
Proof. unfold score_loop. intros ->. apply mapM_lookup. Qed.

(** The three outcomes of a recompute. *)
Lemma recompute_Ranked (sv : services) (top : Z) (job desc : text) (resumes : list resume_doc)
    (st st' : store) (rs : list ranked) :
  recompute sv top job desc resumes st = (RRanked rs, st') ->
  exists rows,
    score_loop sv (job_requirements sv desc)
      (similarity_scores sv (process_resumes sv resumes) desc) (process_resumes sv resumes) = Some rows /\
    rank_candidates top (map snd rows) (map fst rows) = Some rs /\
    st' = write_snapshot st job rs.
Proof.
  unfold recompute. destruct (process_resumes sv resumes) as [|p ps]; [done|].
  destruct (score_loop _ _ _ _) as [rows|]; [|done].
  destruct (rank_candidates _ _ _) as [rs'|] eqn:E; [|done]. intros [= -> <-]. eauto.
Qed.

Lemma recompute_store (sv : services) (top : Z) (job desc : text) (resumes : list resume_doc)
    (st st' : store) (r : response) :
  recompute sv top job desc resumes st = (r, st') ->
  st' = st \/ exists rs, r = RRanked rs /\ st' = write_snapshot st job rs.
Proof.
  destruct r as [rs| |]; [intros H; right; exists rs; split; [done|];
    by destruct (recompute_Ranked _ _ _ _ _ _ _ _ H) as (? & _ & _ & ->)|..];
  unfold recompute; repeat case_match; intros; simplify_eq; by left.
Qed.

(** The e-mails of a recomputed ranking are those of processed resumes;
    all of them when every processed resume gets a similarity score. *)
Lemma recompute_emails_sub (sv : services) (top : Z) (job desc : text) (resumes : list resume_doc)
    (st st' : store) (rs : list ranked) (e : text) :
  recompute sv top job desc resumes st = (RRanked rs, st') ->
  Some e ∈ map (fun x => cd_email (rk_cand x)) rs ->
  exists r, r ∈ resumes /\ rd_email r = Some e /\ is_Some (process_resume sv r).
Proof.
  intros H He. destruct (recompute_Ranked _ _ _ _ _ _ _ _ H) as (rows & Hl & Hr & _).
  destruct (score_loop_rows _ _ _ _ _ Hl) as [_ Hrows].
  apply rank_candidates_perm in Hr; [|by rewrite !length_map].
  rewrite <- map_map, Hr, map_map in He.
  apply list_elem_of_In, in_map_iff in He as [row [Hem Hrow]].
  apply list_elem_of_In, Hrows in Hrow as (p & Hp & ->).
  apply elem_of_process_resumes in Hp as (r & Hr' & Hpr).
  exists r. split; [done|]. split; [|by eexists].
  rewrite <- (process_resume_email sv r p Hpr). exact Hem.
Qed.

Lemma recompute_cands (sv : services) (top : Z) (job desc : text) (resumes : list resume_doc)
    (st st' : store) (rs : list ranked) :
  length (similarity_scores sv (process_resumes sv resumes) desc) = length (process_resumes sv resumes) ->
  recompute sv top job desc resumes st = (RRanked rs, st') ->
  map rk_cand rs ≡ₚ map (fun p => (score_candidate sv (job_requirements sv desc) p).2)
                        (process_resumes sv resumes).
Proof.
  intros Hlen H. destruct (recompute_Ranked _ _ _ _ _ _ _ _ H) as (rows & Hl & Hr & _).
  rewrite score_loop_all in Hl by done. injection Hl as <-.
  apply rank_candidates_perm in Hr; [|by rewrite !length_map]. by rewrite Hr, map_map.
Qed.

(** After a recompute in which every e-mailed resume was processed and
    scored, the snapshot passes the cache gate. *)
Lemma recompute_cache_hit (sv : services) (top : Z) (job desc : text) (resumes : list resume_doc)
    (st st' : store) (rs : list ranked) :
  length (similarity_scores sv (process_resumes sv resumes) desc) = length (process_resumes sv resumes) ->
  (forall r, r ∈ resumes -> truthy (rd_email r) = true -> is_Some (process_resume sv r)) ->
  recompute sv top job desc resumes st = (RRanked rs, st') ->
  cache_lookup (st_rankings st' !! job) resumes = Some rs.
Proof.
  intros Hlen Hproc H.
  pose proof (recompute_cands _ _ _ _ _ _ _ _ Hlen H) as Hc.
  destruct (recompute_Ranked _ _ _ _ _ _ _ _ H) as (_ & _ & _ & ->).
  unfold cache_lookup, write_snapshot. simpl. rewrite lookup_insert_eq.
  rewrite bool_decide_true; [done|]. unfold cached_emails, current_emails.
  rewrite <- (map_map rk_cand cd_email), Hc, map_map. simpl.
  apply set_eq. intros e. rewrite !elem_of_email_set. split.
  - intros [He Hne]. split; [|done].
    apply list_elem_of_In, in_map_iff in He as [p [Hpe Hp]].
    apply list_elem_of_In, elem_of_process_resumes in Hp as (r & Hr & Hpr).
    rewrite (process_resume_email _ _ _ Hpr) in Hpe.
    apply list_elem_of_In, in_map_iff. exists r. split; [done|]. by apply list_elem_of_In.
  - intros [He Hne]. split; [|done].
    apply list_elem_of_In, in_map_iff in He as [r [Hre Hr]]. apply list_elem_of_In in Hr.
    destruct (Hproc r Hr) as [p Hp]; [rewrite Hre; by destruct e|].
    apply list_elem_of_In, in_map_iff. exists p.
    rewrite (process_resume_email _ _ _ Hp). split; [done|].
    apply list_elem_of_In, elem_of_process_resumes. eauto.
Qed.

Lemma score_candidate_no_job_skills (sv : services) (jr : job_reqs) (p : processed) :
  jr_skills jr = [] -> (score_candidate sv jr p).1 == 0.
Proof.
  intros Hj. unfold score_candidate, score_resume. simpl. rewrite Hj.
  unfold skill_score. by case_match.
Qed.

Lemma score_loop_length (sv : services) (jr : job_reqs) (sims1 sims2 : list Q) (ps : list processed) :
  length sims1 = length sims2 -> score_loop sv jr sims1 ps = score_loop sv jr sims2 ps.
Proof. unfold score_loop. by intros ->. Qed.



(** ** A concrete pool

    Collaborators and a store for the examples: the keyword-spotting
    stand-in [SkillNorm.demo_nlp] for the spaCy model, two downloadable resumes and one whose
    download fails, and a similarity model with one score per resume. *)

Definition demo_resume_a : text := ‹"Python and Flask developer, BSc in computer science
EXPERIENCE
Jan 2020 - Dec 2021"›.
Definition demo_resume_b : text := ‹"SQL analyst"›.
Definition demo_job : text :=
  ‹"Python and SQL developer with a computer science degree and 1-3 years of experience"›.

Definition demo_services : services := {|
  sv_fetch := fun url =>
    if bool_decide (url = ‹"https://cv/a.pdf"›) then Some [Byte.x00]
    else if bool_decide (url = ‹"https://cv/b.pdf"›) then Some [Byte.x01] else None;
  sv_pdf := {| PdfText.pdf_open := fun b =>
    match b with
    | [Byte.x00] => Some [Some (Some demo_resume_a)]
    | [Byte.x01] => Some [Some (Some demo_resume_b)]
    | _ => None
    end |};
  sv_similarity := fun ts _ => map (fun _ => 1 # 2) ts;
  sv_today := 24322;
  sv_nlp := SkillNorm.demo_nlp |}.

Definition demo_doc (url name email : string) : resume_doc :=
  {| rd_jobId := Some ‹"j1"›; rd_resumeURL := Some ‹url›; rd_fullName := Some ‹name›;
     rd_email := Some ‹email› |}.

Definition demo_request : rank_request :=
  {| rq_jobId := Some ‹"j1"›; rq_description := Some demo_job |}.

(** Two processable resumes; the same with a third whose download fails. *)
Definition demo_store : store :=
  {| st_resumes := [demo_doc "https://cv/a.pdf" "Ann" "ann@example.com";
                    demo_doc "https://cv/b.pdf" "Bob" "bob@example.com"];
     st_rankings := ∅ |}.
Definition demo_store_skip : store :=
  {| st_resumes := st_resumes demo_store ++ [demo_doc "https://cv/c.pdf" "Cy" "cy@example.com"];
     st_rankings := ∅ |}.

(** The rankings the handler computes for the two pools with ceiling 91. *)
Definition demo_ranking : list ranked :=
  match (rank_resumes demo_services 91 (BodyObject demo_request) demo_store).1 with
  | RRanked rs => rs | _ => [] end.
Definition demo_ranking_skip : list ranked :=
  match (rank_resumes demo_services 91 (BodyObject demo_request) demo_store_skip).1 with
  | RRanked rs => rs | _ => [] end.

Lemma demo_similarity_length (ts : list text) (j : text) :
  length (sv_similarity demo_services ts j) = length ts.
Proof. apply length_map. Qed.

(** A ranking written by a recompute is well formed and lists only
    e-mails of the pool. *)
Lemma recompute_snapshot (sv : services) (top : Z) (job desc : text) (resumes : list resume_doc)
    (st st' : store) (rs : list ranked) :
  (0 <= top)%Z -> recompute sv top job desc resumes st = (RRanked rs, st') ->
  map rk_rank rs = seq 1 (length rs) /\
  Sorted (fun a b => rk_score b <= rk_score a)%Z rs /\
  Forall (fun e => 0 <= rk_score e <= 100 * top)%Z rs /\
  cached_emails rs ⊆ current_emails resumes.
Proof.
  intros Htop H. destruct (recompute_Ranked _ _ _ _ _ _ _ _ H) as (rows & Hl & Hr & _).
  destruct (score_loop_rows _ _ _ _ _ Hl) as [_ Hrows].
  destruct (rank_candidates_wf top (map snd rows) (map fst rows) rs) as (Hrk & Hs & Hb);
    [done | | by rewrite !length_map | done | ].
  - apply Forall_forall. intros s Hs. apply list_elem_of_In, in_map_iff in Hs as [row [<- Hrow]].
    apply list_elem_of_In, Hrows in Hrow as (p & _ & ->). apply score_resume_nonneg.
  - split; [done|]. split; [done|]. split; [done|].
    intros e He. unfold cached_emails in He. apply elem_of_email_set in He as [He Hne].
    destruct (recompute_emails_sub _ _ _ _ _ _ _ _ _ H He) as (r & Hr' & Hre & _).
    apply elem_of_email_set. split; [|done]. rewrite <- Hre. by apply list_elem_of_fmap_2.
Qed.

(** The handler either leaves the store alone or recomputes the pool of
    the request's job. *)
Lemma rank_resumes_cases (sv : services) (top : Z) (d : request_body) (st st' : store)
    (r : response) :
  rank_resumes sv top d st = (r, st') ->
  st' = st \/ exists req job desc, d = BodyObject req /\ rq_jobId req = Some job /\
    rq_description req = Some desc /\ job <> [] /\ desc <> [] /\
    recompute sv top job desc (job_resumes st job) st = (r, st').
Proof.
  unfold rank_resumes. destruct d as [| | |req]; try (intros [= _ <-]; by left).
  destruct (rq_jobId req) as [[|c j]|] eqn:Ej; try (intros [= _ <-]; by left).
  destruct (rq_description req) as [[|c' u]|] eqn:Ed; try (intros [= _ <-]; by left).
  destruct (job_resumes st (c :: j)) as [|r0 rs0] eqn:Er; [intros [= _ <-]; by left|].
  destruct (cache_lookup _ _); [intros [= _ <-]; by left|].
  intros H. right. exists req, (c :: j), (c' :: u). rewrite Er. auto 7.
Qed.

(** ** Properties *)

(** C1. The store changes only when the handler recomputes: every other
    outcome (400, 404, 500, a cache hit) leaves it as it was.  A recompute
    keeps the resumes and writes the returned list, and only that, as the
    snapshot of the request's job. *)
Theorem rank_resumes_store (sv : services) (top : Z) (d : request_body) (st st' : store)
    (r : response) :
  rank_resumes sv top d st = (r, st') ->
  st' = st \/ exists req job rs, d = BodyObject req /\ rq_jobId req = Some job /\
                                r = RRanked rs /\ st' = write_snapshot st job rs.
Proof.
  intros H. destruct (rank_resumes_cases _ _ _ _ _ _ H) as [->|(req & job & desc & -> & Hj & _ & _ & _ & Hr)];
    [by left|].
  destruct (recompute_store _ _ _ _ _ _ _ _ Hr) as [->|(rs & -> & ->)]; [by left|].
  right. by exists req, job, rs.
Qed.

(** C2. Spec 4.8 and 8 (cache gate): when every resume of the job that has an
    e-mail can be processed, and the similarity model returns one score
    per resume, a successful ranking is served again, unchanged and
    without recomputation, by the next call for the same job, whatever the
    ceiling and the collaborators of that call. *)
Theorem cache_reused_when_processable (sv sv' : services) (top top' : Z) (req : rank_request)
    (job : text) (st st1 : store) (rs : list ranked) :
  rq_jobId req = Some job ->
  (forall ts j, length (sv_similarity sv ts j) = length ts) ->
  (forall r, r ∈ job_resumes st job -> truthy (rd_email r) = true -> is_Some (process_resume sv r)) ->
  rank_resumes sv top (BodyObject req) st = (RRanked rs, st1) ->
  rank_resumes sv' top' (BodyObject req) st1 = (RRanked rs, st1).
Proof.
  intros Hj Hsim Hproc. unfold rank_resumes. rewrite Hj.
  destruct job as [|c j]; [done|]. destruct (rq_description req) as [[|c' u]|]; try done.
  destruct (job_resumes st (c :: j)) as [|r0 rs0] eqn:Er; [done|].
  destruct (cache_lookup _ _) as [cached|] eqn:Ec.
  - intros [= <- <-]. by rewrite Er, Ec.
  - intros H. pose proof (recompute_cache_hit sv top (c :: j) (c' :: u) (r0 :: rs0) st st1 rs)
      as Hc. unfold similarity_scores in Hc. rewrite Hsim, length_map in Hc.
    specialize (Hc eq_refl Hproc H).
    destruct (recompute_Ranked _ _ _ _ _ _ _ _ H) as (_ & _ & _ & Hst).
    assert (Hjr : job_resumes st1 (c :: j) = r0 :: rs0) by (rewrite Hst; exact Er).
    rewrite Hjr, Hc. done.
Qed.

(** C3. The snapshot records only the resumes that were processed, but
    the gate compares it with every resume of the job.  If some resume
    with e-mail [e] is always skipped (no URL, a failed download, empty
    text) and no processed resume carries [e], then after every recompute
    the next call for the job recomputes again: the cache is never used,
    and each call draws a new ceiling. *)
Theorem cache_never_reused_when_skipped (sv sv' : services) (top top' : Z) (req : rank_request)
    (job desc e : text) (r0 : resume_doc) (st st1 : store) (rs : list ranked) :
  rq_jobId req = Some job -> rq_description req = Some desc -> job <> [] -> desc <> [] ->
  r0 ∈ job_resumes st job -> rd_email r0 = Some e -> e <> [] ->
  (forall r, r ∈ job_resumes st job -> rd_email r = Some e -> process_resume sv r = None) ->
  recompute sv top job desc (job_resumes st job) st = (RRanked rs, st1) ->
  rank_resumes sv' top' (BodyObject req) st1 = recompute sv' top' job desc (job_resumes st1 job) st1.
Proof.
  intros Hj Hd Hjne Hdne Hr0 He0 Hene Hskip H.
  assert (Hjr : job_resumes st1 job = job_resumes st job).
  { destruct (recompute_Ranked _ _ _ _ _ _ _ _ H) as (_ & _ & _ & ->). done. }
  assert (Hmiss : cache_lookup (st_rankings st1 !! job) (job_resumes st job) = None).
  { destruct (recompute_Ranked _ _ _ _ _ _ _ _ H) as (_ & _ & _ & Hst).
    rewrite Hst. unfold cache_lookup, write_snapshot. simpl. rewrite lookup_insert_eq.
    rewrite bool_decide_false; [done|]. intros Heq.
    assert (Hin : e ∈ current_emails (job_resumes st job)).
    { apply elem_of_email_set. split; [|done]. rewrite <- He0. by apply list_elem_of_fmap_2. }
    rewrite <- Heq in Hin. apply elem_of_email_set in Hin as [Hin _].
    destruct (recompute_emails_sub _ _ _ _ _ _ _ _ _ H Hin) as (r & Hr & Hre & [p Hp]).
    by rewrite Hskip in Hp. }
  unfold rank_resumes. rewrite Hj, Hd, Hjr.
  destruct job as [|c j]; [done|]. destruct desc as [|c' u]; [done|].
  destruct (job_resumes st (c :: j)) as [|r1 rs1] eqn:Er; [by apply elem_of_nil in Hr0|].
  by rewrite Hmiss.
Qed.

(** C6. A recompute refines the ranker on the processable resumes: with
    one similarity score per resume, the response lists exactly the
    candidate entries of the resumes that could be processed, once each,
    by non-increasing display score, ranked 1, 2, ..., n; and the snapshot
    written is this list. *)
Theorem recompute_ranks_processable (sv : services) (top : Z) (job desc : text)
    (resumes : list resume_doc) (st st' : store) (rs : list ranked) :
  (forall ts j, length (sv_similarity sv ts j) = length ts) ->
  recompute sv top job desc resumes st = (RRanked rs, st') ->
  map rk_cand rs ≡ₚ map (fun p => (score_candidate sv (job_requirements sv desc) p).2)
                        (process_resumes sv resumes) /\
  Sorted (fun a b => rk_score b <= rk_score a)%Z rs /\
  map rk_rank rs = seq 1 (length rs) /\
  st' = write_snapshot st job rs.
Proof.
  intros Hsim H. split.
  { apply (recompute_cands _ top job _ _ st st'); [|done]. unfold similarity_scores. by rewrite Hsim, length_map. }
  destruct (recompute_Ranked _ _ _ _ _ _ _ _ H) as (rows & _ & Hr & Hst).
  destruct (rank_candidates_Some _ _ _ _ Hr) as (cents & _ & Hsort & Hrk).
  destruct (sort_desc_spec snd (zip (map snd rows) cents)) as (_ & Hs & _).
  rewrite <- Hsort in Hs. apply sorted_map_inv in Hs. done.
Qed.

(** C8. Spec 4.7 combines the semantic similarity with the requirement
    score; the handler computes the similarity scores but uses only how
    many there are.  Replacing the similarity model by any other that
    returns as many scores leaves the response and the store unchanged. *)
Theorem rank_resumes_similarity_irrelevant (sv : services) (f : list text -> text -> list Q)
    (top : Z) (d : request_body) (st : store) :
  (forall ts j, length (f ts j) = length (sv_similarity sv ts j)) ->
  rank_resumes (with_similarity sv f) top d st = rank_resumes sv top d st.
Proof.
  intros Hf. unfold rank_resumes. destruct d as [| | |req]; try done.
  destruct (rq_jobId req) as [[|c j]|]; try done.
  destruct (rq_description req) as [[|c' u]|]; try done.
  destruct (job_resumes st (c :: j)) as [|r0 rs0]; [done|].
  destruct (cache_lookup _ _); [done|].
  unfold recompute. change (process_resumes (with_similarity sv f)) with (process_resumes sv).
  destruct (process_resumes sv (r0 :: rs0)) as [|p ps]; [done|].
  rewrite (score_loop_length _ _ (similarity_scores (with_similarity sv f) (p :: ps) (c' :: u))
             (similarity_scores sv (p :: ps) (c' :: u))); [done|].
  unfold similarity_scores. apply Hf.
Qed.

(** C7. A job description from which no skill is extracted can never be
    ranked: every raw score is 0, no display score is set, and the sort's
    [KeyError] makes every recompute a 500 response (or a 404 when no
    resume could be processed), with the store unchanged, whenever the
    similarity model gives one score per resume.  Spec 4.7 asks for unset
    scores and a deterministic tie order instead. *)
Theorem recompute_no_job_skills (sv : services) (top : Z) (job desc : text)
    (resumes : list resume_doc) (st st' : store) (r : response) :
  (forall ts j, length (sv_similarity sv ts j) = length ts) ->
  @SkillNorm.extract_skills_dynamic (sv_nlp sv) desc = ∅ ->
  recompute sv top job desc resumes st = (r, st') ->
  st' = st /\ (r = RMessage 404 msg_no_valid \/ r = RError 500 msg_internal).
Proof.
  intros Hsim Hsk. unfold recompute.
  destruct (process_resumes sv resumes) as [|p ps]; [intros [= <- <-]; auto|].
  destruct (score_loop _ _ _ _) as [rows|] eqn:Hl; [|intros [= <- <-]; auto].
  assert (Hz : rank_candidates top (map snd rows) (map fst rows) = None).
  { unfold rank_candidates. rewrite normalize_scores_zero; [done| |].
    { destruct (score_loop_rows _ _ _ _ _ Hl) as [Hlen _].
      unfold similarity_scores in Hlen. rewrite Hsim, length_map in Hlen.
      by destruct rows. }
    apply Forall_forall. intros s Hs. apply list_elem_of_In, in_map_iff in Hs as [row [<- Hrow]].
    apply list_elem_of_In in Hrow. destruct (score_loop_rows _ _ _ _ _ Hl) as [_ Hrows].
    destruct (Hrows row Hrow) as (q & _ & ->). apply score_candidate_no_job_skills.
    unfold job_requirements. simpl. by rewrite Hsk, elements_empty. }
  rewrite Hz. intros [= <- <-]. auto.
Qed.

(** End to end on the concrete pool: Ann (Python, computer science,
    23 months against a 12-36 month window) ranks first with the ceiling
    91.00; Bob (SQL only, no qualification, no dated experience) is
    penalised and shows 57.55. *)
Theorem demo_pipeline_example :
  map (fun e => (cd_name (rk_cand e), rk_score e, rk_rank e, cd_experience (rk_cand e),
                 cd_exp_match (rk_cand e)))
      demo_ranking =
  [(Some ‹"Ann"›, 9100%Z, 1%nat, ‹"1 year 11 months"›, ‹"Experience matched"›);
   (Some ‹"Bob"›, 5755%Z, 2%nat, ‹"0 months"›, ‹"Experience not matched"›)] /\
  rank_resumes demo_services 91 (BodyObject demo_request) demo_store =
  (RRanked demo_ranking, write_snapshot demo_store ‹"j1"› demo_ranking).
Proof. split; vm_compute; reflexivity. Qed.

(** ** Witnesses *)
Lemma demo_run : rank_resumes demo_services 91 (BodyObject demo_request) demo_store =
  (RRanked demo_ranking, write_snapshot demo_store ‹"j1"› demo_ranking).
Proof. vm_compute; reflexivity. Qed.

Lemma demo_run_skip :
  recompute demo_services 91 ‹"j1"› demo_job (job_resumes demo_store_skip ‹"j1"›) demo_store_skip =
  (RRanked demo_ranking_skip, write_snapshot demo_store_skip ‹"j1"› demo_ranking_skip).
Proof. vm_compute; reflexivity. Qed.

(** A body that [get_json()] rejects leaves the store as it was. *)
Example rank_resumes_store_witness :
  (rank_resumes demo_services 91 BodyInvalid demo_store).2 = demo_store.
Proof.
  destruct (rank_resumes_store demo_services 91 BodyInvalid demo_store _ _ (surjective_pairing _))
    as [H|(req & job & rs & Hd & _)]; [exact H | discriminate Hd].
Defined.

Example cache_reused_when_processable_witness :
  rank_resumes demo_services 99 (BodyObject demo_request) (write_snapshot demo_store ‹"j1"› demo_ranking)
  = (RRanked demo_ranking, write_snapshot demo_store ‹"j1"› demo_ranking).
Proof.
  apply (cache_reused_when_processable demo_services demo_services 91 99 demo_request ‹"j1"›
           demo_store); [reflexivity | apply demo_similarity_length | | apply demo_run].
  intros r Hr _. apply list_elem_of_In in Hr. vm_compute in Hr.
  destruct Hr as [<-|[<-|[]]]; vm_compute; by eexists.
Defined.

Example cache_never_reused_when_skipped_witness :
  rank_resumes demo_services 99 (BodyObject demo_request)
    (write_snapshot demo_store_skip ‹"j1"› demo_ranking_skip) =
  recompute demo_services 99 ‹"j1"› demo_job
    (job_resumes (write_snapshot demo_store_skip ‹"j1"› demo_ranking_skip) ‹"j1"›)
    (write_snapshot demo_store_skip ‹"j1"› demo_ranking_skip).
Proof.
  apply (cache_never_reused_when_skipped demo_services demo_services 91 99 demo_request
           ‹"j1"› demo_job ‹"cy@example.com"› (demo_doc "https://cv/c.pdf" "Cy" "cy@example.com")
           demo_store_skip _ demo_ranking_skip);
    [reflexivity | reflexivity | discriminate | discriminate | | reflexivity | discriminate | |
     apply demo_run_skip].
  - apply list_elem_of_In. vm_compute. auto.
  - intros r Hr He. apply list_elem_of_In in Hr. vm_compute in Hr.
    destruct Hr as [<-|[<-|[<-|[]]]]; vm_compute in He |- *; congruence.
Defined.

Example recompute_ranks_processable_witness :
  map rk_cand demo_ranking ≡ₚ
    map (fun p => (score_candidate demo_services (job_requirements demo_services demo_job) p).2)
        (process_resumes demo_services (job_resumes demo_store ‹"j1"›)) /\
  Sorted (fun a b => rk_score b <= rk_score a)%Z demo_ranking /\
  map rk_rank demo_ranking = seq 1 (length demo_ranking) /\
  write_snapshot demo_store ‹"j1"› demo_ranking = write_snapshot demo_store ‹"j1"› demo_ranking.
Proof.
  apply (recompute_ranks_processable demo_services 91 ‹"j1"› demo_job _ demo_store);
    [apply demo_similarity_length | vm_compute; reflexivity].
Defined.

Example rank_resumes_similarity_irrelevant_witness :
  rank_resumes (with_similarity demo_services (fun ts _ => map (fun _ => 0) ts)) 91
    (BodyObject demo_request) demo_store = rank_resumes demo_services 91 (BodyObject demo_request) demo_store.
Proof.
  apply rank_resumes_similarity_irrelevant. intros ts j. simpl. by rewrite !length_map.
Defined.

Example recompute_no_job_skills_witness :
  (recompute demo_services 91 ‹"j1"› ‹"Looking for a great colleague"›
     (job_resumes demo_store ‹"j1"›) demo_store).2 = demo_store /\
  ((recompute demo_services 91 ‹"j1"› ‹"Looking for a great colleague"›
      (job_resumes demo_store ‹"j1"›) demo_store).1 = RMessage 404 msg_no_valid \/
   (recompute demo_services 91 ‹"j1"› ‹"Looking for a great colleague"›
      (job_resumes demo_store ‹"j1"›) demo_store).1 = RError 500 msg_internal).
Proof.
  apply (recompute_no_job_skills demo_services 91 ‹"j1"› ‹"Looking for a great colleague"›
           (job_resumes demo_store ‹"j1"›));
    [apply demo_similarity_length | vm_compute; reflexivity | apply surjective_pairing].
Defined.

End Pipeline.
