(* ===== verification/Service.v ===== *)
(** * The service: its other endpoints, and the store as a state machine

    [src/app.py] lines 60-86 and 260-267: the endpoints [home] and
    [health_check] and the two error handlers, as the JSON they return.

    The store changes over time by two kinds of step:
    - a ranking request ([Pipeline.rank_resumes]) with a ceiling drawn in
      [91, 99];
    - the front end adding a resume to the [resumes] collection.  This is
      the environment of the program, not code of the repository; it
      only ever appends.
    [reachable] is the reflexive-transitive closure of [step] from an
    initial store.

    The theorems:
    - by induction on [reachable], every stored ranking stays well formed:
      ranks 1..n, non-increasing display scores within [0, 99.00], and only
      e-mails of resumes of its job;
    - progress: a request whose pool has a processable resume with a
      positive raw score is always answered with a ranking;
    - the health report is "degraded" exactly when Firestore fails. *)

From S2P Require Import Prelude Scorer Ranker Pipeline.
From stdpp Require Import base list gmap sets strings.
From Stdlib Require Import ZArith QArith Lia Sorted.

Module Service.

Import Scorer Ranker Pipeline.

(** ** The other endpoints *)

(** The JSON values these endpoints return. *)
Inductive json :=
| JStr (s : text)
| JObj (fields : list (text * json)).

(** [home] (lines 60-67) *)
Definition home : json :=
  JObj [(‹"status"›, JStr ‹"healthy"›); (‹"message"›, JStr ‹"Flask ML API is running!"›);
        (‹"version"›, JStr ‹"1.0.0"›)].

(** [health_check] (lines 69-86).  [firebase_ok] is whether
    [db.collection("test").limit(1).get()] returned without raising. *)
Definition health_check (firebase_ok : bool) : json :=
  let firebase_status := if firebase_ok then ‹"healthy"› else ‹"unhealthy"› in
  JObj [(‹"status"›, JStr (if bool_decide (firebase_status = ‹"healthy"›)
                           then ‹"healthy"› else ‹"degraded"›));
        (‹"services"›, JObj [(‹"firebase"›, JStr firebase_status);
                             (‹"ml_models"›, JStr ‹"healthy"›)])].

(** The error handlers (lines 260-267), with their status codes. *)
Definition not_found : json * Z := (JObj [(‹"error"›, JStr ‹"Endpoint not found"›)], 404%Z).
Definition internal_error : json * Z := (JObj [(‹"error"›, JStr ‹"Internal server error"›)], 500%Z).

(** A field of a JSON object. *)
Definition field (k : text) (j : json) : option json :=
  match j with JObj fs => snd <$> List.find (fun f => bool_decide (f.1 = k)) fs | JStr _ => None end.

(** ** The store as a state machine *)

(** The front end adds a resume document. *)
Definition upload (r : resume_doc) (st : store) : store :=
  {| st_resumes := st_resumes st ++ [r]; st_rankings := st_rankings st |}.

Inductive step : store -> store -> Prop :=
| step_rank (sv : services) (top : Z) (d : request_body) (st : store) :
    (91 <= top <= 99)%Z -> step st (rank_resumes sv top d st).2
| step_upload (r : resume_doc) (st : store) : step st (upload r st).

Inductive reachable (init : store) : store -> Prop :=
| reach_init : reachable init init
| reach_step (st st' : store) : reachable init st -> step st st' -> reachable init st'.

(** A stored ranking as the handler writes it. *)
Definition snapshot_wf (rs : list ranked) : Prop :=
  map rk_rank rs = seq 1 (length rs) /\
  Sorted (fun a b => rk_score b <= rk_score a)%Z rs /\
  Forall (fun e => 0 <= rk_score e <= 9900)%Z rs.

(** Every ranking document holds a well-formed ranking that lists only
    e-mails of resumes of its job. *)
Definition store_wf (st : store) : Prop :=
  forall job entry, st_rankings st !! job = Some entry ->
    exists rs, entry = Some rs /\ snapshot_wf rs /\
      cached_emails rs ⊆ current_emails (job_resumes st job).

(** ** Lemmas *)
Lemma email_set_app (l1 l2 : list (option text)) :
  email_set (l1 ++ l2) = email_set l1 ∪ email_set l2.
Proof. unfold email_set. by rewrite omap_app, list_to_set_app_L. Qed.

Lemma job_resumes_upload (r : resume_doc) (st : store) (job : text) :
  job_resumes (upload r st) job = job_resumes st job ++ filter (fun r => rd_jobId r = Some job) [r].
Proof. unfold job_resumes, upload. simpl. apply filter_app. Qed.

(** Appending resumes only adds e-mails to a pool. *)
Lemma current_emails_upload (r : resume_doc) (st : store) (job : text) :
  current_emails (job_resumes st job) ⊆ current_emails (job_resumes (upload r st) job).
Proof.
  rewrite job_resumes_upload. unfold current_emails. rewrite map_app, email_set_app. set_solver.
Qed.

(** A handler step preserves [store_wf]. *)
Lemma rank_resumes_wf (sv : services) (top : Z) (d : request_body) (st : store) :
  (91 <= top <= 99)%Z -> store_wf st -> store_wf (rank_resumes sv top d st).2.
Proof.
  intros Htop Hwf. destruct (rank_resumes sv top d st) as [r st'] eqn:E. simpl.
  destruct (rank_resumes_cases _ _ _ _ _ _ E) as [->|(req & job & desc & _ & _ & _ & _ & _ & Hr)];
    [done|].
  destruct (recompute_store _ _ _ _ _ _ _ _ Hr) as [->|(rs & -> & ->)]; [done|].
  assert (Htop0 : (0 <= top)%Z) by lia.
  destruct (recompute_snapshot _ _ _ _ _ _ _ _ Htop0 Hr) as (Hrk & Hs & Hb & He).
  intros job' entry. unfold write_snapshot. simpl.
  destruct (decide (job' = job)) as [->|Hne].
  - rewrite lookup_insert_eq. intros [= <-]. exists rs. split; [done|].
    split; [|done]. split; [done|]. split; [done|].
    eapply Forall_impl; [exact Hb|]. simpl. lia.
  - rewrite lookup_insert_ne by done. intros Hl. exact (Hwf job' entry Hl).
Qed.

Lemma upload_wf (r : resume_doc) (st : store) : store_wf st -> store_wf (upload r st).
Proof.
  intros Hwf job entry Hl. destruct (Hwf job entry Hl) as (rs & -> & Hs & He).
  exists rs. split; [done|]. split; [done|]. etrans; [exact He | apply current_emails_upload].
Qed.

(** ** Properties *)

(** C4. Invariant of the service: from a store whose ranking documents
    are well formed (e.g. none), every store reachable by ranking requests
    and resume uploads holds only well-formed rankings: ranks 1..n, display
    scores non-increasing and within [0, 99.00], and only e-mails of
    resumes of their job. *)
Theorem reachable_store_wf (init st : store) :
  store_wf init -> reachable init st -> store_wf st.
Proof.
  intros Hinit Hr. induction Hr as [|st st' _ IH Hstep]; [done|].
  destruct Hstep as [sv top d st0 Htop | r st0]; [by apply rank_resumes_wf | by apply upload_wf].
Qed.

(** C5. Progress: when the pool of the requested job has a resume that
    can be processed and scores above 0, and the similarity model returns
    one score per resume, the request is answered with a ranking, from the
    cache or recomputed, never with an error. *)
Theorem rank_resumes_progress (sv : services) (top : Z) (req : rank_request) (job desc : text)
    (st : store) (p : processed) :
  rq_jobId req = Some job -> rq_description req = Some desc -> job <> [] -> desc <> [] ->
  (forall ts j, length (sv_similarity sv ts j) = length ts) ->
  p ∈ process_resumes sv (job_resumes st job) ->
  0 < (score_candidate sv (job_requirements sv desc) p).1 ->
  exists rs st', rank_resumes sv top (BodyObject req) st = (RRanked rs, st').
Proof.
  intros Hj Hd Hjne Hdne Hsim Hp Hpos. unfold rank_resumes. rewrite Hj, Hd.
  destruct job as [|c j]; [done|]. destruct desc as [|c' u]; [done|].
  destruct (job_resumes st (c :: j)) as [|r0 rs0] eqn:Er.
  { by apply elem_of_process_resumes in Hp as (? & ?%elem_of_nil & _). }
  destruct (cache_lookup _ _) as [cached|]; [by eauto|].
  unfold recompute. destruct (process_resumes sv (r0 :: rs0)) as [|p0 ps] eqn:Eps;
    [by apply elem_of_nil in Hp|].
  rewrite score_loop_all by (unfold similarity_scores; by rewrite Hsim, length_map).
  unfold rank_candidates.
  destruct (normalize_scores_pos top (map fst (map (score_candidate sv (job_requirements sv (c' :: u)))
              (p0 :: ps))) _ ltac:(by apply list_elem_of_fmap_2, list_elem_of_fmap_2) Hpos)
    as [cents ->].
  by eexists _, _.
Qed.

(** [health_check] reports "degraded" exactly when the Firestore
    probe raised, and the ML models as healthy in every case; the error
    handlers answer 404 and 500. *)
Theorem health_check_status (firebase_ok : bool) :
  field ‹"status"› (health_check firebase_ok) =
    Some (JStr (if firebase_ok then ‹"healthy"› else ‹"degraded"›)) /\
  (field ‹"services"› (health_check firebase_ok) ≫= field ‹"ml_models"›) = Some (JStr ‹"healthy"›) /\
  field ‹"status"› home = Some (JStr ‹"healthy"›) /\
  not_found.2 = 404%Z /\ internal_error.2 = 500%Z.
Proof. destruct firebase_ok; repeat split; vm_compute; reflexivity. Qed.

(** ** Witnesses *)
Example reachable_store_wf_witness :
  store_wf (write_snapshot demo_store ‹"j1"› demo_ranking).
Proof.
  apply (reachable_store_wf demo_store).
  - intros job entry Hl. unfold demo_store in Hl. cbn [st_rankings] in Hl.
    by rewrite lookup_empty in Hl.
  - replace (write_snapshot demo_store ‹"j1"› demo_ranking)
      with (rank_resumes demo_services 91 (BodyObject demo_request) demo_store).2
      by (rewrite demo_run; reflexivity).
    eapply reach_step; [apply reach_init | apply step_rank; lia].
Defined.

(** Ann's resume as the handler processes it: the PDF text ends with the
    space [extract_text_from_pdf] appends. *)
Definition demo_processed_a : processed :=
  {| pr_text := demo_resume_a ++ [ch_space]; pr_name := Some ‹"Ann"›;
     pr_email := Some ‹"ann@example.com"›; pr_url := ‹"https://cv/a.pdf"› |}.

Example rank_resumes_progress_witness :
  demo_processed_a ∈ process_resumes demo_services (job_resumes demo_store ‹"j1"›) /\
  0 < (score_candidate demo_services (job_requirements demo_services demo_job) demo_processed_a).1 /\
  exists rs st', rank_resumes demo_services 99 (BodyObject demo_request) demo_store = (RRanked rs, st').
Proof.
  assert (Hin : demo_processed_a ∈ process_resumes demo_services (job_resumes demo_store ‹"j1"›)).
  { apply list_elem_of_In. vm_compute. left. reflexivity. }
  assert (Hpos : 0 < (score_candidate demo_services (job_requirements demo_services demo_job)
                        demo_processed_a).1) by (vm_compute; reflexivity).
  split; [exact Hin|]. split; [exact Hpos|].
  apply (rank_resumes_progress demo_services 99 demo_request ‹"j1"› demo_job demo_store
           demo_processed_a);
    [reflexivity | reflexivity | discriminate | discriminate | apply demo_similarity_length |
     exact Hin | exact Hpos].
Defined.

End Service.
